(** * MiniDrone Bluetooth adapter: a shallow embedding

    The development follows [lib/MiniDroneBtAdapter.js] and [lib/Drone.js]:
    the outbound frame builders with their per-characteristic step
    counters, the inbound packet decoder, the peripheral filter and the
    periodic flight loop.

    Conventions.
    - A JS number that the code only ever uses as an integer is a [Z].  A
      32-bit float read from or written to a buffer is kept as its IEEE-754
      bit pattern.
    - A [Buffer] is the list of its bytes, each in [0, 255].
    - The adapter object is a record; the calls it makes to the outside
      (characteristic writes, emitted events, logger lines) are appended to
      three traces kept in the same record.
    - A method is a function in a state-and-exception monad: a thrown JS
      exception keeps the mutations made before it. *)

From Stdlib Require Import ZArith Lia.
From stdpp Require Import base list strings gmap.

Local Open Scope string_scope.
Local Open Scope Z_scope.
Local Open Scope list_scope.

(** ** JS values *)

(** The values that end up in adapter fields, event payloads and log
    lines.  [VObject] and [VFunction] stand for any object and any
    function: only their type tag and truthiness are ever observed. *)
Inductive value : Type :=
| VUndefined
| VNull
| VBool (b : bool)
| VNum (n : Z)
| VFloat (bits : Z)
| VStr (s : string)
| VObject
| VFunction.

#[global] Instance value_eq_dec : EqDecision value.
Proof. solve_decision. Defined.

Definition typeof (v : value) : string :=
  match v with
  | VUndefined => "undefined"
  | VNull | VObject => "object"
  | VBool _ => "boolean"
  | VNum _ | VFloat _ => "number"
  | VStr _ => "string"
  | VFunction => "function"
  end.

(** ToBoolean.  A float is falsy when it is a zero or a NaN. *)
Definition truthy (v : value) : bool :=
  match v with
  | VUndefined | VNull => false
  | VBool b => b
  | VNum n => negb (n =? 0)
  | VFloat bits =>
      let mag := Z.land bits 2147483647 in
      negb (mag =? 0) && (mag <=? 2139095040)
  | VStr s => negb (String.eqb s "")
  | VObject | VFunction => true
  end.

(** Names every plain object inherits from [Object.prototype]. *)
Definition Object_prototype_keys : list string :=
  [ "constructor"; "__defineGetter__"; "__defineSetter__"; "hasOwnProperty";
    "__lookupGetter__"; "__lookupSetter__"; "isPrototypeOf";
    "propertyIsEnumerable"; "toString"; "valueOf"; "__proto__";
    "toLocaleString" ].

Definition Object_prototype_get (key : string) : value :=
  if bool_decide (key ∈ Object_prototype_keys)
  then (if String.eqb key "__proto__" then VObject else VFunction)
  else VUndefined.

(** ** Buffers *)

Definition Buffer : Type := list Z.

(** [new Buffer(size)] followed by [fill(0)]. *)
Definition Buffer_alloc (size : nat) : Buffer := replicate size 0.

(** [new Buffer(array)]: every entry is stored modulo 256. *)
Definition Buffer_from (array : list Z) : Buffer :=
  (λ x, Z.land x 255) <$> array.

(** [buf.writeInt16LE(value, offset)]: the value must fit an int16 and the
    two bytes must fit the buffer, otherwise the call throws ([None]). *)
Definition writeInt16LE (buf : Buffer) (val : Z) (offset : nat) : option Buffer :=
  if (-32768 <=? val) && (val <=? 32767) && bool_decide (offset + 2 ≤ length buf)%nat
  then Some (<[S offset := Z.land (Z.shiftr val 8) 255]>
             (<[offset := Z.land val 255]> buf))
  else None.

(** IEEE-754 binary32 bit pattern of an integer (round to nearest, ties to
    even; magnitudes beyond the largest finite float become infinity). *)
Definition float32_bits (z : Z) : Z :=
  if z =? 0 then 0 else
  let sign := if z <? 0 then 1 else 0 in
  let m := Z.abs z in
  let e := Z.log2 m in
  let '(e', frac) :=
    if e <=? 23 then (e, Z.shiftl m (23 - e) - 8388608)
    else
      let sh := e - 23 in
      let q := Z.shiftr m sh in
      let r := Z.land m (Z.ones sh) in
      let half := Z.shiftl 1 (sh - 1) in
      let q' := if (half <? r) || ((r =? half) && Z.odd q) then q + 1 else q in
      if q' =? 16777216 then (e + 1, 0) else (e, q' - 8388608) in
  if 127 <? e' then Z.lor (Z.shiftl sign 31) 2139095040
  else Z.lor (Z.shiftl sign 31) (Z.lor (Z.shiftl (e' + 127) 23) frac).

(** [buf.writeFloatLE(value, offset)] for an integer [value]. *)
Definition writeFloatLE (buf : Buffer) (val : Z) (offset : nat) : option Buffer :=
  if bool_decide (offset + 4 ≤ length buf)%nat
  then
    let bits := float32_bits val in
    Some (<[S (S (S offset)) := Z.land (Z.shiftr bits 24) 255]>
          (<[S (S offset) := Z.land (Z.shiftr bits 16) 255]>
           (<[S offset := Z.land (Z.shiftr bits 8) 255]>
            (<[offset := Z.land bits 255]> buf))))
  else None.

Definition readUInt8 (buf : Buffer) (offset : nat) : option Z := buf !! offset.

Definition readUInt16LE (buf : Buffer) (offset : nat) : option Z :=
  lo ← buf !! offset;
  hi ← buf !! S offset;
  Some (Z.lor lo (Z.shiftl hi 8)).

(** [buf.readFloatLE(offset)]: the four bytes as a bit pattern. *)
Definition readFloatLE (buf : Buffer) (offset : nat) : option Z :=
  b0 ← buf !! offset;
  b1 ← buf !! S offset;
  b2 ← buf !! S (S offset);
  b3 ← buf !! S (S (S offset));
  Some (Z.lor b0 (Z.lor (Z.shiftl b1 8) (Z.lor (Z.shiftl b2 16) (Z.shiftl b3 24)))).

(** ** Protocol constants *)

Module MD_CLASSES.
Definition PILOTING : Z := 0.
Definition SPEED_SETTINGS : Z := 1.
Definition ANIMATION : Z := 4.
Definition MEDIA_RECORD : Z := 6.
Definition PILOTING_SETTINGS : Z := 8.
Definition NAVIGATION_DATA_STATE : Z := 24.
End MD_CLASSES.

Module MD_METHODS.
Definition TRIM : Z := 0.
Definition TAKEOFF : Z := 1.
Definition LAND : Z := 3.
Definition EMERGENCY : Z := 4.
Definition PICTURE : Z := 1.
Definition FLIP : Z := 0.
Definition MAX_ALTITUDE : Z := 0.
Definition MAX_TILT : Z := 1.
Definition MAX_VERTICAL_SPEED : Z := 0.
Definition MAX_ROTATION_SPEED : Z := 1.
Definition DRONE_POSITION : Z := 0.
Definition DRONE_SPEED : Z := 1.
End MD_METHODS.

Module MD_DATA_TYPES.
Definition ACK : Z := 1.
Definition DATA : Z := 2.
Definition LLD : Z := 3.
Definition DATA_WITH_ACK : Z := 4.
End MD_DATA_TYPES.

(** The own properties of the [animations] object literal. *)
Definition animations : list (string * Z) :=
  [ ("flipFront", 0); ("flipBack", 1); ("flipRight", 2); ("flipLeft", 3) ].

Definition pictureState : list string := ["ready"; "busy"; "notAvailable"].
Definition pictureStateError : list string :=
  ["ok"; "unknown"; "cameraKO"; "memoryFull"; "lowBattery"].

Definition RX_COMMAND_WITH_ACK : string := "fb0e".
Definition RX_COMMAND_NO_ACK : string := "fb0f".
Definition FLIGHT_PARAMS_KEY : string := "fa0a".
Definition COMMAND_KEY : string := "fa0b".
Definition EMERGENCY_KEY : string := "fa0c".

Definition CHARACTERISTIC_MAP : list string :=
  [ RX_COMMAND_NO_ACK; RX_COMMAND_WITH_ACK; "fb1b"; "fb1c"; "fd22"; "fd23";
    "fd24"; "fd52"; "fd53"; "fd54" ].

Definition MANUFACTURER_SERIALS : list string :=
  ["4300cf1900090100"; "4300cf1909090100"; "4300cf1907090100"].
Definition DRONE_PREFIXES : list string :=
  ["RS_"; "Mars_"; "Travis_"; "Maclan_"; "Mambo_"; "Blaze_"; "NewZ_"].

Definition MD_DEVICE_TYPE : Z := 2.

Definition FLIGHT_STATUSES : list string :=
  [ "landed"; "taking off"; "hovering"; "flying";
    "landing"; "emergency"; "rolling"; "initializing" ].

Definition ALERT_STATE_CHANGED : list string :=
  ["none"; "user"; "cut_out"; "critical_battery"; "low_battery"].

(** [array[i]] for an array of strings: [undefined] out of range. *)
Definition array_get (array : list string) (i : Z) : value :=
  if i <? 0 then VUndefined
  else match array !! Z.to_nat i with
       | Some s => VStr s
       | None => VUndefined
       end.

(** [animations[animation]]: an own property, else what the object
    inherits from [Object.prototype], else [undefined]. *)
Definition animations_get (animation : string) : value :=
  match (list_to_map animations : gmap string Z) !! animation with
  | Some code => VNum code
  | None => Object_prototype_get animation
  end.

(** The byte a value becomes inside [new Buffer([...])], for the values
    [animations_get] returns: a number modulo 256, anything that is not a
    number is NaN and stored as 0. *)
Definition array_byte (v : value) : Z :=
  match v with
  | VNum n => n
  | _ => 0
  end.

(** [s.indexOf(pat)]: position of the first occurrence, or -1. *)
Fixpoint indexOf_from (s pat : string) (i : Z) : Z :=
  if String.prefix pat s then i
  else match s with
       | EmptyString => -1
       | String _ s' => indexOf_from s' pat (i + 1)
       end.

Definition indexOf (s pat : string) : Z := indexOf_from s pat 0.

(** ** The adapter object *)

Record FlightParams : Type := mkFlightParams {
  roll : Z;
  pitch : Z;
  yaw : Z;
  altitude : Z;
}.

(** What [emit] passes to the listeners besides the event name. *)
Inductive payload : Type :=
| PNone
| PValue (v : value)
| PFlightParams (fp : FlightParams)
| PDronePosition (x y : Z) (z psi ts : Z)
| PDroneSpeed (x y z : Z) (ts : Z).

Record Event : Type := mkEvent { ev_name : string; ev_arg : payload }.

Inductive Level : Type := debug | info | warn.

(** A logger call: the fixed text of the message and the values
    interpolated into it, in order. *)
Record LogLine : Type := mkLog {
  log_level : Level;
  log_text : string;
  log_args : list value;
}.

(** A characteristic write: the uuid of the characteristic object and the
    buffer handed to it (always without response). *)
Record Write : Type := mkWrite { w_uuid : string; w_buffer : Buffer }.

(** [advertisement.manufacturerData]: the BLE stack reports a Buffer; a
    caller may also hand in a string. *)
Inductive ManufacturerData : Type :=
| MDBuffer (bytes : Buffer)
| MDString (s : string).

(** A discovered peripheral, reduced to its advertisement; an absent field
    reads as [undefined]. *)
Record Peripheral : Type := mkPeripheral {
  localName : option string;
  manufacturerData : option ManufacturerData;
}.

Record Adapter : Type := mkAdapter {
  droneFilter : string;
  connected : bool;
  characteristics : list string;
  peripheral : option Peripheral;
  batteryLevel : value;
  steps : gmap string Z;
  flightStatus : value;
  alertStatus : value;
  flightParams : FlightParams;
  (* what the adapter has done to the outside, oldest first *)
  written : list Write;
  emitted : list Event;
  logged : list LogLine;
}.

(** The state the constructor leaves, before any peripheral is set up.
    A key absent from [steps] stands for a property that reads as
    [undefined] (and as NaN once incremented). *)
Definition constructor (filter : string) : Adapter :=
  {| droneFilter := filter;
     connected := false;
     characteristics := [];
     peripheral := None;
     batteryLevel := VStr "Unknown";
     steps := <[EMERGENCY_KEY := 0]> (<[COMMAND_KEY := 0]> (<[FLIGHT_PARAMS_KEY := 0]> ∅));
     flightStatus := VNull;
     alertStatus := VNum 0;
     flightParams := mkFlightParams 0 0 0 0;
     written := [];
     emitted := [];
     logged := [] |}.

Definition set_steps (st : gmap string Z) (a : Adapter) : Adapter :=
  mkAdapter (droneFilter a) (connected a) (characteristics a) (peripheral a) (batteryLevel a)
    st (flightStatus a) (alertStatus a) (flightParams a)
    (written a) (emitted a) (logged a).

Definition set_flightParams (fp : FlightParams) (a : Adapter) : Adapter :=
  mkAdapter (droneFilter a) (connected a) (characteristics a) (peripheral a) (batteryLevel a)
    (steps a) (flightStatus a) (alertStatus a) fp
    (written a) (emitted a) (logged a).

Definition set_batteryLevel (v : value) (a : Adapter) : Adapter :=
  mkAdapter (droneFilter a) (connected a) (characteristics a) (peripheral a) v
    (steps a) (flightStatus a) (alertStatus a) (flightParams a)
    (written a) (emitted a) (logged a).

Definition set_flightStatus (v : value) (a : Adapter) : Adapter :=
  mkAdapter (droneFilter a) (connected a) (characteristics a) (peripheral a) (batteryLevel a)
    (steps a) v (alertStatus a) (flightParams a)
    (written a) (emitted a) (logged a).

Definition set_alertStatus (v : value) (a : Adapter) : Adapter :=
  mkAdapter (droneFilter a) (connected a) (characteristics a) (peripheral a) (batteryLevel a)
    (steps a) (flightStatus a) v (flightParams a)
    (written a) (emitted a) (logged a).

Definition set_link (c : bool) (chars : list string) (p : option Peripheral)
    (a : Adapter) : Adapter :=
  mkAdapter (droneFilter a) c chars p (batteryLevel a)
    (steps a) (flightStatus a) (alertStatus a) (flightParams a)
    (written a) (emitted a) (logged a).

Definition add_written (w : Write) (a : Adapter) : Adapter :=
  mkAdapter (droneFilter a) (connected a) (characteristics a) (peripheral a) (batteryLevel a)
    (steps a) (flightStatus a) (alertStatus a) (flightParams a)
    (written a ++ [w]) (emitted a) (logged a).

Definition add_emitted (e : Event) (a : Adapter) : Adapter :=
  mkAdapter (droneFilter a) (connected a) (characteristics a) (peripheral a) (batteryLevel a)
    (steps a) (flightStatus a) (alertStatus a) (flightParams a)
    (written a) (emitted a ++ [e]) (logged a).

Definition add_logged (l : LogLine) (a : Adapter) : Adapter :=
  mkAdapter (droneFilter a) (connected a) (characteristics a) (peripheral a) (batteryLevel a)
    (steps a) (flightStatus a) (alertStatus a) (flightParams a)
    (written a) (emitted a) (logged a ++ [l]).

(** ** Methods: state and exceptions *)

Inductive result (A : Type) : Type :=
| Ok (a : A)
| Throw (err : string).
Arguments Ok {A} a.
Arguments Throw {A} err.

Definition M (A : Type) : Type := Adapter → result A * Adapter.

#[global] Instance M_ret : MRet M := λ A a s, (Ok a, s).
#[global] Instance M_bind : MBind M := λ A B f m s,
  match m s with
  | (Ok a, s') => f a s'
  | (Throw e, s') => (Throw e, s')
  end.

Definition this : M Adapter := λ s, (Ok s, s).
Definition update (f : Adapter → Adapter) : M unit := λ s, (Ok tt, f s).
Definition throw {A} (err : string) : M A := λ s, (Throw err, s).

(** A buffer operation that throws when it returns nothing. *)
Definition try {A} (err : string) (o : option A) : M A :=
  match o with
  | Some a => mret a
  | None => throw err
  end.

Definition Logger (lvl : Level) (text : string) (args : list value) : M unit :=
  update (add_logged (mkLog lvl text args)).

Definition emit (name : string) (arg : payload) : M unit :=
  update (add_emitted (mkEvent name arg)).

(** The state a method call ends in, returned or thrown. *)
Definition exec {A} (m : M A) (s : Adapter) : Adapter := (m s).2.

(** ** Outbound: characteristics, step counters, frame builders *)

(** [getCharacteristic(uuid)]: the first characteristic whose uuid
    matches.  The keys are plain hexadecimal strings, for which the regular
    expression search is a substring search.  Both [false] and [undefined]
    are rendered as [None]. *)
Definition find_characteristic (uuid : string) (chars : list string) : option string :=
  head (filter (λ c, indexOf c uuid ≠ -1) chars).

Definition getCharacteristic (uuid : string) : M (option string) :=
  s ← this;
  if bool_decide (characteristics s = []) then
    Logger warn "BTLE Device must be connected before calling this method" [];;
    mret None
  else
    mret (find_characteristic uuid (characteristics s)).

(** [characteristic.write(buffer, true)]; calling it on a missing
    characteristic is a TypeError. *)
Definition Characteristic_write (c : option string) (buffer : Buffer) : M unit :=
  match c with
  | Some uuid => update (add_written (mkWrite uuid buffer))
  | None => throw "TypeError"
  end.

(** [if (this.steps[uuid] >= 255) this.steps[uuid] = 0]. *)
Definition resetStep (uuid : string) : M unit :=
  s ← this;
  match steps s !! uuid with
  | Some n => if 255 <=? n then update (set_steps (<[uuid := 0]> (steps s)))
              else mret tt
  | None => mret tt
  end.

Definition write (uuid : string) (buffer : Buffer) : M unit :=
  s ← this;
  if bool_decide (characteristics s = []) then
    Logger warn "You must have bluetooth enabled and be connected to a drone before executing a command." []
  else
    (* Sequence number can only be stored in one byte, so we must reset after 255 *)
    resetStep uuid;;
    c ← getCharacteristic uuid;
    Characteristic_write c buffer.

(** [++this.steps[uuid]]: the counter is replaced by its successor, which
    is also the value of the expression.  On a key that is not there the
    result is NaN, which every integer use below turns into 0. *)
Definition preIncrement (uuid : string) : M Z :=
  s ← this;
  let steps' := alter Z.succ uuid (steps s) in
  update (set_steps steps');;
  mret (default 0 (steps' !! uuid)).

Definition createBuffer (uuid : string) (args : list Z) : M Buffer :=
  step ← preIncrement uuid;
  let buffArray := [MD_DATA_TYPES.DATA; Z.land step 255; MD_DEVICE_TYPE] in
  mret (Buffer_from (buffArray ++ args)).

Definition writeFlightParams (fp : FlightParams) : M unit :=
  let buffer := Buffer_alloc 19 in
  update (set_flightParams fp);;
  buffer ← try "RangeError" (writeInt16LE buffer 2 0);
  step ← preIncrement FLIGHT_PARAMS_KEY;
  buffer ← try "RangeError" (writeInt16LE buffer step 1);
  buffer ← try "RangeError" (writeInt16LE buffer 2 2);
  buffer ← try "RangeError" (writeInt16LE buffer 0 3);
  buffer ← try "RangeError" (writeInt16LE buffer 2 4);
  buffer ← try "RangeError" (writeInt16LE buffer 0 5);
  buffer ← try "RangeError" (writeInt16LE buffer 1 6);
  buffer ← try "RangeError" (writeInt16LE buffer (roll fp) 7);
  buffer ← try "RangeError" (writeInt16LE buffer (pitch fp) 8);
  buffer ← try "RangeError" (writeInt16LE buffer (yaw fp) 9);
  buffer ← try "RangeError" (writeInt16LE buffer (altitude fp) 10);
  buffer ← try "RangeError" (writeFloatLE buffer 0 11);
  write FLIGHT_PARAMS_KEY buffer;;
  emit "flightParamChange" (PFlightParams fp).

Definition writeTrim : M unit :=
  buffer ← createBuffer COMMAND_KEY [MD_CLASSES.PILOTING; MD_METHODS.TRIM; 0];
  write COMMAND_KEY buffer;;
  Logger info "Trim command called" [].

Definition writeTakeoff : M unit :=
  buffer ← createBuffer COMMAND_KEY [MD_CLASSES.PILOTING; MD_METHODS.TAKEOFF; 0];
  write COMMAND_KEY buffer;;
  Logger info "Takeoff command called" [].

Definition writeLand : M unit :=
  buffer ← createBuffer COMMAND_KEY [MD_CLASSES.PILOTING; MD_METHODS.LAND; 0];
  write COMMAND_KEY buffer;;
  Logger info "Land command called" [].

Definition writeEmergency : M unit :=
  buffer ← createBuffer EMERGENCY_KEY [MD_CLASSES.PILOTING; MD_METHODS.EMERGENCY; 0];
  write EMERGENCY_KEY buffer;;
  Logger info "Emergency command called" [].

Definition writeTakePicture : M unit :=
  buffer ← createBuffer COMMAND_KEY [MD_CLASSES.MEDIA_RECORD; MD_METHODS.PICTURE; 0];
  write COMMAND_KEY buffer;;
  Logger info "Take picture command called" [].

Definition writeAnimation (animation : string) : M unit :=
  if String.eqb (typeof (animations_get animation)) "undefined" then mret tt
  else
    buffer ← createBuffer COMMAND_KEY
      [MD_CLASSES.ANIMATION; MD_METHODS.FLIP; 0;
       array_byte (animations_get animation); 0; 0; 0];
    write COMMAND_KEY buffer;;
    Logger info "Animation command called with ${animation} argument" [VStr animation].

(** The four limit setters share one body up to the class and method
    codes, the event name and the log line.  The limit is taken to be an
    integer, as the setters document it for altitude and tilt. *)
Definition writeLimit (classCode methodCode : Z) (event text : string) (val : Z) : M unit :=
  let buffer := Buffer_alloc 19 in
  buffer ← try "RangeError" (writeInt16LE buffer 2 0);
  step ← preIncrement FLIGHT_PARAMS_KEY;
  buffer ← try "RangeError" (writeInt16LE buffer step 1);
  buffer ← try "RangeError" (writeInt16LE buffer 2 2);
  buffer ← try "RangeError" (writeInt16LE buffer classCode 3);
  buffer ← try "RangeError" (writeInt16LE buffer methodCode 4);
  buffer ← try "RangeError" (writeInt16LE buffer 0 5);
  buffer ← try "RangeError" (writeFloatLE buffer val 6);
  buffer ← try "RangeError" (writeFloatLE buffer 0 10);
  write COMMAND_KEY buffer;;
  emit event (PValue (VNum val));;
  Logger debug text [VNum val].

Definition writeMaxAltitude (alt : Z) : M unit :=
  writeLimit MD_CLASSES.PILOTING_SETTINGS MD_METHODS.MAX_ALTITUDE
    "maxAltitudeChange" "Setting max altitude to ${altitude}m" alt.

Definition writeMaxTilt (tilt : Z) : M unit :=
  writeLimit MD_CLASSES.PILOTING_SETTINGS MD_METHODS.MAX_TILT
    "maxTiltChange" "Setting max tilt to ${tilt}% (20° max)" tilt.

Definition writeMaxVerticalSpeed (verticalSpeed : Z) : M unit :=
  writeLimit MD_CLASSES.SPEED_SETTINGS MD_METHODS.MAX_VERTICAL_SPEED
    "maxVerticalSpeedChange" "Setting max vertical speed to ${verticalSpeed} m/s"
    verticalSpeed.

Definition writeMaxRotationSpeed (rotationSpeed : Z) : M unit :=
  writeLimit MD_CLASSES.SPEED_SETTINGS MD_METHODS.MAX_ROTATION_SPEED
    "maxRotationSpeedChange" "Setting max rotation speed to ${rotationSpeed} °/s"
    rotationSpeed.

(** [setupPeripheral], at the point where the discovery callback has
    received the characteristics, along the path on which every
    subscription and listener registration finds its characteristic; the
    callback with these steps written out, TypeError included, is
    [Discovery.setupPeripheral] below, and the two agree whenever the
    characteristics cover [CHARACTERISTIC_MAP]. *)
Definition setupPeripheral (chars : list string) : M unit :=
  s ← this;
  match peripheral s with
  | None => mret tt
  | Some _ =>
      update (set_link true chars (peripheral s));;
      Logger info "Device connected ${this.peripheral.advertisement.localName}" []
  end.

Definition onDisconnect : M unit :=
  s ← this;
  (if connected s then Logger info "Disconnected from drone" [] else mret tt);;
  update (set_link false [] None);;
  emit "disconnected" PNone;;
  Logger info "Start scanning" [].

(** [onNobleStateChange(state)]; starting the scan is the BLE stack's
    business and leaves no trace here. *)
Definition onNobleStateChange (state : string) : M unit :=
  if String.eqb state "poweredOn" then
    Logger info "Bluetooth dongle ready, start scanning" []
  else if String.eqb state "poweredOff" then
    emit "poweredOff" (PValue (VBool true))
  else mret tt.

(** [updateRssi()], with the reply of the peripheral to the query: an
    error ([None]) or the signal strength. *)
Definition updateRssi (reply : option Z) : M unit :=
  s ← this;
  match peripheral s with
  | None => mret tt
  | Some _ =>
      match reply with
      | None => mret tt
      | Some rssi => emit "rssiUpdate" (PValue (VNum rssi))
      end
  end.

(** ** Inbound: the packet decoder *)

(** The line every unmatched branch logs: a fixed prefix followed by the
    data type and the (project, class, command) triple. *)
Definition missing (text : string) (dataType project msgClass commandKey : Z) : M unit :=
  Logger info text [VNum dataType; VNum project; VNum msgClass; VNum commandKey].

Definition limitChanged (text : string) (data : Buffer) : M unit :=
  current ← try "RangeError" (readFloatLE data 6);
  min ← try "RangeError" (readFloatLE data 10);
  max ← try "RangeError" (readFloatLE data 14);
  Logger info text [VFloat current; VFloat min; VFloat max].

Definition decodePacket (data : Buffer) : M unit :=
  dataType ← try "RangeError" (readUInt8 data 0);
  _steps ← try "RangeError" (readUInt8 data 1);
  project ← try "RangeError" (readUInt8 data 2);
  msgClass ← try "RangeError" (readUInt8 data 3);
  commandKey ← try "RangeError" (readUInt8 data 4);
  let unmatched := missing "Packet implementation missing" dataType project msgClass commandKey in
  (if (dataType =? 1) || (dataType =? 2) || (dataType =? 3) || (dataType =? 4)
   then mret tt
   else missing "DataType missing" dataType project msgClass commandKey);;
  if project =? 0 then
    Logger debug "COMMON" [];;
    if msgClass =? 5 then            (* CommonState *)
      if commandKey =? 1 then        (* BatteryStateChanged *)
        level ← try "RangeError" (readUInt8 data 6);
        update (set_batteryLevel (VNum level));;
        emit "batteryStatusChange" (PValue (VNum level));;
        Logger debug "Battery level: ${this.batteryLevel}%" [VNum level]
      else unmatched
    else if msgClass =? 30 then      (* RunState *)
      if commandKey =? 0 then        (* RunIdChanged *)
        Logger debug "RunIdChanged : Used for Parrot Academy, no need to implement. Send a new unique number at TakeOff" []
      else unmatched
    else unmatched
  else if project =? 1 then
    Logger info "ARDRONE3" []
  else if project =? 2 then
    Logger debug "MINIDRONE" [];;
    if msgClass =? 18 then           (* NavigationDataState *)
      if commandKey =? 0 then        (* Drone Position *)
        posx ← try "RangeError" (readFloatLE data 6);
        posy ← try "RangeError" (readFloatLE data 10);
        posz ← try "RangeError" (readUInt16LE data 14);
        psi ← try "RangeError" (readUInt16LE data 16);
        ts ← try "RangeError" (readUInt16LE data 18);
        emit "dronePositionChange" (PDronePosition posx posy posz psi ts);;
        Logger debug "Position : x=${posx} - y=${posy} - z=${posz} - psi=${psi} - timestamp=${ts}"
          [VFloat posx; VFloat posy; VNum posz; VNum psi; VNum ts]
      else if commandKey =? 1 then   (* DroneSpeed *)
        speedx ← try "RangeError" (readFloatLE data 6);
        speedy ← try "RangeError" (readFloatLE data 10);
        speedz ← try "RangeError" (readFloatLE data 14);
        ts ← try "RangeError" (readUInt16LE data 18);
        emit "droneSpeedChange" (PDroneSpeed speedx speedy speedz ts);;
        Logger debug "Speed : x=${speedx} - y=${speedy} - z=${speedz} - timestamp=${ts}"
          [VFloat speedx; VFloat speedy; VFloat speedz; VNum ts]
      else unmatched
    else if msgClass =? 3 then       (* Piloting state *)
      if commandKey =? 1 then        (* FlyingStateChanged *)
        i ← try "RangeError" (readUInt8 data 6);
        update (set_flightStatus (array_get FLIGHT_STATUSES i));;
        emit "flightStatusChange" (PValue (array_get FLIGHT_STATUSES i));;
        i' ← try "RangeError" (readUInt8 data 6);
        Logger debug "Flight status = ${this.flightStatus} - ${data.readUInt8(6)}"
          [array_get FLIGHT_STATUSES i; VNum i']
      else if commandKey =? 2 then   (* AlertStateChanged *)
        i ← try "RangeError" (readUInt8 data 6);
        update (set_alertStatus (array_get ALERT_STATE_CHANGED i));;
        emit "alertStateChange" (PValue (array_get ALERT_STATE_CHANGED i));;
        i' ← try "RangeError" (readUInt8 data 6);
        Logger debug "AlertStateChange = ${this.alertStatus} - ${data.readUInt8(6)}"
          [array_get ALERT_STATE_CHANGED i; VNum i']
      else if commandKey =? 3 then   (* AutoTakeOffModeChanged *)
        autoTakeOffModeChanged ← try "RangeError" (readUInt8 data 6);
        Logger debug "AutoTakeOffModeChanged = ${autoTakeOffModeChanged}"
          [VNum autoTakeOffModeChanged]
      else unmatched
    else if msgClass =? 5 then       (* SpeedSettingsState *)
      if commandKey =? 0 then
        limitChanged "MaxVerticalSpeedChanged : current=${data.readFloatLE(6)} - min=${data.readFloatLE(10)} - max=${data.readFloatLE(14)}" data
      else if commandKey =? 1 then
        limitChanged "MaxRotationSpeedChanged : current=${data.readFloatLE(6)} - min=${data.readFloatLE(10)} - max=${data.readFloatLE(14)}" data
      else unmatched
    else if msgClass =? 7 then       (* MediaRecordState *)
      if commandKey =? 1 then        (* PictureStateChangedV2 *)
        st ← try "RangeError" (readUInt8 data 6);
        err ← try "RangeError" (readUInt8 data 7);
        Logger debug "PictureStateChangedV2 : state= ${pictureState[data.readUInt8(6)]} - error=${pictureStateError[data.readUInt8(7)]}"
          [array_get pictureState st; array_get pictureStateError err]
      else unmatched
    else if msgClass =? 9 then       (* PilotingSettingsState *)
      if commandKey =? 0 then
        limitChanged "MaxAltitudeChanged : current=${data.readFloatLE(6)} - min=${data.readFloatLE(10)} - max=${data.readFloatLE(14)}" data
      else if commandKey =? 1 then
        limitChanged "MaxTiltChanged : current=${data.readFloatLE(6)} - min=${data.readFloatLE(10)} - max=${data.readFloatLE(14)}" data
      else unmatched
    else unmatched
  else
    missing "Project missing missing" dataType project msgClass commandKey.

Definition onRXCommandWithACK (data : Buffer) : M unit := decodePacket data.
Definition onRXCommandNoACK (data : Buffer) : M unit := decodePacket data.

(** ** Peripheral filter *)

Definition js_and (a b : value) : value := if truthy a then b else a.
Definition js_or (a b : value) : value := if truthy a then a else b.

Definition value_of_name (name : option string) : value :=
  match name with
  | Some s => VStr s
  | None => VUndefined
  end.

(** [MANUFACTURER_SERIALS.indexOf(manufacturer)]: strict equality against
    the serial strings, which a Buffer never satisfies. *)
Definition serials_indexOf (m : ManufacturerData) : Z :=
  match m with
  | MDBuffer _ => -1
  | MDString s =>
      match list_find (λ x, x = s) MANUFACTURER_SERIALS with
      | Some (i, _) => Z.of_nat i
      | None => -1
      end
  end.

Definition value_of_manufacturer (m : option ManufacturerData) : value :=
  match m with
  | None => VUndefined
  | Some (MDBuffer _) => VObject
  | Some (MDString s) => VStr s
  end.

Section Filter.
(** [new RegExp(pattern).test(subject)] for a pattern that compiles, left
    abstract; [Compiled.validatePeripheral] below adds the SyntaxError of a
    pattern that does not. *)
Variable RegExp_test : string → string → bool.

Definition validatePeripheral (a : Adapter) (p : option Peripheral) : value :=
  match p with
  | None => VBool false
  | Some p =>
      let localNameMatch :=
        if String.eqb (droneFilter a) ""
        then js_and (value_of_name (localName p))
               (VBool (existsb (λ prefix, 0 <=? indexOf (default "" (localName p)) prefix)
                         DRONE_PREFIXES))
        else VBool (RegExp_test (droneFilter a) (default "undefined" (localName p))) in
      let manufacturerMatch :=
        js_and (value_of_manufacturer (manufacturerData p))
          (VBool (match manufacturerData p with
                  | Some m => 0 <=? serials_indexOf m
                  | None => false
                  end)) in
      js_or localNameMatch manufacturerMatch
  end.

(** [onPeripheralDiscovery] up to the connection request. *)
Definition onPeripheralDiscovery (p : option Peripheral) : M unit :=
  s ← this;
  if negb (truthy (validatePeripheral s p)) then mret tt
  else
    Logger info "Peripheral ${peripheral.advertisement.localName} found, trying to connect..."
      [value_of_name (p ≫= localName)];;
    update (set_link (connected s) (characteristics s) p).
End Filter.

(** ** The filter with its pattern compiled *)

Module Compiled.
Section Pattern.
(** [new RegExp(pattern)]: [None] when the pattern is not a valid regular
    expression, which is a SyntaxError, and otherwise the [test] of the
    compiled expression. *)
Variable RegExp_new : string → option (string → bool).

(** [validatePeripheral] with the expression built on every call that
    gets past the test of the peripheral, whatever the filter. *)
Definition validatePeripheral (a : Adapter) (p : option Peripheral) : result value :=
  match p with
  | None => Ok (VBool false)
  | Some _ =>
      match RegExp_new (droneFilter a) with
      | None => Throw "SyntaxError"
      | Some re => Ok (validatePeripheral (λ _, re) a p)
      end
  end.
End Pattern.
End Compiled.

(** A stand-in for the regular expressions of the examples: "^RS_" tests
    for that prefix, "(" does not compile, anything else matches nothing. *)
Definition example_RegExp (pattern : string) : option (string → bool) :=
  if String.eqb pattern "(" then None
  else if String.eqb pattern "^RS_" then Some (String.prefix "RS_")
  else Some (λ _, false).

(** ** Reading a property of the adapter object *)

Definition Adapter_methods : list string :=
  [ "onNobleStateChange"; "write"; "createBuffer"; "writeFlightParams";
    "writeTrim"; "writeTakeoff"; "writeLand"; "writeEmergency";
    "writeTakePicture"; "writeAnimation"; "writeMaxAltitude"; "writeMaxTilt";
    "writeMaxVerticalSpeed"; "writeMaxRotationSpeed"; "onPeripheralDiscovery";
    "onDisconnect"; "disconnect"; "setupPeripheral"; "updateRssi";
    "validatePeripheral"; "getCharacteristic"; "onRXCommandWithACK";
    "onRXCommandNoACK"; "decodePacket" ].

Definition EventEmitter_methods : list string :=
  [ "setMaxListeners"; "getMaxListeners"; "emit"; "addListener"; "on";
    "prependListener"; "once"; "prependOnceListener"; "removeListener";
    "removeAllListeners"; "listeners"; "listenerCount"; "eventNames" ].

(** [adapter[key]]: the fields the constructor assigns, then the methods of
    the class and of EventEmitter, then [Object.prototype].  The listener
    bookkeeping of the emitter is given the values of a fresh emitter. *)
Definition Adapter_get (a : Adapter) (key : string) : value :=
  if String.eqb key "options" then VObject
  else if String.eqb key "noble" then VObject
  else if String.eqb key "connected" then VBool (connected a)
  else if String.eqb key "peripheral" then
    (match peripheral a with Some _ => VObject | None => VNull end)
  else if String.eqb key "characteristics" then VObject
  else if String.eqb key "batteryLevel" then batteryLevel a
  else if String.eqb key "steps" then VObject
  else if String.eqb key "flightStatus" then flightStatus a
  else if String.eqb key "alertStatus" then alertStatus a
  else if String.eqb key "flightParams" then VObject
  else if String.eqb key "domain" then VNull
  else if String.eqb key "_events" then VObject
  else if String.eqb key "_eventsCount" then VNum 0
  else if String.eqb key "_maxListeners" then VUndefined
  else if bool_decide (key ∈ Adapter_methods ++ EventEmitter_methods) then VFunction
  else Object_prototype_get key.

(** ** The Drone facade and its flight loop *)

Module Drone.

(** [new MiniDroneBtAdapter()]: no options, so the filter is empty. *)
Definition new_MiniDroneBtAdapter : Adapter := constructor "".

Record t : Type := mk {
  flightParams : FlightParams;
  network : option Adapter;
}.

Definition constructor : t :=
  {| flightParams := mkFlightParams 0 0 0 0; network := None |}.

(** A partial update: the keys present in the argument. *)
Record Partial : Type := mkPartial {
  p_roll : option Z;
  p_pitch : option Z;
  p_yaw : option Z;
  p_altitude : option Z;
}.

Definition setFlightParams (fp : Partial) (d : t) : t :=
  {| flightParams :=
       mkFlightParams (default (roll (flightParams d)) (p_roll fp))
                      (default (pitch (flightParams d)) (p_pitch fp))
                      (default (yaw (flightParams d)) (p_yaw fp))
                      (default (altitude (flightParams d)) (p_altitude fp));
     network := network d |}.

Definition connect (d : t) : t :=
  match network d with
  | Some _ => d
  | None => {| flightParams := flightParams d;
               network := Some new_MiniDroneBtAdapter |}
  end.

(** Something happening inside the adapter the drone holds: a BLE
    callback, or a method the facade forwards to.  Calling a method of a
    missing adapter is a TypeError. *)
Definition on_network {A} (m : M A) (d : t) : result A * t :=
  match network d with
  | None => (Throw "TypeError", d)
  | Some n =>
      let '(r, n') := m n in
      (r, {| flightParams := flightParams d; network := Some n' |})
  end.

Definition isFlying (d : t) : bool :=
  match network d with
  | None => false
  | Some n =>
      bool_decide (flightStatus n = VStr "hovering") ||
      bool_decide (flightStatus n = VStr "flying") ||
      bool_decide (flightStatus n = VStr "rolling") ||
      bool_decide (flightStatus n = VStr "taking off")
  end.

Definition takeOff : t → result unit * t := on_network writeTakeoff.
Definition land : t → result unit * t := on_network writeLand.
Definition emergency : t → result unit * t := on_network writeEmergency.
Definition animate (animation : string) : t → result unit * t :=
  on_network (writeAnimation animation).

Definition trim : t → result unit * t := on_network writeTrim.
Definition takePicture : t → result unit * t := on_network writeTakePicture.

Definition takeoffOrLand (d : t) : result unit * t :=
  if isFlying d then land d else takeOff d.

Definition getBatteryLevel (d : t) : result value :=
  match network d with
  | None => Throw "TypeError"
  | Some n => Ok (batteryLevel n)
  end.

(** One tick of the interval timer. *)
Definition eventLoop (d : t) : result unit * t :=
  match network d with
  | None => (Ok tt, d)
  | Some n =>
      if negb (truthy (Adapter_get n "flightStatusChange")) then (Ok tt, d)
      else on_network (writeFlightParams (flightParams d)) d
  end.

End Drone.

(** ** Sequences of calls *)

(** The calls a pilot can make on the adapter. *)
Inductive Command : Type :=
| Trim
| Takeoff
| Land
| Emergency
| TakePicture
| Animation (animation : string)
| SetFlightParams (fp : FlightParams)
| MaxAltitude (alt : Z)
| MaxTilt (tilt : Z)
| MaxVerticalSpeed (speed : Z)
| MaxRotationSpeed (speed : Z).

Definition call (c : Command) : M unit :=
  match c with
  | Trim => writeTrim
  | Takeoff => writeTakeoff
  | Land => writeLand
  | Emergency => writeEmergency
  | TakePicture => writeTakePicture
  | Animation a => writeAnimation a
  | SetFlightParams fp => writeFlightParams fp
  | MaxAltitude v => writeMaxAltitude v
  | MaxTilt v => writeMaxTilt v
  | MaxVerticalSpeed v => writeMaxVerticalSpeed v
  | MaxRotationSpeed v => writeMaxRotationSpeed v
  end.

(** The calls made one after the other; a throw ends the sequence. *)
Fixpoint calls (cs : list Command) : M unit :=
  match cs with
  | [] => mret tt
  | c :: cs' => call c;; calls cs'
  end.

(** The step byte of a written frame. *)
Definition step_byte (w : Write) : option Z := w_buffer w !! 1%nat.

Definition int16 (v : Z) : Prop := -32768 ≤ v ≤ 32767.

Definition int16_params (fp : FlightParams) : Prop :=
  int16 (roll fp) ∧ int16 (pitch fp) ∧ int16 (yaw fp) ∧ int16 (altitude fp).

(** [sends_on uuid c]: the call [c] builds its frame with the counter of
    the channel [uuid] and writes it on that channel. *)
Definition sends_on (uuid : string) (c : Command) : Prop :=
  match c with
  | Trim | Takeoff | Land | TakePicture => uuid = COMMAND_KEY
  | Animation a => uuid = COMMAND_KEY ∧ animations_get a ≠ VUndefined
  | Emergency => uuid = EMERGENCY_KEY
  | SetFlightParams fp => uuid = FLIGHT_PARAMS_KEY ∧ int16_params fp
  | MaxAltitude _ | MaxTilt _ | MaxVerticalSpeed _ | MaxRotationSpeed _ => False
  end.

(** An adapter fresh from its constructor, then linked to a drone that
    exposes the three outbound characteristics and one characteristic for
    each key of [CHARACTERISTIC_MAP], so that every subscription of the
    discovery callback finds its characteristic. *)
Definition drone_characteristics : list string :=
  [ "9a66fa0a0800919111e4012d1540cb8e"; "9a66fa0b0800919111e4012d1540cb8e";
    "9a66fa0c0800919111e4012d1540cb8e"; "9a66fb0e0800919111e4012d1540cb8e";
    "9a66fb0f0800919111e4012d1540cb8e"; "9a66fb1b0800919111e4012d1540cb8e";
    "9a66fb1c0800919111e4012d1540cb8e"; "9a66fd220800919111e4012d1540cb8e";
    "9a66fd230800919111e4012d1540cb8e"; "9a66fd240800919111e4012d1540cb8e";
    "9a66fd520800919111e4012d1540cb8e"; "9a66fd530800919111e4012d1540cb8e";
    "9a66fd540800919111e4012d1540cb8e" ].

Definition mambo : Peripheral :=
  {| localName := Some "Mambo_12AB"; manufacturerData := None |}.

Definition link : M unit :=
  onPeripheralDiscovery (λ _ _, false) (Some mambo);;
  setupPeripheral drone_characteristics.

Definition linked : Adapter := exec link (constructor "").

(** ** Vocabulary of the statements *)

(** The adapter after the reset that [write] performs on a counter that
    has reached 255. *)
Definition wrapped (uuid : string) (s : Adapter) : Adapter :=
  match steps s !! uuid with
  | Some n => if 255 <=? n then set_steps (<[uuid := 0]> (steps s)) s else s
  | None => s
  end.

(** [sent uuid c m s s']: going from [s] to [s'], exactly one frame was
    handed to the characteristic [c]; it starts with the data type 2, the
    step [m + 1] and the constant 2, and the counter of [uuid] is left at
    [m + 1], or at 0 when that is 255. *)
Definition sent (uuid c : string) (m : Z) (s s' : Adapter) : Prop :=
  characteristics s' = characteristics s ∧
  steps s' !! uuid = Some ((m + 1) `mod` 255) ∧
  ∃ tail, written s' = written s ++ [mkWrite c (2 :: m + 1 :: 2 :: tail)].

(** The state after [n] calls of the same method, whatever each returns. *)
Fixpoint repeatedly {A} (n : nat) (m : M A) (s : Adapter) : Adapter :=
  match n with
  | O => s
  | S n' => exec m (repeatedly n' m s)
  end.

(** The two bytes of a little-endian int16. *)
Definition int16LE (v : Z) : list Z :=
  [Z.land v 255; Z.land (Z.shiftr v 8) 255].

(** The flight-parameter frame as the specification words it: a seven-byte
    header, then roll, pitch, yaw and altitude as little-endian 16-bit
    integers, then four zero bytes. *)
Definition spec_buildFlightParamsFrame (step : Z) (fp : FlightParams) : Buffer :=
  [2; step; 2; 0; 2; 0; 1]
  ++ int16LE (roll fp) ++ int16LE (pitch fp) ++ int16LE (yaw fp)
  ++ int16LE (altitude fp) ++ [0; 0; 0; 0].

(** The (project, class, command) triples that have a case of their own
    in [decodePacket]. *)
Definition dispatch_table : list (Z * Z * Z) :=
  [ (0, 5, 1); (0, 30, 0);
    (2, 18, 0); (2, 18, 1);
    (2, 3, 1); (2, 3, 2); (2, 3, 3);
    (2, 5, 0); (2, 5, 1);
    (2, 7, 1);
    (2, 9, 0); (2, 9, 1) ].

(** The logger lines of a frame whose triple is not in that table, as the
    frame's own bytes give them: a "DataType missing" line when the data
    type is not one of 1 to 4, then the lines of the project.  The lines
    that end in "missing" carry the data type and the triple; the line of
    project 1 carries nothing. *)
Definition unmatched_lines (dataType project msgClass commandKey : Z) : list LogLine :=
  let numbers := [VNum dataType; VNum project; VNum msgClass; VNum commandKey] in
  (if (dataType =? 1) || (dataType =? 2) || (dataType =? 3) || (dataType =? 4)
   then [] else [mkLog info "DataType missing" numbers])
  ++ (if project =? 0 then
        [mkLog debug "COMMON" []; mkLog info "Packet implementation missing" numbers]
      else if project =? 1 then
        [mkLog info "ARDRONE3" []]
      else if project =? 2 then
        [mkLog debug "MINIDRONE" []; mkLog info "Packet implementation missing" numbers]
      else
        [mkLog info "Project missing missing" numbers]).

(** The adapter with some more logger lines, and nothing else changed. *)
Definition with_lines (lines : list LogLine) (s : Adapter) : Adapter :=
  mkAdapter (droneFilter s) (connected s) (characteristics s) (peripheral s)
    (batteryLevel s) (steps s) (flightStatus s) (alertStatus s) (flightParams s)
    (written s) (emitted s) (logged s ++ lines).

(** What a limit setter does to a linked adapter whose flight-parameter
    counter was [m]: that counter moves to [m + 1]; the command counter is
    never incremented, only reset once it has reached 255; one frame goes to
    the command characteristic [c], carrying the low byte of [m + 1]. *)
Definition limit_effect (s s' : Adapter) (m : Z) (c : string) : Prop :=
  steps s' !! FLIGHT_PARAMS_KEY = Some (m + 1) ∧
  steps s' !! COMMAND_KEY = (λ n, if 255 <=? n then 0 else n) <$> steps s !! COMMAND_KEY ∧
  steps s' !! EMERGENCY_KEY = steps s !! EMERGENCY_KEY ∧
  ∃ buf, written s' = written s ++ [mkWrite c buf] ∧
         buf !! 1%nat = Some ((m + 1) `mod` 256).

(** An adapter on which takeoff was requested 255 times before any drone
    was linked, and which is linked afterwards. *)
Definition stale : Adapter :=
  exec link (repeatedly 255 writeTakeoff (constructor "")).

(** A FlyingStateChanged notification carrying index 2. *)
Definition hovering_frame : Buffer := [4; 1; 2; 3; 1; 0; 2].

(** A drone that has connected, whose adapter is linked and has decoded a
    flight-status notification, and whose roll has been set. *)
Definition flying_drone : Drone.t :=
  let d := Drone.connect Drone.constructor in
  let d := (Drone.on_network link d).2 in
  let d := (Drone.on_network (onRXCommandWithACK hovering_frame) d).2 in
  Drone.setFlightParams (Drone.mkPartial (Some 10) None None None) d.

(** The step byte of the 256th frame when the same call is made 256 times
    on a freshly linked adapter. *)
Definition step_of_256th (c : Command) : option Z :=
  (written (exec (calls (replicate 256 c)) linked) !! 255%nat) ≫= step_byte.

(** ** Discovery with its subscriptions *)

Module Discovery.

(** [this.getCharacteristic(key).subscribe()] and
    [this.getCharacteristic(key).on('data', ...)]: a method call on what
    [getCharacteristic] returns, which is a TypeError when that is
    [undefined] or [false]. *)
Definition on_characteristic (key : string) : M unit :=
  c ← getCharacteristic key;
  match c with
  | Some _ => mret tt
  | None => throw "TypeError"
  end.

Fixpoint forEach (keys : list string) (f : string → M unit) : M unit :=
  match keys with
  | [] => mret tt
  | key :: keys => f key;; forEach keys f
  end.

(** [setupPeripheral] with the callback of the service discovery run in
    full on the characteristics it receives: they are stored first, then
    each key of [CHARACTERISTIC_MAP] is subscribed to and the two receive
    keys get their listener, and only then is the adapter connected. *)
Definition setupPeripheral (chars : list string) : M unit :=
  s ← this;
  match peripheral s with
  | None => mret tt
  | Some _ =>
      update (λ a, set_link (connected a) chars (peripheral a) a);;
      forEach CHARACTERISTIC_MAP on_characteristic;;
      on_characteristic RX_COMMAND_NO_ACK;;
      on_characteristic RX_COMMAND_WITH_ACK;;
      update (λ a, set_link true (characteristics a) (peripheral a) a);;
      Logger info "Device connected ${this.peripheral.advertisement.localName}" []
  end.

End Discovery.

(** ** The createBuffer variant of the adapter *)

Module Variant.

(** In this variant of the file the four limit setters go through
    [createBuffer] on the command key, with the limit as one entry of the
    argument array. *)
Definition writeLimit (classCode methodCode : Z) (event text : string) (val : Z) : M unit :=
  buffer ← createBuffer COMMAND_KEY [classCode; methodCode; 0; val; 0];
  write COMMAND_KEY buffer;;
  emit event (PValue (VNum val));;
  Logger info text [VNum val].

Definition writeMaxAltitude (alt : Z) : M unit :=
  writeLimit MD_CLASSES.PILOTING_SETTINGS MD_METHODS.MAX_ALTITUDE
    "maxAltitudeChange" "Setting max altitude to ${altitude}m" alt.

Definition writeMaxTilt (tilt : Z) : M unit :=
  writeLimit MD_CLASSES.PILOTING_SETTINGS MD_METHODS.MAX_TILT
    "maxTiltChange" "Setting max tilt to ${tilt}% (20° max)" tilt.

Definition writeMaxVerticalSpeed (verticalSpeed : Z) : M unit :=
  writeLimit MD_CLASSES.SPEED_SETTINGS MD_METHODS.MAX_VERTICAL_SPEED
    "maxVerticalSpeedChange" "Setting max vertical speed to ${verticalSpeed} m/s"
    verticalSpeed.

Definition writeMaxRotationSpeed (rotationSpeed : Z) : M unit :=
  writeLimit MD_CLASSES.SPEED_SETTINGS MD_METHODS.MAX_ROTATION_SPEED
    "maxRotationSpeedChange" "Setting max rotation speed to ${rotationSpeed} °/s"
    rotationSpeed.

(** [setupPeripheral] in this variant: the callback of the service
    discovery goes on to subscribe without storing the characteristics it
    has received. *)
Definition setupPeripheral (chars : list string) : M unit :=
  s ← this;
  match peripheral s with
  | None => mret tt
  | Some _ =>
      Discovery.forEach CHARACTERISTIC_MAP Discovery.on_characteristic;;
      Discovery.on_characteristic RX_COMMAND_NO_ACK;;
      Discovery.on_characteristic RX_COMMAND_WITH_ACK;;
      update (λ a, set_link true (characteristics a) (peripheral a) a);;
      Logger info "Device connected ${this.peripheral.advertisement.localName}" []
  end.

End Variant.

(** ** What reaches the adapter from the outside *)

(** The callbacks the BLE stack makes into the adapter. *)
Inductive Callback : Type :=
| StateChange (state : string)
| Discovered (p : option Peripheral)
| Characteristics (chars : list string)
| Disconnected
| RssiReply (reply : option Z)
| RxWithAck (data : Buffer)
| RxNoAck (data : Buffer).

Section Callbacks.
Variable RegExp_test : string → string → bool.

Definition handle (cb : Callback) : M unit :=
  match cb with
  | StateChange state => onNobleStateChange state
  | Discovered p => onPeripheralDiscovery RegExp_test p
  | Characteristics chars => Discovery.setupPeripheral chars
  | Disconnected => onDisconnect
  | RssiReply reply => updateRssi reply
  | RxWithAck data => onRXCommandWithACK data
  | RxNoAck data => onRXCommandNoACK data
  end.
End Callbacks.

(** ** More vocabulary *)

(** [pat] occurs somewhere in [s]. *)
Definition occurs_in (pat s : string) : Prop :=
  ∃ pre post, s = pre +:+ pat +:+ post.

Definition is_byte (b : Z) : Prop := 0 ≤ b < 256.

(** The length of the frame each call builds. *)
Definition frame_length (c : Command) : nat :=
  match c with
  | Trim | Takeoff | Land | Emergency | TakePicture => 6
  | Animation _ => 10
  | SetFlightParams _ | MaxAltitude _ | MaxTilt _
  | MaxVerticalSpeed _ | MaxRotationSpeed _ => 19
  end.

(** The key [write] is given by each call. *)
Definition channel_of (c : Command) : string :=
  match c with
  | Emergency => EMERGENCY_KEY
  | SetFlightParams _ => FLIGHT_PARAMS_KEY
  | _ => COMMAND_KEY
  end.

(** The counters a call can change: the one it increments and the one
    [write] resets. *)
Definition counters_of (c : Command) : list string :=
  match c with
  | Trim | Takeoff | Land | TakePicture | Animation _ => [COMMAND_KEY]
  | Emergency => [EMERGENCY_KEY]
  | SetFlightParams _ => [FLIGHT_PARAMS_KEY]
  | MaxAltitude _ | MaxTilt _ | MaxVerticalSpeed _ | MaxRotationSpeed _ =>
      [FLIGHT_PARAMS_KEY; COMMAND_KEY]
  end.

Definition is_limit (c : Command) : bool :=
  match c with
  | MaxAltitude _ | MaxTilt _ | MaxVerticalSpeed _ | MaxRotationSpeed _ => true
  | _ => false
  end.

(** The adapter [s] with its three status fields replaced and with some
    events and logger lines appended: all the decoder can do. *)
Definition decoded (s : Adapter) (bl fs al : value)
    (evs : list Event) (lines : list LogLine) : Adapter :=
  mkAdapter (droneFilter s) (connected s) (characteristics s) (peripheral s)
    bl (steps s) fs al (flightParams s)
    (written s) (emitted s ++ evs) (logged s ++ lines).

(** The (project, class, command) bytes of a frame. *)
Definition triple (data : Buffer) : option (Z * Z * Z) :=
  p ← data !! 2%nat; c ← data !! 3%nat; k ← data !! 4%nat; Some (p, c, k).

(** Two adapters that differ at most in their logger lines. *)
Definition same_but_log (s1 s2 : Adapter) : Prop :=
  droneFilter s1 = droneFilter s2 ∧ connected s1 = connected s2 ∧
  characteristics s1 = characteristics s2 ∧ peripheral s1 = peripheral s2 ∧
  batteryLevel s1 = batteryLevel s2 ∧ steps s1 = steps s2 ∧
  flightStatus s1 = flightStatus s2 ∧ alertStatus s1 = alertStatus s2 ∧
  flightParams s1 = flightParams s2 ∧ written s1 = written s2 ∧
  emitted s1 = emitted s2.

(** [ensures m R Q]: from any state [s], the call [m] ends, returned or
    thrown, in a state related to [s] by [R], and a returned value
    satisfies [Q]. *)
Definition ensures {A} (m : M A) (R : Adapter → Adapter → Prop) (Q : A → Prop) : Prop :=
  ∀ s, R s (m s).2 ∧ ∀ a, (m s).1 = Ok a → Q a.

(** The relations used with [ensures]. *)
Definition stays_unlinked (s s' : Adapter) : Prop :=
  characteristics s = [] → characteristics s' = [] ∧ written s' = written s.

Definition only_counters (keys : list string) (s s' : Adapter) : Prop :=
  ∀ k, k ∉ keys → steps s' !! k = steps s !! k.

Definition appends_frames (ok : Write → Prop) (s s' : Adapter) : Prop :=
  ∃ ws, written s' = written s ++ ws ∧ Forall ok ws.

Definition keeps_outbound (s s' : Adapter) : Prop :=
  steps s' = steps s ∧ written s' = written s ∧ flightParams s' = flightParams s.

(** What a callback other than a received frame leaves alone: the
    outbound side and the flight status. *)
Definition quiet (s s' : Adapter) : Prop :=
  keeps_outbound s s' ∧ flightStatus s' = flightStatus s.

(** Counters of the three channels all within [0, 254], as [write] leaves
    them. *)
Definition counters_in_byte (s : Adapter) : Prop :=
  ∀ uuid, uuid ∈ [FLIGHT_PARAMS_KEY; COMMAND_KEY; EMERGENCY_KEY] →
    ∃ m, steps s !! uuid = Some m ∧ 0 ≤ m < 255.

Definition fully_linked (s : Adapter) : Prop :=
  ∀ uuid, uuid ∈ [FLIGHT_PARAMS_KEY; COMMAND_KEY; EMERGENCY_KEY] →
    is_Some (find_characteristic uuid (characteristics s)).

(** A buffer of [n] bytes. *)
Definition valid_buffer (n : nat) (buf : Buffer) : Prop :=
  length buf = n ∧ Forall is_byte buf.

(** The three relations at once, for the calls of the pilot. *)
Definition outbound (keys : list string) (ok : Write → Prop) (s s' : Adapter) : Prop :=
  stays_unlinked s s' ∧ only_counters keys s s' ∧ appends_frames ok s s'.

(** What every frame written by the call [c] looks like: it goes to a
    characteristic whose uuid has the key of the call in it, and it is a
    buffer of the length of the call's frame. *)
Definition frame_of (c : Command) (w : Write) : Prop :=
  occurs_in (channel_of c) (w_uuid w) ∧ valid_buffer (frame_length c) (w_buffer w).

(** A call that is not a limit setter and, for flight parameters, carries
    values an int16 holds. *)
Definition plain (c : Command) : Prop :=
  match c with
  | SetFlightParams fp => int16_params fp
  | MaxAltitude _ | MaxTilt _ | MaxVerticalSpeed _ | MaxRotationSpeed _ => False
  | _ => True
  end.

(** [writes_at_most n m]: from any state, the call [m] appends at most [n]
    writes, returned or thrown. *)
Definition writes_at_most {A} (n : nat) (m : M A) : Prop :=
  ∀ s, ∃ ws, written (m s).2 = written s ++ ws ∧ (length ws ≤ n)%nat.

(** The triples whose case in [decodePacket] emits an event. *)
Definition emitting : list (Z * Z * Z) :=
  [ (0, 5, 1); (2, 18, 0); (2, 18, 1); (2, 3, 1); (2, 3, 2) ].

(** Characteristics that cover every key the adapter uses. *)
Definition mambo_characteristics : list string :=
  map (λ key, "9a66" +:+ key +:+ "0800919111e4012d1540cb8e")
    (FLIGHT_PARAMS_KEY :: COMMAND_KEY :: EMERGENCY_KEY :: CHARACTERISTIC_MAP).

(** An adapter that has been handed characteristics among which neither
    the emergency key nor the receive keys are found. *)
Definition partly_linked : Adapter :=
  exec (Discovery.setupPeripheral ["9a66fa0a0800919111e4012d1540cb8e";
                                   "9a66fa0b0800919111e4012d1540cb8e"])
    (exec (onPeripheralDiscovery (λ _ _, false) (Some mambo)) (constructor "")).

(** ** Partial updates of the flight parameters *)

(** [Object.assign({}, fp1, fp2)] on two partial updates: a key of [fp2]
    wins over the same key of [fp1]. *)
Definition Object_assign (fp1 fp2 : Drone.Partial) : Drone.Partial :=
  Drone.mkPartial
    (from_option Some (Drone.p_roll fp1) (Drone.p_roll fp2))
    (from_option Some (Drone.p_pitch fp1) (Drone.p_pitch fp2))
    (from_option Some (Drone.p_yaw fp1) (Drone.p_yaw fp2))
    (from_option Some (Drone.p_altitude fp1) (Drone.p_altitude fp2)).

(** A drone whose adapter is [n]. *)
Definition drone_on (fp : FlightParams) (n : Adapter) : Drone.t :=
  Drone.mk fp (Some n).

(** * Properties *)

(** ** The monad, one call at a time *)

Lemma bind_update {B} (g : Adapter → Adapter) (f : unit → M B) s :
  (update g ≫= f) s = f tt (g s).
Proof. reflexivity. Qed.

Lemma bind_ok {A B} (m : M A) (f : A → M B) s a s' :
  m s = (Ok a, s') → (m ≫= f) s = f a s'.
Proof. intros H. unfold mbind, M_bind. by rewrite H. Qed.

Lemma bind_throw {A B} (m : M A) (f : A → M B) s e s' :
  m s = (Throw e, s') → (m ≫= f) s = (Throw e, s').
Proof. intros H. unfold mbind, M_bind. by rewrite H. Qed.

Lemma exec_eq {A} (m : M A) s r s' : m s = (r, s') → exec m s = s'.
Proof. intros H. unfold exec. by rewrite H. Qed.

Ltac mstep :=
  unfold mbind, M_bind, mret, M_ret, this, update, throw, try, Logger, emit, missing in *.

(** ** Buffer writes that are in range *)

Lemma land_255_small m : 0 ≤ m ≤ 255 → Z.land m 255 = m.
Proof.
  intros Hm. change 255 with (Z.ones 8). rewrite Z.land_ones by lia.
  apply Z.mod_small. change (2 ^ 8) with 256. lia.
Qed.

Lemma writeInt16LE_ok (buf : Buffer) (v : Z) (off : nat) :
  int16 v → (off + 2 ≤ length buf)%nat →
  writeInt16LE buf v off
  = Some (<[S off := Z.land (Z.shiftr v 8) 255]> (<[off := Z.land v 255]> buf)).
Proof.
  intros [Hlo Hhi] Hlen. unfold writeInt16LE.
  rewrite (proj2 (Z.leb_le _ _) Hlo), (proj2 (Z.leb_le _ _) Hhi).
  by rewrite bool_decide_eq_true_2.
Qed.

Lemma writeInt16LE_out_of_range (buf : Buffer) (v : Z) (off : nat) :
  32767 < v → writeInt16LE buf v off = None.
Proof.
  intros Hv. unfold writeInt16LE.
  rewrite (proj2 (Z.leb_gt _ _) Hv). by rewrite andb_false_r.
Qed.

Lemma try_writeInt16LE {B} (buf : Buffer) (v : Z) (off : nat) (f : Buffer → M B) s :
  int16 v → (off + 2 ≤ length buf)%nat →
  (try "RangeError" (writeInt16LE buf v off) ≫= f) s
  = f (<[S off := Z.land (Z.shiftr v 8) 255]> (<[off := Z.land v 255]> buf)) s.
Proof. intros Hv Hl. by rewrite writeInt16LE_ok. Qed.

Lemma try_writeFloatLE {B} (buf : Buffer) (v : Z) (off : nat) (f : Buffer → M B) s :
  (off + 4 ≤ length buf)%nat →
  (try "RangeError" (writeFloatLE buf v off) ≫= f) s
  = f (<[S (S (S off)) := Z.land (Z.shiftr (float32_bits v) 24) 255]>
       (<[S (S off) := Z.land (Z.shiftr (float32_bits v) 16) 255]>
        (<[S off := Z.land (Z.shiftr (float32_bits v) 8) 255]>
         (<[off := Z.land (float32_bits v) 255]> buf)))) s.
Proof. intros Hl. unfold writeFloatLE. by rewrite bool_decide_eq_true_2. Qed.

Ltac w16 :=
  rewrite try_writeInt16LE; [| split; lia | unfold Buffer_alloc; simpl; lia ].
Ltac wfloat :=
  rewrite try_writeFloatLE by (unfold Buffer_alloc; simpl; lia).

(** ** [write], [resetStep] and the pre-increment *)

Lemma find_characteristic_nonempty uuid chars c :
  find_characteristic uuid chars = Some c → chars ≠ [].
Proof. intros H ->. discriminate. Qed.

Lemma resetStep_eq uuid s : resetStep uuid s = (Ok tt, wrapped uuid s).
Proof.
  unfold resetStep, wrapped. mstep.
  destruct (steps s !! uuid) as [n|]; [|done].
  by destruct (255 <=? n).
Qed.

Lemma wrapped_characteristics uuid s :
  characteristics (wrapped uuid s) = characteristics s.
Proof. unfold wrapped. by repeat case_match. Qed.

Lemma wrapped_written uuid s : written (wrapped uuid s) = written s.
Proof. unfold wrapped. by repeat case_match. Qed.

Lemma wrapped_emitted uuid s : emitted (wrapped uuid s) = emitted s.
Proof. unfold wrapped. by repeat case_match. Qed.

Lemma wrapped_other uuid k s :
  uuid ≠ k → steps (wrapped uuid s) !! k = steps s !! k.
Proof.
  intros Hne. unfold wrapped. repeat case_match; try done.
  cbn. by rewrite lookup_insert_ne.
Qed.

Lemma wrapped_step uuid steps0 s m :
  0 ≤ m < 255 →
  steps (wrapped uuid (set_steps (<[uuid := m + 1]> steps0) s)) !! uuid
  = Some ((m + 1) `mod` 255).
Proof.
  intros Hm. unfold wrapped. cbn. rewrite lookup_insert_eq.
  destruct (Z.leb_spec 255 (m + 1)); cbn.
  - rewrite lookup_insert_eq. replace (m + 1) with 255 by lia. done.
  - rewrite lookup_insert_eq. by rewrite Z.mod_small by lia.
Qed.

Lemma write_linked uuid buf s c :
  find_characteristic uuid (characteristics s) = Some c →
  write uuid buf s = (Ok tt, add_written (mkWrite c buf) (wrapped uuid s)).
Proof.
  intros Hc. pose proof (find_characteristic_nonempty _ _ _ Hc) as Hne.
  unfold write. mstep.
  rewrite bool_decide_eq_false_2 by done.
  rewrite resetStep_eq. unfold getCharacteristic. mstep.
  rewrite wrapped_characteristics, bool_decide_eq_false_2 by done.
  by rewrite Hc.
Qed.

Lemma write_unlinked uuid buf s :
  characteristics s = [] →
  write uuid buf s =
    (Ok tt,
     add_logged (mkLog warn "You must have bluetooth enabled and be connected to a drone before executing a command." []) s).
Proof. intros Hc. unfold write. mstep. by rewrite bool_decide_eq_true_2. Qed.

Lemma preIncrement_eq uuid s m :
  steps s !! uuid = Some m →
  preIncrement uuid s = (Ok (m + 1), set_steps (<[uuid := m + 1]> (steps s)) s).
Proof.
  intros Hm. unfold preIncrement. mstep.
  assert (alter Z.succ uuid (steps s) = <[uuid := m + 1]> (steps s)) as ->.
  { apply map_eq. intros k. rewrite lookup_alter, lookup_insert.
    case_decide; subst; [by rewrite Hm|done]. }
  by rewrite lookup_insert_eq.
Qed.

(** ** One frame per call, one step per frame *)

Lemma command_send uuid args s m c text largs :
  steps s !! uuid = Some m → 0 ≤ m < 255 →
  find_characteristic uuid (characteristics s) = Some c →
  ∃ s', (buffer ← createBuffer uuid args; write uuid buffer;; Logger info text largs) s
        = (Ok tt, s') ∧ sent uuid c m s s'.
Proof.
  intros Hs Hm Hc. eexists. split.
  - unfold createBuffer.
    unfold mbind at 1 2 3. unfold M_bind. rewrite (preIncrement_eq _ _ _ Hs).
    unfold mret at 1. unfold M_ret.
    rewrite (write_linked uuid _ (set_steps (<[uuid := m + 1]> (steps s)) s) c Hc).
    reflexivity.
  - unfold sent. cbn. repeat split.
    + by rewrite wrapped_characteristics.
    + by apply wrapped_step.
    + eexists. rewrite wrapped_written. cbn.
      by rewrite !(land_255_small (m + 1)) by lia.
Qed.

(** The frame [writeFlightParams] hands to the flight-parameter
    characteristic, for any parameters the int16 writes accept. *)
Lemma flightParams_send fp s m c :
  steps s !! FLIGHT_PARAMS_KEY = Some m → 0 ≤ m < 32767 → int16_params fp →
  find_characteristic FLIGHT_PARAMS_KEY (characteristics s) = Some c →
  writeFlightParams fp s =
    (Ok tt,
     add_emitted (mkEvent "flightParamChange" (PFlightParams fp))
       (add_written
          (mkWrite c [2; Z.land (m + 1) 255; 2; 0; 2; 0; 1;
                      Z.land (roll fp) 255; Z.land (pitch fp) 255;
                      Z.land (yaw fp) 255; Z.land (altitude fp) 255;
                      0; 0; 0; 0; 0; 0; 0; 0])
          (wrapped FLIGHT_PARAMS_KEY
             (set_steps (<[FLIGHT_PARAMS_KEY := m + 1]> (steps s))
                (set_flightParams fp s))))).
Proof.
  intros Hs Hm (Hr & Hp & Hy & Ha) Hc. unfold int16 in Hr, Hp, Hy, Ha.
  unfold writeFlightParams.
  rewrite bind_update.
  w16.
  rewrite (bind_ok _ _ _ _ _
             (preIncrement_eq FLIGHT_PARAMS_KEY (set_flightParams fp s) m Hs)).
  do 10 w16.
  wfloat.
  erewrite bind_ok; [|by apply write_linked].
  reflexivity.
Qed.

Lemma flightParams_sent fp s m c :
  steps s !! FLIGHT_PARAMS_KEY = Some m → 0 ≤ m < 255 → int16_params fp →
  find_characteristic FLIGHT_PARAMS_KEY (characteristics s) = Some c →
  ∃ s', writeFlightParams fp s = (Ok tt, s') ∧ sent FLIGHT_PARAMS_KEY c m s s'.
Proof.
  intros Hs Hm Hfp Hc. eexists. split.
  - apply flightParams_send; [done | lia | done | done].
  - unfold sent. cbn. repeat split.
    + by rewrite wrapped_characteristics.
    + by apply wrapped_step.
    + eexists. rewrite wrapped_written. cbn.
      by rewrite land_255_small by lia.
Qed.

Lemma call_sent uuid cmd s m c :
  sends_on uuid cmd →
  steps s !! uuid = Some m → 0 ≤ m < 255 →
  find_characteristic uuid (characteristics s) = Some c →
  ∃ s', call cmd s = (Ok tt, s') ∧ sent uuid c m s s'.
Proof.
  intros Hon Hs Hm Hc.
  destruct cmd; cbn in Hon; try done; try (subst uuid; by apply command_send).
  - destruct Hon as [-> Ha]. cbn. unfold writeAnimation.
    destruct (animations_get animation) eqn:E; try done; cbn; by apply command_send.
  - destruct Hon as [-> Hfp]. by apply flightParams_sent.
Qed.

Lemma calls_sent uuid cs : ∀ s m c,
  Forall (sends_on uuid) cs →
  steps s !! uuid = Some m → 0 ≤ m < 255 →
  find_characteristic uuid (characteristics s) = Some c →
  ∃ s' frames,
    calls cs s = (Ok tt, s') ∧
    characteristics s' = characteristics s ∧
    steps s' !! uuid = Some ((m + Z.of_nat (length cs)) `mod` 255) ∧
    written s' = written s ++ frames ∧
    length frames = length cs ∧
    ∀ k w, frames !! k = Some w →
      w_uuid w = c ∧
      take 3 (w_buffer w) = [2; (m + Z.of_nat k) `mod` 255 + 1; 2].
Proof.
  induction cs as [|cmd cs IH]; intros s m c Hall Hs Hm Hc.
  - exists s, []. cbn. rewrite app_nil_r, Z.add_0_r, Z.mod_small by lia.
    repeat split; done.
  - apply Forall_cons in Hall as [Hcmd Hall].
    destruct (call_sent uuid cmd s m c Hcmd Hs Hm Hc)
      as (s1 & Hcall & Hchars & Hstep & tail & Hw).
    assert (0 ≤ (m + 1) `mod` 255 < 255) as Hm1 by (apply Z.mod_pos_bound; lia).
    rewrite <- Hchars in Hc.
    destruct (IH s1 _ c Hall Hstep Hm1 Hc)
      as (s' & frames & Hcalls & Hchars' & Hstep' & Hw' & Hlen & Hframes).
    exists s', (mkWrite c (2 :: m + 1 :: 2 :: tail) :: frames).
    split; [|split; [|split; [|split; [|split]]]].
    + cbn [calls]. by rewrite (bind_ok _ _ _ _ _ Hcall).
    + congruence.
    + rewrite Hstep'. f_equal. cbn [length].
      rewrite Zplus_mod_idemp_l. f_equal. lia.
    + rewrite Hw', Hw, <- app_assoc. done.
    + cbn. by rewrite Hlen.
    + intros [|k] w Hk; cbn in Hk.
      * inversion Hk; subst w. cbn.
        rewrite Z.add_0_r, Z.mod_small by lia. done.
      * destruct (Hframes k w Hk) as [-> ->]. split; [done|].
        do 2 f_equal. f_equal. rewrite Zplus_mod_idemp_l. f_equal. lia.
Qed.

Lemma step_byte_of_header (w : Write) (a b c : Z) :
  take 3 (w_buffer w) = [a; b; c] → step_byte w = Some b.
Proof.
  unfold step_byte. destruct (w_buffer w) as [|x [|y l]]; try done.
  cbn. by intros [= _ -> _].
Qed.

(** ** The flight-parameter frame *)

Lemma land_255_mod v : Z.land v 255 = v `mod` 256.
Proof. change 255 with (Z.ones 8). by rewrite Z.land_ones by lia. Qed.

(** C3, as the code has it.  With the flight-parameter characteristic
    present, a counter at [m] and parameters the int16 writes accept,
    [writeFlightParams] returns and hands over exactly one 19-byte frame:
    the header [2, m + 1, 2, 0, 2, 0, 1], then roll, pitch, yaw and altitude
    on ONE byte each (the low byte of each int16 write, whose high byte the
    next write overwrites), then eight zero bytes.  For
    {roll:10, pitch:-5, yaw:0, altitude:20} on a fresh channel this is
    [2,1,2,0,2,0,1,10,251,0,20,0,0,0,0,0,0,0,0]. *)
Theorem flight_params_frame_bytes (fp : FlightParams) (s : Adapter) (m : Z) (c : string) :
  steps s !! FLIGHT_PARAMS_KEY = Some m → 0 ≤ m < 32767 → int16_params fp →
  find_characteristic FLIGHT_PARAMS_KEY (characteristics s) = Some c →
  ∃ s', writeFlightParams fp s = (Ok tt, s') ∧
        written s' = written s ++
          [mkWrite c [2; (m + 1) `mod` 256; 2; 0; 2; 0; 1;
                      roll fp `mod` 256; pitch fp `mod` 256;
                      yaw fp `mod` 256; altitude fp `mod` 256;
                      0; 0; 0; 0; 0; 0; 0; 0]].
Proof.
  intros Hs Hm Hfp Hc. eexists. split; [by apply flightParams_send|].
  cbn. rewrite wrapped_written. cbn. by rewrite !land_255_mod.
Qed.

Lemma flight_params_frame_bytes_witness :
  ∃ s', writeFlightParams (mkFlightParams 10 (-5) 0 20) linked = (Ok tt, s') ∧
        written s' = written linked ++
          [mkWrite "9a66fa0a0800919111e4012d1540cb8e"
             [2; 1; 2; 0; 2; 0; 1; 10; 251; 0; 20; 0; 0; 0; 0; 0; 0; 0; 0]].
Proof.
  apply (flight_params_frame_bytes (mkFlightParams 10 (-5) 0 20) linked 0).
  - vm_compute. reflexivity.
  - lia.
  - unfold int16_params, int16. simpl. lia.
  - vm_compute. reflexivity.
Defined.

(** C3, as stated, fails: the frame written for
    {roll:10, pitch:-5, yaw:0, altitude:20} on a fresh channel is not the
    layout with four little-endian int16 fields and four trailing zeros. *)
Lemma flight_params_frame_not_int16_layout :
  w_buffer <$> written (exec (writeFlightParams (mkFlightParams 10 (-5) 0 20)) linked)
  ≠ [spec_buildFlightParamsFrame 1 (mkFlightParams 10 (-5) 0 20)].
Proof. vm_compute. discriminate. Qed.

(** ** Limit setters *)

Lemma writeLimit_linked (cls method : Z) (event text : string) (v : Z)
    (s : Adapter) (m : Z) (c : string) :
  int16 cls → int16 method →
  steps s !! FLIGHT_PARAMS_KEY = Some m → 0 ≤ m < 32767 →
  find_characteristic COMMAND_KEY (characteristics s) = Some c →
  writeLimit cls method event text v s =
    (Ok tt,
     add_logged (mkLog debug text [VNum v])
       (add_emitted (mkEvent event (PValue (VNum v)))
          (add_written
             (mkWrite c [2; Z.land (m + 1) 255; 2; Z.land cls 255;
                         Z.land method 255; 0;
                         Z.land (float32_bits v) 255;
                         Z.land (Z.shiftr (float32_bits v) 8) 255;
                         Z.land (Z.shiftr (float32_bits v) 16) 255;
                         Z.land (Z.shiftr (float32_bits v) 24) 255;
                         0; 0; 0; 0; 0; 0; 0; 0; 0])
             (wrapped COMMAND_KEY
                (set_steps (<[FLIGHT_PARAMS_KEY := m + 1]> (steps s)) s))))).
Proof.
  intros Hcl Hme Hs Hm Hc. unfold int16 in Hcl, Hme.
  unfold writeLimit.
  w16.
  rewrite (bind_ok _ _ _ _ _ (preIncrement_eq FLIGHT_PARAMS_KEY s m Hs)).
  do 5 w16. do 2 wfloat.
  erewrite bind_ok; [|by apply write_linked].
  reflexivity.
Qed.

(** With no transport the frame is dropped, and the flight-parameter
    counter has moved all the same. *)
Lemma writeLimit_unlinked (cls method : Z) (event text : string) (v : Z)
    (s : Adapter) (m : Z) :
  int16 cls → int16 method →
  steps s !! FLIGHT_PARAMS_KEY = Some m → 0 ≤ m < 32767 →
  characteristics s = [] →
  writeLimit cls method event text v s =
    (Ok tt,
     add_logged (mkLog debug text [VNum v])
       (add_emitted (mkEvent event (PValue (VNum v)))
          (add_logged (mkLog warn "You must have bluetooth enabled and be connected to a drone before executing a command." [])
             (set_steps (<[FLIGHT_PARAMS_KEY := m + 1]> (steps s)) s)))).
Proof.
  intros Hcl Hme Hs Hm Hc. unfold int16 in Hcl, Hme.
  unfold writeLimit.
  w16.
  rewrite (bind_ok _ _ _ _ _ (preIncrement_eq FLIGHT_PARAMS_KEY s m Hs)).
  do 5 w16. do 2 wfloat.
  erewrite bind_ok; [|by apply write_unlinked].
  reflexivity.
Qed.

(** Past 32767 the int16 write of the step throws: the counter has moved,
    nothing is sent. *)
Lemma writeLimit_throws (cls method : Z) (event text : string) (v : Z)
    (s : Adapter) (m : Z) :
  steps s !! FLIGHT_PARAMS_KEY = Some m → 32767 ≤ m →
  writeLimit cls method event text v s =
    (Throw "RangeError", set_steps (<[FLIGHT_PARAMS_KEY := m + 1]> (steps s)) s).
Proof.
  intros Hs Hm. unfold writeLimit.
  w16.
  rewrite (bind_ok _ _ _ _ _ (preIncrement_eq FLIGHT_PARAMS_KEY s m Hs)).
  apply bind_throw. by rewrite writeInt16LE_out_of_range by lia.
Qed.

Lemma limit_effect_intro (event text : string) (v : Z) (s : Adapter) (m : Z)
    (c : string) (buf0 : Buffer) :
  steps s !! FLIGHT_PARAMS_KEY = Some m →
  limit_effect s
    (add_logged (mkLog debug text [VNum v])
       (add_emitted (mkEvent event (PValue (VNum v)))
          (add_written (mkWrite c (2 :: Z.land (m + 1) 255 :: buf0))
             (wrapped COMMAND_KEY
                (set_steps (<[FLIGHT_PARAMS_KEY := m + 1]> (steps s)) s))))) m c.
Proof.
  intros Hs. unfold limit_effect. cbn. repeat split.
  - rewrite wrapped_other by done. cbn. by rewrite lookup_insert_eq.
  - unfold wrapped. cbn. rewrite lookup_insert_ne by done.
    destruct (steps s !! COMMAND_KEY) as [n|] eqn:E; cbn;
      [|by rewrite lookup_insert_ne].
    destruct (255 <=? n); cbn.
    + by rewrite lookup_insert_eq.
    + by rewrite lookup_insert_ne.
  - rewrite wrapped_other by done. cbn. by rewrite lookup_insert_ne.
  - eexists. split.
    + rewrite wrapped_written. reflexivity.
    + cbn. by rewrite land_255_mod.
Qed.

(** ** Steps on the three channels *)

(** A limit setter on a linked adapter: one frame on the command
    characteristic, numbered with the low byte of the flight-parameter
    counter, which it leaves one higher. *)
Lemma limit_call_sent (l : Command) (s : Adapter) (m : Z) (c : string) :
  is_limit l = true →
  steps s !! FLIGHT_PARAMS_KEY = Some m → 0 ≤ m < 32767 →
  find_characteristic COMMAND_KEY (characteristics s) = Some c →
  ∃ s' tail,
    call l s = (Ok tt, s') ∧
    characteristics s' = characteristics s ∧
    steps s' !! FLIGHT_PARAMS_KEY = Some (m + 1) ∧
    written s' = written s ++ [mkWrite c (2 :: (m + 1) `mod` 256 :: 2 :: tail)].
Proof.
  intros Hl Hs Hm Hc.
  destruct l; try discriminate Hl; cbn [call];
    unfold writeMaxAltitude, writeMaxTilt, writeMaxVerticalSpeed, writeMaxRotationSpeed;
    (rewrite (writeLimit_linked _ _ _ _ _ s m c); [|by vm_compute|by vm_compute|done..]);
    (eexists _, _; split; [reflexivity|]); cbn;
    rewrite wrapped_characteristics, wrapped_written, wrapped_other by done; cbn;
    rewrite lookup_insert_eq, land_255_mod; done.
Qed.

Lemma limit_calls_sent (ls : list Command) : ∀ (s : Adapter) (m : Z) (c : string),
  Forall (λ l, is_limit l = true) ls →
  steps s !! FLIGHT_PARAMS_KEY = Some m → 0 ≤ m → m + Z.of_nat (length ls) ≤ 32767 →
  find_characteristic COMMAND_KEY (characteristics s) = Some c →
  ∃ s' frames,
    calls ls s = (Ok tt, s') ∧
    steps s' !! FLIGHT_PARAMS_KEY = Some (m + Z.of_nat (length ls)) ∧
    written s' = written s ++ frames ∧
    length frames = length ls ∧
    ∀ k w, frames !! k = Some w →
      w_uuid w = c ∧
      take 3 (w_buffer w) = [2; (m + Z.of_nat k + 1) `mod` 256; 2].
Proof.
  induction ls as [|l ls IH]; intros s m c Hall Hs Hm Hlen Hc.
  - exists s, []. cbn. rewrite app_nil_r, Z.add_0_r. repeat split; done.
  - apply Forall_cons in Hall as [Hl Hall]. cbn [length] in Hlen.
    destruct (limit_call_sent l s m c Hl Hs ltac:(lia) Hc)
      as (s1 & tail & Hcall & Hchars & Hstep & Hw).
    rewrite <- Hchars in Hc.
    destruct (IH s1 (m + 1) c Hall Hstep ltac:(lia) ltac:(lia) Hc)
      as (s' & frames & Hcalls & Hstep' & Hw' & Hlen' & Hframes).
    exists s', (mkWrite c (2 :: (m + 1) `mod` 256 :: 2 :: tail) :: frames).
    split; [|split; [|split; [|split]]].
    + cbn [calls]. by rewrite (bind_ok _ _ _ _ _ Hcall).
    + rewrite Hstep'. f_equal. cbn [length]. lia.
    + rewrite Hw', Hw, <- app_assoc. done.
    + cbn. by rewrite Hlen'.
    + intros [|k] w Hk; cbn in Hk.
      * inversion Hk; subst w. cbn. by rewrite Z.add_0_r.
      * destruct (Hframes k w Hk) as [-> ->]. split; [done|].
        do 3 f_equal. lia.
Qed.

(** C1, as the code has it.  First part: on any of the three channels,
    starting from a counter at 0 with the channel's characteristic present,
    every call that numbers its frame with the counter of the channel it
    writes on (trim, takeoff, land, picture and a known animation on the
    command channel, emergency on its own, flight parameters within int16
    on theirs) returns and hands over one frame; the k-th frame (counting
    from 0) starts with the bytes [2, k mod 255 + 1, 2]: the step is a
    single byte between the data type and the constant that follows.  The
    steps of such a run therefore go 1, 2, ..., 255 and then start again at
    1: the 256th frame carries step 1, and no frame of the run carries step
    0.  The counter ends at the number of calls modulo 255.  Second part:
    the limit setters send on the command channel too, but number their
    frame with the flight-parameter counter, which their write does not
    reset; starting from that counter at 0, the k-th frame (counting from 0)
    of a run of limit setters starts with [2, (k + 1) mod 256, 2], so that
    here the 256th frame does carry step 0. *)
Theorem step_cycle_1_to_255
    (uuid : string) (cs ls : list Command) (s : Adapter) (c cmd : string) :
  (Forall (sends_on uuid) cs →
   steps s !! uuid = Some 0 →
   find_characteristic uuid (characteristics s) = Some c →
   ∃ s' frames,
     calls cs s = (Ok tt, s') ∧
     written s' = written s ++ frames ∧
     length frames = length cs ∧
     steps s' !! uuid = Some (Z.of_nat (length cs) `mod` 255) ∧
     (∀ k w, frames !! k = Some w →
        w_uuid w = c ∧
        take 3 (w_buffer w) = [2; Z.of_nat k `mod` 255 + 1; 2] ∧
        step_byte w = Some (Z.of_nat k `mod` 255 + 1) ∧
        step_byte w ≠ Some 0) ∧
     (∀ w, frames !! 255%nat = Some w → step_byte w = Some 1)) ∧
  (Forall (λ l, is_limit l = true) ls → Z.of_nat (length ls) ≤ 32767 →
   steps s !! FLIGHT_PARAMS_KEY = Some 0 →
   find_characteristic COMMAND_KEY (characteristics s) = Some cmd →
   ∃ s' frames,
     calls ls s = (Ok tt, s') ∧
     written s' = written s ++ frames ∧
     length frames = length ls ∧
     steps s' !! FLIGHT_PARAMS_KEY = Some (Z.of_nat (length ls)) ∧
     (∀ k w, frames !! k = Some w →
        w_uuid w = cmd ∧
        take 3 (w_buffer w) = [2; (Z.of_nat k + 1) `mod` 256; 2] ∧
        step_byte w = Some ((Z.of_nat k + 1) `mod` 256)) ∧
     (∀ w, frames !! 255%nat = Some w → step_byte w = Some 0)).
Proof.
  split.
  - intros Hall Hs Hc.
    destruct (calls_sent uuid cs s 0 c Hall Hs ltac:(lia) Hc)
      as (s' & frames & Hcalls & _ & Hstep & Hw & Hlen & Hframes).
    exists s', frames.
    split; [done|]. split; [done|]. split; [done|]. split; [done|]. split.
    + intros k w Hk. destruct (Hframes k w Hk) as [-> Hhead].
      rewrite Z.add_0_l in Hhead.
      rewrite (step_byte_of_header _ _ _ _ Hhead).
      split; [done|]. split; [done|]. split; [done|].
      intros [= H0]. pose proof (Z.mod_pos_bound (Z.of_nat k) 255 ltac:(lia)). lia.
    + intros w Hw255. destruct (Hframes _ w Hw255) as [_ Hhead].
      rewrite Z.add_0_l in Hhead.
      by rewrite (step_byte_of_header _ _ _ _ Hhead).
  - intros Hall Hlen Hs Hc.
    destruct (limit_calls_sent ls s 0 cmd Hall Hs ltac:(lia) ltac:(lia) Hc)
      as (s' & frames & Hcalls & Hstep & Hw & Hlen' & Hframes).
    exists s', frames.
    split; [done|]. split; [done|]. split; [done|]. split; [done|]. split.
    + intros k w Hk. destruct (Hframes k w Hk) as [-> Hhead].
      rewrite Z.add_0_l in Hhead.
      by rewrite (step_byte_of_header _ _ _ _ Hhead).
    + intros w Hw255. destruct (Hframes _ w Hw255) as [_ Hhead].
      by rewrite (step_byte_of_header _ _ _ _ Hhead).
Qed.

Lemma step_cycle_1_to_255_witness :
  (∃ s' frames,
     calls (replicate 256 Takeoff) linked = (Ok tt, s') ∧
     written s' = written linked ++ frames ∧
     length frames = length (replicate 256 Takeoff) ∧
     steps s' !! COMMAND_KEY = Some (Z.of_nat (length (replicate 256 Takeoff)) `mod` 255) ∧
     (∀ k w, frames !! k = Some w →
        w_uuid w = "9a66fa0b0800919111e4012d1540cb8e" ∧
        take 3 (w_buffer w) = [2; Z.of_nat k `mod` 255 + 1; 2] ∧
        step_byte w = Some (Z.of_nat k `mod` 255 + 1) ∧
        step_byte w ≠ Some 0) ∧
     (∀ w, frames !! 255%nat = Some w → step_byte w = Some 1)) ∧
  (∃ s' frames,
     calls (replicate 256 (MaxAltitude 2)) linked = (Ok tt, s') ∧
     written s' = written linked ++ frames ∧
     length frames = length (replicate 256 (MaxAltitude 2)) ∧
     steps s' !! FLIGHT_PARAMS_KEY
       = Some (Z.of_nat (length (replicate 256 (MaxAltitude 2)))) ∧
     (∀ k w, frames !! k = Some w →
        w_uuid w = "9a66fa0b0800919111e4012d1540cb8e" ∧
        take 3 (w_buffer w) = [2; (Z.of_nat k + 1) `mod` 256; 2] ∧
        step_byte w = Some ((Z.of_nat k + 1) `mod` 256)) ∧
     (∀ w, frames !! 255%nat = Some w → step_byte w = Some 0)).
Proof.
  destruct (step_cycle_1_to_255 COMMAND_KEY (replicate 256 Takeoff)
              (replicate 256 (MaxAltitude 2)) linked
              "9a66fa0b0800919111e4012d1540cb8e" "9a66fa0b0800919111e4012d1540cb8e")
    as [Hown Hlimit].
  split.
  - apply Hown.
    + apply Forall_replicate. reflexivity.
    + vm_compute. reflexivity.
    + vm_compute. reflexivity.
  - apply Hlimit.
    + apply Forall_replicate. reflexivity.
    + rewrite length_replicate. lia.
    + vm_compute. reflexivity.
    + vm_compute. reflexivity.
Defined.

(** C1, as stated, fails: after 256 consecutive sends from a fresh counter
    the 256th frame carries step 1, not step 0, on each of the three
    channels. *)
Lemma step_256_is_not_0 :
  (step_of_256th Takeoff = Some 1 ∧ step_of_256th Takeoff ≠ Some 0) ∧
  (step_of_256th Emergency = Some 1 ∧ step_of_256th Emergency ≠ Some 0) ∧
  (step_of_256th (SetFlightParams (mkFlightParams 0 0 0 0)) = Some 1 ∧
   step_of_256th (SetFlightParams (mkFlightParams 0 0 0 0)) ≠ Some 0).
Proof. vm_compute. repeat split; discriminate. Qed.

(** C9, as the code has it.  On a linked adapter whose flight-parameter
    counter [m] is below 32767, [writeMaxAltitude] and [writeMaxTilt] return,
    move the flight-parameter counter to [m + 1], never increment the command
    counter (they leave it as it is below 255 and reset it to 0 from 255 up),
    leave the emergency counter alone, and hand exactly one frame to the
    command characteristic, with the low byte of [m + 1] as its step. *)
Theorem limit_write_counts_on_flight_params (v : Z) (s : Adapter) (m : Z) (c : string) :
  steps s !! FLIGHT_PARAMS_KEY = Some m → 0 ≤ m < 32767 →
  find_characteristic COMMAND_KEY (characteristics s) = Some c →
  (∃ s', writeMaxAltitude v s = (Ok tt, s') ∧ limit_effect s s' m c) ∧
  (∃ s', writeMaxTilt v s = (Ok tt, s') ∧ limit_effect s s' m c).
Proof.
  intros Hs Hm Hc.
  split; eexists;
    (split; [apply (writeLimit_linked _ _ _ _ v s m c); try done; split; done |]).
  - by eapply limit_effect_intro.
  - by eapply limit_effect_intro.
Qed.

Lemma limit_write_counts_on_flight_params_witness :
  (∃ s', writeMaxAltitude 2 stale = (Ok tt, s') ∧
         limit_effect stale s' 0 "9a66fa0b0800919111e4012d1540cb8e") ∧
  (∃ s', writeMaxTilt 2 stale = (Ok tt, s') ∧
         limit_effect stale s' 0 "9a66fa0b0800919111e4012d1540cb8e").
Proof.
  apply (limit_write_counts_on_flight_params 2 stale 0).
  - vm_compute. reflexivity.
  - lia.
  - vm_compute. reflexivity.
Defined.

(** C9, as stated, fails: on an adapter whose command counter reached 255
    while no drone was linked, a limit-setting send changes the command
    counter (it resets it to 0). *)
Lemma limit_write_resets_command_counter :
  steps stale !! COMMAND_KEY = Some 255 ∧
  steps (exec (writeMaxAltitude 2) stale) !! COMMAND_KEY = Some 0 ∧
  steps (exec (writeMaxTilt 2) stale) !! COMMAND_KEY = Some 0 ∧
  steps (exec (writeMaxAltitude 2) stale) !! COMMAND_KEY ≠ steps stale !! COMMAND_KEY.
Proof. vm_compute. repeat split; discriminate. Qed.

(** ** Animations *)

(** A name that [animations] neither owns nor inherits leaves the adapter
    untouched. *)
Lemma writeAnimation_unknown (animation : string) (s : Adapter) :
  animations_get animation = VUndefined → writeAnimation animation s = (Ok tt, s).
Proof. intros H. unfold writeAnimation. by rewrite H. Qed.

Lemma writeAnimation_unknown_example :
  writeAnimation "barrelRoll" linked = (Ok tt, linked).
Proof. by apply writeAnimation_unknown. Qed.

(** Every name inherited from [Object.prototype] gets a frame written and
    moves the command counter. *)
Lemma writeAnimation_inherited_names :
  forallb
    (λ name,
       bool_decide (length (written (exec (writeAnimation name) linked)) = 1%nat) &&
       bool_decide (steps (exec (writeAnimation name) linked) !! COMMAND_KEY = Some 1))
    Object_prototype_keys = true.
Proof. vm_compute. reflexivity. Qed.

(** C10 at the failing input.  "toString" is not one of the four animation
    names, yet [animations["toString"]] is the function every object
    inherits, so the guard lets it through: the adapter builds and writes
    the very frame of flipFront and the command counter moves from 0 to 1. *)
Theorem writeAnimation_inherited_name_sends :
  ("toString" ∉ fst <$> animations) ∧
  writeAnimation "toString" linked ≠ (Ok tt, linked) ∧
  written (exec (writeAnimation "toString") linked)
  = [mkWrite "9a66fa0b0800919111e4012d1540cb8e" [2; 1; 2; 4; 0; 0; 0; 0; 0; 0]] ∧
  written (exec (writeAnimation "flipFront") linked)
  = [mkWrite "9a66fa0b0800919111e4012d1540cb8e" [2; 1; 2; 4; 0; 0; 0; 0; 0; 0]] ∧
  steps linked !! COMMAND_KEY = Some 0 ∧
  steps (exec (writeAnimation "toString") linked) !! COMMAND_KEY = Some 1.
Proof.
  split; [|split].
  - apply (bool_decide_eq_false_1 _). vm_compute. reflexivity.
  - intros H. apply (f_equal (λ r, length (written r.2))) in H.
    vm_compute in H. discriminate.
  - vm_compute. done.
Qed.

(** ** Counters out of their byte *)

(** With no transport every takeoff request moves the command counter and
    nothing resets it. *)
Lemma writeTakeoff_unlinked (s : Adapter) (m : Z) :
  characteristics s = [] → steps s !! COMMAND_KEY = Some m →
  writeTakeoff s =
    (Ok tt,
     add_logged (mkLog info "Takeoff command called" [])
       (add_logged (mkLog warn "You must have bluetooth enabled and be connected to a drone before executing a command." [])
          (set_steps (<[COMMAND_KEY := m + 1]> (steps s)) s))).
Proof.
  intros Hc Hs. unfold writeTakeoff, createBuffer.
  unfold mbind at 1 2 3. unfold M_bind.
  rewrite (preIncrement_eq _ _ _ Hs).
  unfold mret at 1. unfold M_ret.
  by rewrite write_unlinked.
Qed.

Lemma unlinked_takeoff_counts (n : nat) (s : Adapter) (m : Z) :
  characteristics s = [] → steps s !! COMMAND_KEY = Some m →
  characteristics (repeatedly n writeTakeoff s) = [] ∧
  steps (repeatedly n writeTakeoff s) !! COMMAND_KEY = Some (m + Z.of_nat n) ∧
  written (repeatedly n writeTakeoff s) = written s.
Proof.
  intros Hc Hs. induction n as [|n (IHc & IHs & IHw)].
  - cbn. by rewrite Z.add_0_r.
  - cbn [repeatedly].
    set (s1 := repeatedly n writeTakeoff s) in *.
    rewrite (exec_eq _ _ _ _ (writeTakeoff_unlinked _ _ IHc IHs)).
    cbn. rewrite lookup_insert_eq. repeat split; [done| |done].
    f_equal. lia.
Qed.

(** C7 at the failing inputs.  With no transport, 256 takeoff requests
    leave the command counter at 256 and send nothing.  With a transport,
    256 limit writes leave the flight-parameter counter at 256.  And a
    takeoff followed by a limit write puts two consecutive frames with the
    same step, 1, on the command characteristic. *)
Theorem step_counter_exceeds_255 :
  characteristics (constructor "") = [] ∧
  steps (repeatedly 256 writeTakeoff (constructor "")) !! COMMAND_KEY = Some 256 ∧
  written (repeatedly 256 writeTakeoff (constructor "")) = [] ∧
  steps (repeatedly 256 (writeMaxAltitude 2) linked) !! FLIGHT_PARAMS_KEY = Some 256 ∧
  (λ w, (w_uuid w, step_byte w))
    <$> written (exec (writeTakeoff;; writeMaxAltitude 2) linked)
  = [ ("9a66fa0b0800919111e4012d1540cb8e", Some 1);
      ("9a66fa0b0800919111e4012d1540cb8e", Some 1) ].
Proof. vm_compute. done. Qed.

(** ** The flight loop *)

Lemma flightStatusChange_undefined (n : Adapter) :
  Adapter_get n "flightStatusChange" = VUndefined.
Proof. reflexivity. Qed.

(** Whatever the drone, a tick changes nothing and sends nothing. *)
Lemma eventLoop_idle (d : Drone.t) : Drone.eventLoop d = (Ok tt, d).
Proof.
  unfold Drone.eventLoop. destruct (Drone.network d) as [n|]; [|done].
  by rewrite flightStatusChange_undefined.
Qed.

(** C2 at the failing input.  The drone holds a linked adapter that has
    decoded a flight-status notification (its [flightStatus] is "hovering"
    and the event was emitted) and its roll was set to 10; a tick of the
    loop returns with the drone unchanged: no frame is written. *)
Theorem eventLoop_sends_nothing :
  (∃ n, Drone.network flying_drone = Some n ∧
        characteristics n = drone_characteristics ∧
        connected n = true ∧
        flightStatus n = VStr "hovering" ∧
        emitted n = [mkEvent "flightStatusChange" (PValue (VStr "hovering"))] ∧
        written n = []) ∧
  Drone.flightParams flying_drone = mkFlightParams 10 0 0 0 ∧
  Drone.eventLoop flying_drone = (Ok tt, flying_drone).
Proof.
  split; [|split].
  - eexists. split; [reflexivity|]. vm_compute. done.
  - reflexivity.
  - apply eventLoop_idle.
Qed.

(** ** The peripheral filter *)

Lemma prefix_append (pat post : string) : String.prefix pat (pat +:+ post) = true.
Proof.
  induction pat as [|a pat IH]; [by destruct post|].
  change (String a pat +:+ post) with (String a (pat +:+ post)).
  cbn. by destruct (Ascii.ascii_dec a a).
Qed.

Lemma indexOf_from_infix (pre pat post : string) : ∀ i,
  0 ≤ i → 0 ≤ indexOf_from (pre +:+ pat +:+ post) pat i.
Proof.
  induction pre as [|c pre IH]; intros i Hi.
  - change ("" +:+ pat +:+ post) with (pat +:+ post).
    destruct (pat +:+ post) eqn:E; cbn [indexOf_from].
    + destruct pat; [cbn; lia | discriminate].
    + rewrite <- E, prefix_append. lia.
  - change (String c pre +:+ pat +:+ post) with (String c (pre +:+ pat +:+ post)).
    cbn [indexOf_from].
    destruct (String.prefix pat (String c (pre +:+ pat +:+ post))); [lia|].
    apply IH. lia.
Qed.

Lemma truthy_js_or a b : truthy (js_or a b) = truthy a || truthy b.
Proof. unfold js_or. by destruct (truthy a) eqn:E; [rewrite E|]. Qed.

(** With the empty filter, a name that has a vendor prefix anywhere in it
    is accepted, whatever stands before the prefix. *)
Lemma validatePeripheral_accepts_infix (RegExp_test : string → string → bool)
    (a : Adapter) (pre prefix post : string) (md : option ManufacturerData) :
  droneFilter a = "" → prefix ∈ DRONE_PREFIXES →
  truthy (validatePeripheral RegExp_test a
            (Some (mkPeripheral (Some (pre +:+ prefix +:+ post)) md))) = true.
Proof.
  intros Hf Hin. unfold validatePeripheral. rewrite Hf. cbn [String.eqb localName].
  rewrite truthy_js_or. apply orb_true_iff. left.
  change (default "" (Some (pre +:+ prefix +:+ post))) with (pre +:+ prefix +:+ post).
  assert (existsb (λ p, 0 <=? indexOf (pre +:+ prefix +:+ post) p) DRONE_PREFIXES = true)
    as ->.
  { apply existsb_exists. exists prefix. split; [by apply list_elem_of_In|].
    apply Z.leb_le. by apply indexOf_from_infix. }
  unfold js_and. cbn.
  destruct (String.eqb (pre +:+ prefix +:+ post) "") eqn:E; [|done].
  apply String.eqb_eq in E. exfalso.
  destruct pre; [|discriminate].
  change ("" +:+ prefix +:+ post) with (prefix +:+ post) in E.
  destruct prefix; [|discriminate].
  unfold DRONE_PREFIXES in Hin.
  repeat (apply elem_of_cons in Hin as [Hin|Hin]; [discriminate Hin|]).
  by apply elem_of_nil in Hin.
Qed.

(** Manufacturer data that arrives as a Buffer never matches, whatever its
    bytes. *)
Lemma validatePeripheral_ignores_buffer (RegExp_test : string → string → bool)
    (a : Adapter) (name : option string) (bytes : Buffer) :
  truthy (validatePeripheral RegExp_test a
            (Some (mkPeripheral name (Some (MDBuffer bytes)))))
  = truthy (validatePeripheral RegExp_test a (Some (mkPeripheral name None))).
Proof.
  unfold validatePeripheral. rewrite !truthy_js_or. by cbn.
Qed.

(** C4 at the failing inputs, with the empty filter.  "SkyRS_1" starts
    with none of the vendor prefixes and carries no manufacturer data, yet
    it matches, because the name is searched for the prefix anywhere.  And
    manufacturer data reported as the bytes 43 00 cf 19 00 09 01 00 does not
    match, because a Buffer is never strictly equal to a serial string.  The
    two examples of the specification come out as it says. *)
Theorem validatePeripheral_substring (RegExp_test : string → string → bool) :
  let matches p := truthy (validatePeripheral RegExp_test (constructor "") (Some p)) in
  forallb (λ prefix, negb (String.prefix prefix "SkyRS_1")) DRONE_PREFIXES = true ∧
  matches (mkPeripheral (Some "SkyRS_1") None) = true ∧
  matches (mkPeripheral (Some "Mambo_12AB") None) = true ∧
  matches (mkPeripheral (Some "SomeRandomBLE") None) = false ∧
  matches (mkPeripheral (Some "SomeRandomBLE")
             (Some (MDBuffer [67; 0; 207; 25; 0; 9; 1; 0]))) = false ∧
  matches (mkPeripheral (Some "SomeRandomBLE")
             (Some (MDString "4300cf1900090100"))) = true.
Proof. vm_compute. done. Qed.

(** ** The decoder *)

Lemma add_logged_with_lines l s : add_logged l s = with_lines [l] s.
Proof. reflexivity. Qed.

Lemma with_lines_app l1 l2 s :
  with_lines l2 (with_lines l1 s) = with_lines (l1 ++ l2) s.
Proof. unfold with_lines. cbn. by rewrite app_assoc. Qed.

Ltac split_eqb :=
  repeat match goal with
    | |- context [?x =? ?n] => destruct (Z.eqb_spec x n); subst; cbn
    end.

Ltac only_lines :=
  unfold missing, Logger, update;
  rewrite ?add_logged_with_lines, ?with_lines_app;
  eexists; split; [|reflexivity]; discriminate.

Ltac in_table H :=
  exfalso; apply H; apply (bool_decide_unpack _); vm_compute; exact I.

Ltac unmatched_leaf :=
  unfold missing, Logger, update;
  rewrite ?add_logged_with_lines, ?with_lines_app; reflexivity.

(** C5, as the code has it.  A frame of five bytes or more whose
    (project, class, command) triple has no case in the decoder is decoded
    without a throw; the adapter comes out the same but for logger lines (so
    no event, and batteryLevel, flightStatus and alertStatus as they were);
    and the frame that follows is decoded from that state.  The lines are
    those of [unmatched_lines]: for every project but 1 the last of them is
    a line ending in "missing" that carries the data type and the triple,
    and so does the first when the data type is not one of 1 to 4; for
    project 1 with a data type from 1 to 4 the only line is "ARDRONE3",
    which says nothing of the class and the command. *)
Theorem unknown_triple_only_logged
    (s : Adapter) (dataType step project msgClass commandKey : Z) (rest : Buffer) :
  (project, msgClass, commandKey) ∉ dispatch_table →
  ∃ lines s', lines ≠ [] ∧
    decodePacket (dataType :: step :: project :: msgClass :: commandKey :: rest) s
    = (Ok tt, s') ∧
    s' = with_lines lines s ∧
    emitted s' = emitted s ∧
    batteryLevel s' = batteryLevel s ∧
    flightStatus s' = flightStatus s ∧
    alertStatus s' = alertStatus s ∧
    lines = unmatched_lines dataType project msgClass commandKey ∧
    (project ≠ 1 →
       ∃ text, text ∈ ["Packet implementation missing"; "Project missing missing"] ∧
         last lines = Some (mkLog info text [VNum dataType; VNum project;
                                             VNum msgClass; VNum commandKey])) ∧
    (dataType ∉ [1; 2; 3; 4] →
       head lines = Some (mkLog info "DataType missing"
                            [VNum dataType; VNum project; VNum msgClass; VNum commandKey])) ∧
    (project = 1 → dataType ∈ [1; 2; 3; 4] → lines = [mkLog info "ARDRONE3" []]) ∧
    ∀ next, (decodePacket (dataType :: step :: project :: msgClass :: commandKey :: rest);;
             decodePacket next) s
            = decodePacket next s'.
Proof.
  intros Hnot.
  assert (decodePacket (dataType :: step :: project :: msgClass :: commandKey :: rest) s
          = (Ok tt, with_lines (unmatched_lines dataType project msgClass commandKey) s))
    as Hdec.
  { unfold decodePacket, unmatched_lines. mstep. cbn.
    destruct ((dataType =? 1) || (dataType =? 2) || (dataType =? 3) || (dataType =? 4));
      cbn; split_eqb; first [ unmatched_leaf | in_table Hnot ]. }
  assert ((dataType =? 1) || (dataType =? 2) || (dataType =? 3) || (dataType =? 4)
          = bool_decide (dataType ∈ [1; 2; 3; 4])) as Hdt.
  { destruct (Z.eqb_spec dataType 1) as [->|]; [done|].
    destruct (Z.eqb_spec dataType 2) as [->|]; [done|].
    destruct (Z.eqb_spec dataType 3) as [->|]; [done|].
    destruct (Z.eqb_spec dataType 4) as [->|]; [done|].
    symmetry. apply bool_decide_eq_false_2. intros H.
    repeat (apply elem_of_cons in H as [H|H]; [done|]). by apply elem_of_nil in H. }
  exists (unmatched_lines dataType project msgClass commandKey),
         (with_lines (unmatched_lines dataType project msgClass commandKey) s).
  split.
  { unfold unmatched_lines. rewrite Hdt.
    destruct (bool_decide (dataType ∈ [1; 2; 3; 4])); [|done].
    by repeat case_match. }
  repeat (split; [done|]). split; [|split; [|split]].
  - intros Hp. unfold unmatched_lines. rewrite last_app.
    destruct (Z.eqb_spec project 0); [|destruct (Z.eqb_spec project 1); [done|];
      destruct (Z.eqb_spec project 2)]; cbn; eexists; (split; [|reflexivity]);
      apply (bool_decide_unpack _); vm_compute; exact I.
  - intros Hd. unfold unmatched_lines. rewrite Hdt, bool_decide_eq_false_2 by done.
    reflexivity.
  - intros -> Hd. unfold unmatched_lines. rewrite Hdt, bool_decide_eq_true_2 by done.
    reflexivity.
  - intros next. by rewrite (bind_ok _ _ _ _ _ Hdec).
Qed.

Lemma unknown_triple_only_logged_witness :
  ∃ lines s', lines ≠ [] ∧
    decodePacket [2; 7; 2; 3; 9; 0; 1] linked = (Ok tt, s') ∧
    s' = with_lines lines linked ∧
    emitted s' = emitted linked ∧
    batteryLevel s' = batteryLevel linked ∧
    flightStatus s' = flightStatus linked ∧
    alertStatus s' = alertStatus linked ∧
    lines = unmatched_lines 2 2 3 9 ∧
    (2 ≠ 1 →
       ∃ text, text ∈ ["Packet implementation missing"; "Project missing missing"] ∧
         last lines = Some (mkLog info text [VNum 2; VNum 2; VNum 3; VNum 9])) ∧
    (2 ∉ [1; 2; 3; 4] →
       head lines = Some (mkLog info "DataType missing" [VNum 2; VNum 2; VNum 3; VNum 9])) ∧
    (2 = 1 → 2 ∈ [1; 2; 3; 4] → lines = [mkLog info "ARDRONE3" []]) ∧
    ∀ next, (decodePacket [2; 7; 2; 3; 9; 0; 1];; decodePacket next) linked
            = decodePacket next s'.
Proof.
  apply (unknown_triple_only_logged linked 2 7 2 3 9 [0; 1]).
  apply (bool_decide_eq_false_1 _). vm_compute. reflexivity.
Defined.

(** C5, as stated, fails for project 1: the frames with triples (1, 3, 9)
    and (1, 55, 66), neither of which has a case in the decoder, leave the
    very same adapter behind, whose one new logger line is "ARDRONE3"; the
    log does not tell the one triple from the other. *)
Lemma ardrone3_triple_not_reported :
  ((1, 3, 9) ∉ dispatch_table) ∧ ((1, 55, 66) ∉ dispatch_table) ∧
  decodePacket [2; 7; 1; 3; 9; 0; 0] linked = decodePacket [2; 7; 1; 55; 66; 0; 0] linked ∧
  decodePacket [2; 7; 1; 3; 9; 0; 0] linked
  = (Ok tt, with_lines [mkLog info "ARDRONE3" []] linked).
Proof.
  split; [|split; [|split]].
  - apply (bool_decide_eq_false_1 _). vm_compute. reflexivity.
  - apply (bool_decide_eq_false_1 _). vm_compute. reflexivity.
  - vm_compute. reflexivity.
  - vm_compute. reflexivity.
Qed.

(** C6.  Decoding a BatteryStateChanged frame (project 0, class 5,
    command 1) returns, sets [batteryLevel] to the byte at offset 6, emits
    exactly one batteryStatusChange event carrying it, and leaves
    [flightStatus], [alertStatus] and the outbound state as they were. *)
Theorem battery_frame_updates_only_battery
    (s : Adapter) (dataType step x5 level : Z) (rest : Buffer) :
  ∃ s',
    decodePacket (dataType :: step :: 0 :: 5 :: 1 :: x5 :: level :: rest) s = (Ok tt, s') ∧
    batteryLevel s' = VNum level ∧
    emitted s' = emitted s ++ [mkEvent "batteryStatusChange" (PValue (VNum level))] ∧
    flightStatus s' = flightStatus s ∧
    alertStatus s' = alertStatus s ∧
    steps s' = steps s ∧
    flightParams s' = flightParams s ∧
    written s' = written s ∧
    characteristics s' = characteristics s ∧
    connected s' = connected s.
Proof.
  unfold decodePacket. mstep. cbn.
  destruct ((dataType =? 1) || (dataType =? 2) || (dataType =? 3) || (dataType =? 4));
    cbn; (eexists; split; [reflexivity|]); cbn; repeat split.
Qed.

(** A BatteryStateChanged frame that stops before offset 6 makes the
    decoder throw, after the project line has been logged. *)
Lemma battery_frame_too_short (s : Adapter) (x5 : Z) :
  ∃ s', decodePacket [2; 1; 0; 5; 1; x5] s = (Throw "RangeError", s') ∧
        batteryLevel s' = batteryLevel s ∧ emitted s' = emitted s.
Proof. unfold decodePacket. mstep. cbn. eexists. split; [reflexivity|]. done. Qed.

(** C8.  Decoding a FlyingStateChanged frame (project 2, class 3,
    command 1) with index 2 at offset 6 emits flightStatusChange with
    "hovering"; with index 7, "initializing"; with index 8 the decoder
    returns all the same, the status and the event payload being
    [undefined]; and whatever the index the decoder returns. *)
Theorem flight_status_frame_by_index
    (s : Adapter) (dataType step x5 : Z) (rest : Buffer) :
  let frame i := dataType :: step :: 2 :: 3 :: 1 :: x5 :: i :: rest in
  let changed_to v s' :=
    flightStatus s' = v ∧
    emitted s' = emitted s ++ [mkEvent "flightStatusChange" (PValue v)] in
  (∃ s', decodePacket (frame 2) s = (Ok tt, s') ∧ changed_to (VStr "hovering") s') ∧
  (∃ s', decodePacket (frame 7) s = (Ok tt, s') ∧ changed_to (VStr "initializing") s') ∧
  (∃ s', decodePacket (frame 8) s = (Ok tt, s') ∧ changed_to VUndefined s') ∧
  (∀ i, ∃ s', decodePacket (frame i) s = (Ok tt, s')).
Proof.
  cbn zeta. unfold decodePacket. mstep. cbn.
  destruct ((dataType =? 1) || (dataType =? 2) || (dataType =? 3) || (dataType =? 4));
    cbn; repeat split; try (eexists; split; [reflexivity|]; cbn; by split);
    intros i; eexists; reflexivity.
Qed.

(** * Further properties *)

(** ** A relational program logic for the adapter's methods *)

Section Ensures.
Context (R : Adapter → Adapter → Prop) `{!PreOrder R}.

Lemma ensures_ret {A} (a : A) (Q : A → Prop) : Q a → ensures (mret a) R Q.
Proof. intros Hq s. split; [reflexivity|]. by intros a' [= <-]. Qed.

Lemma ensures_throw {A} (e : string) (Q : A → Prop) : ensures (throw e) R Q.
Proof. intros s. split; [reflexivity|]. done. Qed.

Lemma ensures_try {A} (e : string) (o : option A) (Q : A → Prop) :
  (∀ a, o = Some a → Q a) → ensures (try e o) R Q.
Proof.
  intros Hq. destruct o as [a|]; [apply ensures_ret; auto | apply ensures_throw].
Qed.

Lemma ensures_update (g : Adapter → Adapter) (Q : unit → Prop) :
  (∀ s, R s (g s)) → Q tt → ensures (update g) R Q.
Proof. intros Hg Hq s. split; [apply Hg|]. by intros [] _. Qed.

Lemma ensures_bind {A B} (m : M A) (f : A → M B) (P : A → Prop) (Q : B → Prop) :
  ensures m R P → (∀ a, P a → ensures (f a) R Q) → ensures (m ≫= f) R Q.
Proof.
  intros Hm Hf s. destruct (Hm s) as [Hr Hp].
  unfold mbind, M_bind. destruct (m s) as [[a|e] s1] eqn:E; cbn in *.
  - destruct (Hf a (Hp a eq_refl) s1) as [Hr' Hq]. split; [by etrans|done].
  - split; [done|]. done.
Qed.

Lemma ensures_weaken {A} (m : M A) (Q Q' : A → Prop) :
  ensures m R Q → (∀ a, Q a → Q' a) → ensures m R Q'.
Proof. intros Hm Hq s. destruct (Hm s) as [Hr Hp]. split; [done|]. eauto. Qed.

(** A call that reads the state first. *)
Lemma ensures_this {A} (f : Adapter → M A) (Q : A → Prop) :
  (∀ s, R s (f s s).2 ∧ ∀ a, (f s s).1 = Ok a → Q a) → ensures (this ≫= f) R Q.
Proof. intros Hf s. apply Hf. Qed.

End Ensures.

(** ** The relations are preorders *)

#[local] Instance stays_unlinked_preorder : PreOrder stays_unlinked.
Proof.
  split.
  - by intros s Hs.
  - intros s1 s2 s3 H12 H23 Hs. destruct (H12 Hs) as [Hc Hw].
    destruct (H23 Hc) as [Hc' Hw']. split; [done|congruence].
Qed.

#[local] Instance only_counters_preorder keys : PreOrder (only_counters keys).
Proof.
  split.
  - by intros s k Hk.
  - intros s1 s2 s3 H12 H23 k Hk. rewrite (H23 k Hk). by apply H12.
Qed.

#[local] Instance appends_frames_preorder ok : PreOrder (appends_frames ok).
Proof.
  split.
  - intros s. exists []. by rewrite app_nil_r.
  - intros s1 s2 s3 (ws & Hw & Hok) (ws' & Hw' & Hok'). exists (ws ++ ws').
    split; [by rewrite Hw', Hw, app_assoc | by apply Forall_app].
Qed.

#[local] Instance outbound_preorder keys ok : PreOrder (outbound keys ok).
Proof.
  split.
  - intros s. split; [|split]; reflexivity.
  - intros s1 s2 s3 (Ha & Hb & Hc) (Ha' & Hb' & Hc').
    split; [|split]; by etrans.
Qed.

(** ** Buffers stay buffers *)

Lemma is_byte_land (x : Z) : is_byte (Z.land x 255).
Proof.
  unfold is_byte. rewrite land_255_mod. pose proof (Z.mod_pos_bound x 256). lia.
Qed.

Lemma valid_alloc (n : nat) : valid_buffer n (Buffer_alloc n).
Proof.
  split; [apply length_replicate|]. apply Forall_replicate. unfold is_byte. lia.
Qed.

Lemma valid_from (array : list Z) : valid_buffer (length array) (Buffer_from array).
Proof.
  split; [apply length_fmap|]. unfold Buffer_from. apply Forall_fmap.
  apply Forall_true. intros x. apply is_byte_land.
Qed.

Lemma valid_insert n (buf : Buffer) (i : nat) (x : Z) :
  valid_buffer n buf → valid_buffer n (<[i := Z.land x 255]> buf).
Proof.
  unfold Buffer in *. intros [Hl Hb]. split; [by rewrite length_insert|].
  apply Forall_insert; [done | apply is_byte_land].
Qed.

Lemma valid_writeInt16LE n (buf buf' : Buffer) (v : Z) (off : nat) :
  valid_buffer n buf → writeInt16LE buf v off = Some buf' → valid_buffer n buf'.
Proof.
  intros Hv. unfold writeInt16LE. case_match; [|done].
  intros [= <-]. by do 2 apply valid_insert.
Qed.

Lemma valid_writeFloatLE n (buf buf' : Buffer) (v : Z) (off : nat) :
  valid_buffer n buf → writeFloatLE buf v off = Some buf' → valid_buffer n buf'.
Proof.
  intros Hv. unfold writeFloatLE. case_match; [|done].
  intros [= <-]. by do 4 apply valid_insert.
Qed.

(** ** [indexOf] finds an occurrence when there is one *)

Lemma prefix_occurs (pat s : string) :
  String.prefix pat s = true → ∃ post, s = pat +:+ post.
Proof.
  revert s. induction pat as [|a pat IH]; intros s H.
  - by exists s.
  - destruct s as [|b s]; [done|]. cbn in H.
    destruct (Ascii.ascii_dec a b) as [->|]; [|done].
    destruct (IH s H) as [post ->]. by exists post.
Qed.

Lemma indexOf_from_sound (pat s : string) : ∀ i,
  0 ≤ i → indexOf_from s pat i = -1 ∨ (i ≤ indexOf_from s pat i ∧ occurs_in pat s).
Proof.
  induction s as [|c s IH]; intros i Hi; cbn [indexOf_from].
  - destruct (String.prefix pat "") eqn:E; [|by left].
    right. split; [lia|]. destruct (prefix_occurs _ _ E) as [post Hp].
    by exists "", post.
  - destruct (String.prefix pat (String c s)) eqn:E.
    + right. split; [lia|]. destruct (prefix_occurs _ _ E) as [post Hp].
      by exists "", post.
    + destruct (IH (i + 1) ltac:(lia)) as [->|[Hle (pre & post & ->)]]; [by left|].
      right. split; [lia|]. by exists (String c pre), post.
Qed.

Lemma indexOf_occurs (s pat : string) : indexOf s pat ≠ -1 ↔ occurs_in pat s.
Proof.
  split.
  - intros H. by destruct (indexOf_from_sound pat s 0 ltac:(lia)) as [|[_ ?]].
  - intros (pre & post & ->). unfold indexOf.
    pose proof (indexOf_from_infix pre pat post 0 ltac:(lia)). lia.
Qed.

Lemma find_characteristic_spec (uuid : string) (chars : list string) :
  match find_characteristic uuid chars with
  | Some c => ∃ before after, chars = before ++ c :: after ∧
                occurs_in uuid c ∧ Forall (λ x, ¬ occurs_in uuid x) before
  | None => Forall (λ x, ¬ occurs_in uuid x) chars
  end.
Proof.
  unfold find_characteristic. induction chars as [|x chars IH]; [by constructor|].
  rewrite filter_cons. case_decide as Hx.
  - cbn. exists [], chars. split; [done|]. split; [by apply indexOf_occurs|constructor].
  - assert (¬ occurs_in uuid x) as Hno
      by (intros Ho; by apply indexOf_occurs in Ho).
    destruct (head (filter _ chars)) as [c|].
    + destruct IH as (before & after & -> & Hc & Hb).
      exists (x :: before), after. split; [done|]. split; [done|by constructor].
    + by constructor.
Qed.

Ltac e_bind := match goal with |- ensures _ ?R _ => eapply (ensures_bind R) end.
Ltac in_keys := repeat first [ apply list_elem_of_here | apply list_elem_of_further ].
Ltac e_seq :=
  match goal with |- ensures _ ?R _ => eapply (ensures_bind R _ _ (λ _, True)) end.
Ltac e_ret := match goal with |- ensures _ ?R _ => apply (ensures_ret R) end.
Ltac e_try := match goal with |- ensures _ ?R _ => apply (ensures_try R) end.
Ltac e_update := match goal with |- ensures _ ?R _ => apply (ensures_update R) end.

(** ** The primitives of the outbound side *)

Lemma outbound_same keys ok (s s' : Adapter) :
  characteristics s' = characteristics s → written s' = written s →
  (∀ k, k ∉ keys → steps s' !! k = steps s !! k) →
  outbound keys ok s s'.
Proof.
  intros Hc Hw Hs. split; [|split].
  - intros Hu. split; congruence.
  - done.
  - exists []. by rewrite app_nil_r.
Qed.

Lemma ensures_Logger keys ok lvl text args :
  ensures (Logger lvl text args) (outbound keys ok) (λ _, True).
Proof. e_update; [|done]. intros s. by apply outbound_same. Qed.

Lemma ensures_emit keys ok name arg :
  ensures (emit name arg) (outbound keys ok) (λ _, True).
Proof. e_update; [|done]. intros s. by apply outbound_same. Qed.

Lemma ensures_preIncrement keys ok uuid :
  uuid ∈ keys → ensures (preIncrement uuid) (outbound keys ok) (λ _, True).
Proof.
  intros Hin s. split; [|done]. apply outbound_same; [done..|].
  intros k Hk. cbn. apply lookup_alter_ne. by intros ->.
Qed.

Lemma ensures_write keys ok uuid buf :
  uuid ∈ keys → (∀ c, occurs_in uuid c → ok (mkWrite c buf)) →
  ensures (write uuid buf) (outbound keys ok) (λ _, True).
Proof.
  intros Hin Hok s. split; [|done].
  destruct (characteristics s) as [|c0 chars] eqn:Hchars.
  - rewrite (write_unlinked _ _ _ Hchars). cbn. apply outbound_same; [done..|]. done.
  - assert (∀ k, k ∉ keys → steps (wrapped uuid s) !! k = steps s !! k) as Hsteps.
    { intros k Hk. apply wrapped_other. by intros ->. }
    pose proof (find_characteristic_spec uuid (characteristics s)) as Hfind.
    destruct (find_characteristic uuid (characteristics s)) as [c|] eqn:Hc.
    + rewrite (write_linked _ _ _ _ Hc). cbn [snd].
      destruct Hfind as (_ & _ & _ & Hocc & _). split; [|split].
      * intros Hu. by rewrite Hchars in Hu.
      * done.
      * exists [mkWrite c buf]. cbn [written add_written].
        rewrite wrapped_written. split; [done|].
        constructor; [by apply Hok|constructor].
    + unfold write. mstep. rewrite Hchars. cbn. rewrite resetStep_eq.
      unfold getCharacteristic. mstep.
      rewrite wrapped_characteristics, Hchars. cbn.
      rewrite <- Hchars, Hc. cbn.
      apply outbound_same; [apply wrapped_characteristics|apply wrapped_written|done].
Qed.

Lemma ensures_createBuffer keys ok uuid args :
  uuid ∈ keys →
  ensures (createBuffer uuid args) (outbound keys ok)
    (valid_buffer (3 + length args)).
Proof.
  intros Hin. unfold createBuffer.
  e_seq; [by apply ensures_preIncrement|].
  intros step _. e_ret. apply (valid_from (_ :: _ :: _ :: args)).
Qed.

(** A command built with [createBuffer] and handed to [write]. *)
Lemma ensures_command keys ok uuid args text largs :
  uuid ∈ keys →
  (∀ c buf, occurs_in uuid c → valid_buffer (3 + length args) buf → ok (mkWrite c buf)) →
  ensures (buffer ← createBuffer uuid args; write uuid buffer;; Logger info text largs)
    (outbound keys ok) (λ _, True).
Proof.
  intros Hin Hok.
  e_bind; [by apply ensures_createBuffer|].
  intros buf Hbuf. e_seq; [apply ensures_write; eauto|].
  intros _ _. apply ensures_Logger.
Qed.

Ltac chain_int16 :=
  e_bind;
    [ e_try; intros ? ?; eapply valid_writeInt16LE; eauto | intros ? ? ].
Ltac chain_float :=
  e_bind;
    [ e_try; intros ? ?; eapply valid_writeFloatLE; eauto | intros ? ? ].

Lemma ensures_writeFlightParams fp ok :
  (∀ c buf, occurs_in FLIGHT_PARAMS_KEY c → valid_buffer 19 buf → ok (mkWrite c buf)) →
  ensures (writeFlightParams fp) (outbound [FLIGHT_PARAMS_KEY] ok) (λ _, True).
Proof.
  intros Hok. unfold writeFlightParams. pose proof (valid_alloc 19) as H0.
  e_seq.
  { e_update; [|done]. intros s. by apply outbound_same. }
  intros _ _. chain_int16.
  e_seq; [apply ensures_preIncrement; in_keys|]. intros step _.
  do 10 chain_int16. chain_float.
  e_seq; [apply ensures_write; [in_keys|eauto]|].
  intros _ _. apply ensures_emit.
Qed.

Lemma ensures_writeLimit cls method event text v ok :
  (∀ c buf, occurs_in COMMAND_KEY c → valid_buffer 19 buf → ok (mkWrite c buf)) →
  ensures (writeLimit cls method event text v)
    (outbound [FLIGHT_PARAMS_KEY; COMMAND_KEY] ok) (λ _, True).
Proof.
  intros Hok. unfold writeLimit. pose proof (valid_alloc 19) as H0.
  chain_int16.
  e_seq; [apply ensures_preIncrement; in_keys|]. intros step _.
  do 5 chain_int16. do 2 chain_float.
  e_seq; [apply ensures_write; [in_keys|eauto]|].
  intros _ _. e_seq; [apply ensures_emit|].
  intros _ _. apply ensures_Logger.
Qed.

Lemma ensures_call (c : Command) :
  ensures (call c) (outbound (counters_of c) (frame_of c)) (λ _, True).
Proof.
  destruct c; cbn [call counters_of].
  - unfold writeTrim. apply ensures_command; [in_keys | by intros c buf Hc Hb; split].
  - unfold writeTakeoff. apply ensures_command; [in_keys | by intros c buf Hc Hb; split].
  - unfold writeLand. apply ensures_command; [in_keys | by intros c buf Hc Hb; split].
  - unfold writeEmergency.
    apply ensures_command; [in_keys | by intros c buf Hc Hb; split].
  - unfold writeTakePicture.
    apply ensures_command; [in_keys | by intros c buf Hc Hb; split].
  - unfold writeAnimation. case_match; [by e_ret|].
    apply ensures_command; [in_keys | by intros c buf Hc Hb; split].
  - apply ensures_writeFlightParams. by intros c buf Hc Hb; split.
  - apply ensures_writeLimit. by intros c buf Hc Hb; split.
  - apply ensures_writeLimit. by intros c buf Hc Hb; split.
  - apply ensures_writeLimit. by intros c buf Hc Hb; split.
  - apply ensures_writeLimit. by intros c buf Hc Hb; split.
Qed.

(** ** What the calls of the pilot keep *)

Lemma ensures_mono {A} (m : M A) (R R' : Adapter → Adapter → Prop) (Q : A → Prop) :
  (∀ s s', R s s' → R' s s') → ensures m R Q → ensures m R' Q.
Proof. intros HR Hm s. destruct (Hm s). split; eauto. Qed.

Lemma ensures_calls (R : Adapter → Adapter → Prop) `{!PreOrder R} (cs : list Command) :
  (∀ c, c ∈ cs → ensures (call c) R (λ _, True)) → ensures (calls cs) R (λ _, True).
Proof.
  induction cs as [|c cs IH]; intros Hc; cbn [calls].
  - by apply ensures_ret.
  - eapply (ensures_bind R); [apply Hc; by left|].
    intros _ _. apply IH. intros c' Hin. apply Hc. by right.
Qed.

Lemma calls_stay_unlinked (cs : list Command) (s : Adapter) :
  characteristics s = [] →
  characteristics (exec (calls cs) s) = [] ∧
  written (exec (calls cs) s) = written s.
Proof.
  intros Hs.
  assert (ensures (calls cs) stays_unlinked (λ _, True)) as H.
  { apply ensures_calls; [apply _|]. intros c _.
    eapply ensures_mono; [|apply ensures_call]. by intros s1 s2 (? & _). }
  by apply (H s).
Qed.

(** X1.  With no transport attached nothing the pilot calls reaches a
    characteristic: after any sequence of calls, returned or thrown, the
    adapter is still unlinked and its list of writes is what it was. *)
Theorem unlinked_calls_write_nothing (cs : list Command) (s : Adapter) :
  characteristics s = [] →
  characteristics (exec (calls cs) s) = [] ∧
  written (exec (calls cs) s) = written s.
Proof. apply calls_stay_unlinked. Qed.

Lemma unlinked_calls_write_nothing_witness :
  characteristics
    (exec (calls [Takeoff; SetFlightParams (mkFlightParams 10 0 0 0); MaxAltitude 3;
                  Emergency]) (constructor "")) = [] ∧
  written
    (exec (calls [Takeoff; SetFlightParams (mkFlightParams 10 0 0 0); MaxAltitude 3;
                  Emergency]) (constructor "")) = written (constructor "").
Proof. apply unlinked_calls_write_nothing. reflexivity. Defined.

(** X2.  Each call touches only its own counters: a command leaves the
    emergency and flight-parameter counters alone, the emergency call
    leaves the other two alone, a flight-parameter write leaves the command
    and emergency counters alone, and a limit setter leaves the emergency
    counter alone; whether the call returns or throws. *)
Theorem call_changes_only_its_counters (c : Command) (s : Adapter) (k : string) :
  k ∉ counters_of c → steps (exec (call c) s) !! k = steps s !! k.
Proof.
  intros Hk. destruct (ensures_call c s) as [(_ & Hcounters & _) _].
  by apply Hcounters.
Qed.

Lemma call_changes_only_its_counters_witness :
  steps (exec (call Emergency) linked) !! COMMAND_KEY = steps linked !! COMMAND_KEY.
Proof.
  apply call_changes_only_its_counters.
  apply (bool_decide_eq_false_1 _). vm_compute. reflexivity.
Defined.

(** ** One frame per call at most *)

Lemma at_most_ret {A} (a : A) : writes_at_most 0 (mret a : M A).
Proof. intros s. exists []. by rewrite app_nil_r. Qed.

Lemma at_most_throw {A} (e : string) : writes_at_most 0 (throw e : M A).
Proof. intros s. exists []. by rewrite app_nil_r. Qed.

Lemma at_most_try {A} (e : string) (o : option A) : writes_at_most 0 (try e o).
Proof. destruct o; [apply at_most_ret | apply at_most_throw]. Qed.

Lemma at_most_update (g : Adapter → Adapter) :
  (∀ s, written (g s) = written s) → writes_at_most 0 (update g).
Proof. intros Hg s. exists []. cbn. rewrite Hg, app_nil_r. split; [done|cbn; lia]. Qed.

Lemma at_most_bind {A B} (m : M A) (f : A → M B) (n k : nat) :
  writes_at_most n m → (∀ a, writes_at_most k (f a)) →
  writes_at_most (n + k) (m ≫= f).
Proof.
  intros Hm Hf s. destruct (Hm s) as (ws & Hw & Hn).
  unfold mbind, M_bind. destruct (m s) as [[a|e] s1]; cbn in *.
  - destruct (Hf a s1) as (ws' & Hw' & Hk). exists (ws ++ ws').
    rewrite Hw', Hw, app_assoc, length_app. split; [done|cbn; lia].
  - exists ws. split; [done|cbn; lia].
Qed.

Lemma at_most_preIncrement uuid : writes_at_most 0 (preIncrement uuid).
Proof. intros s. exists []. by rewrite app_nil_r. Qed.

Lemma at_most_write uuid buf : writes_at_most 1 (write uuid buf).
Proof.
  intros s. destruct (characteristics s) as [|c0 chars] eqn:Hchars.
  - rewrite (write_unlinked _ _ _ Hchars). exists []. cbn.
    rewrite app_nil_r. split; [done|cbn; lia].
  - destruct (find_characteristic uuid (characteristics s)) as [c|] eqn:Hc.
    + rewrite (write_linked _ _ _ _ Hc). exists [mkWrite c buf].
      cbn [snd written add_written]. rewrite wrapped_written. split; [done|cbn; lia].
    + unfold write. mstep. rewrite Hchars. cbn. rewrite resetStep_eq.
      unfold getCharacteristic. mstep.
      rewrite wrapped_characteristics, Hchars. cbn.
      rewrite <- Hchars, Hc. cbn. exists [].
      rewrite wrapped_written, app_nil_r. split; [done|cbn; lia].
Qed.

Lemma at_most_command uuid args text largs :
  writes_at_most 1
    (buffer ← createBuffer uuid args; write uuid buffer;; Logger info text largs).
Proof.
  apply (at_most_bind _ _ 0 1).
  - apply (at_most_bind _ _ 0 0); [apply at_most_preIncrement|].
    intros step. apply at_most_ret.
  - intros buf. apply (at_most_bind _ _ 1 0); [apply at_most_write|].
    intros _. by apply at_most_update.
Qed.

Ltac count_try := apply (at_most_bind _ _ 0 1); [apply at_most_try | intros ?].

Lemma at_most_writeFlightParams fp : writes_at_most 1 (writeFlightParams fp).
Proof.
  unfold writeFlightParams.
  apply (at_most_bind _ _ 0 1); [by apply at_most_update | intros _].
  count_try.
  apply (at_most_bind _ _ 0 1); [apply at_most_preIncrement | intros step].
  do 11 count_try.
  apply (at_most_bind _ _ 1 0); [apply at_most_write | intros _].
  by apply at_most_update.
Qed.

Lemma at_most_writeLimit cls method event text v :
  writes_at_most 1 (writeLimit cls method event text v).
Proof.
  unfold writeLimit. count_try.
  apply (at_most_bind _ _ 0 1); [apply at_most_preIncrement | intros step].
  do 7 count_try.
  apply (at_most_bind _ _ 1 0); [apply at_most_write | intros _].
  apply (at_most_bind _ _ 0 0); [by apply at_most_update | intros _].
  by apply at_most_update.
Qed.

Lemma at_most_call (c : Command) : writes_at_most 1 (call c).
Proof.
  destruct c; cbn [call].
  - apply at_most_command.
  - apply at_most_command.
  - apply at_most_command.
  - apply at_most_command.
  - apply at_most_command.
  - unfold writeAnimation. case_match; [|apply at_most_command].
    intros s. exists []. rewrite app_nil_r. split; [done|cbn; lia].
  - apply at_most_writeFlightParams.
  - apply at_most_writeLimit.
  - apply at_most_writeLimit.
  - apply at_most_writeLimit.
  - apply at_most_writeLimit.
Qed.

(** X3.  Whatever the state, a call of the pilot hands at most one frame
    to a characteristic, returned or thrown; the frame goes to a
    characteristic whose uuid has the key of the call in it, all its entries
    are bytes, and it is 6 bytes long for a plain command, 10 for an
    animation and 19 for flight parameters and limits. *)
Theorem call_writes_one_wellformed_frame (c : Command) (s : Adapter) :
  ∃ ws, written (exec (call c) s) = written s ++ ws ∧
        (length ws ≤ 1)%nat ∧
        Forall (λ w, occurs_in (channel_of c) (w_uuid w) ∧
                     length (w_buffer w) = frame_length c ∧
                     Forall is_byte (w_buffer w)) ws.
Proof.
  destruct (at_most_call c s) as (ws & Hw & Hn).
  destruct (ensures_call c s) as [(_ & _ & ws' & Hw' & Hok) _].
  unfold exec. rewrite Hw in Hw'. apply app_inv_head in Hw' as <-.
  exists ws. split; [done|]. split; [done|].
  eapply Forall_impl; [exact Hok|]. by intros w (? & ? & ?).
Qed.

(** ** A linked adapter keeps its counters in the byte *)

Lemma plain_counters (c : Command) : plain c → counters_of c = [channel_of c].
Proof. by destruct c. Qed.

Lemma plain_sends (c : Command) :
  plain c → sends_on (channel_of c) c ∨ ∃ a, c = Animation a ∧ animations_get a = VUndefined.
Proof.
  destruct c; cbn; try tauto.
  intros _. destruct (decide (animations_get animation = VUndefined)); eauto.
Qed.

Lemma channel_of_key (c : Command) :
  channel_of c ∈ [FLIGHT_PARAMS_KEY; COMMAND_KEY; EMERGENCY_KEY].
Proof. destruct c; cbn; in_keys. Qed.

Lemma plain_call_keeps_counters (c : Command) (s : Adapter) :
  plain c → fully_linked s → counters_in_byte s →
  ∃ s', call c s = (Ok tt, s') ∧ fully_linked s' ∧ counters_in_byte s'.
Proof.
  intros Hp Hlinked Hcount.
  destruct (plain_sends c Hp) as [Hsend | (a & -> & Ha)].
  - destruct (Hcount _ (channel_of_key c)) as (m & Hm & Hrange).
    destruct (Hlinked _ (channel_of_key c)) as [ch Hch].
    destruct (call_sent _ c s m ch Hsend Hm Hrange Hch)
      as (s' & Hcall & Hchars & Hstep & _).
    exists s'. split; [done|]. split.
    + intros uuid Hu. rewrite Hchars. by apply Hlinked.
    + intros uuid Hu. destruct (decide (uuid = channel_of c)) as [->|Hne].
      * eexists. split; [exact Hstep|]. apply Z.mod_pos_bound. lia.
      * destruct (Hcount uuid Hu) as (m' & Hm' & Hr'). exists m'. split; [|done].
        rewrite <- Hm'. replace s' with (exec (call c) s) by (by rewrite (exec_eq _ _ _ _ Hcall)).
        destruct (ensures_call c s) as [(_ & Hcounters & _) _]. apply Hcounters.
        rewrite (plain_counters c Hp). by intros ->%list_elem_of_singleton.
  - exists s. split; [by apply writeAnimation_unknown|done].
Qed.

(** X4.  On an adapter that has a characteristic for each of the three
    keys and whose three counters are within [0, 254], any sequence of calls
    other than limit setters (flight parameters within int16) returns, and
    leaves the adapter with the same property: the counters never leave the
    byte. *)
Theorem linked_counters_stay_in_byte (cs : list Command) (s : Adapter) :
  Forall plain cs → fully_linked s → counters_in_byte s →
  ∃ s', calls cs s = (Ok tt, s') ∧ fully_linked s' ∧ counters_in_byte s'.
Proof.
  revert s. induction cs as [|c cs IH]; intros s Hall Hlinked Hcount.
  - by exists s.
  - apply Forall_cons in Hall as [Hc Hall].
    destruct (plain_call_keeps_counters c s Hc Hlinked Hcount)
      as (s1 & Hcall & Hlinked1 & Hcount1).
    destruct (IH s1 Hall Hlinked1 Hcount1) as (s' & Hcalls & Hl & Hk).
    exists s'. split; [|done]. cbn [calls]. by rewrite (bind_ok _ _ _ _ _ Hcall).
Qed.

Lemma linked_is_fully_linked : fully_linked linked ∧ counters_in_byte linked.
Proof.
  split; intros uuid Hu;
    repeat (apply elem_of_cons in Hu as [->|Hu]); try (by apply elem_of_nil in Hu).
  all: try (vm_compute; eauto; fail).
  all: eexists; (split; [vm_compute; reflexivity | lia]).
Qed.

Lemma linked_counters_stay_in_byte_witness :
  ∃ s', calls [Takeoff; SetFlightParams (mkFlightParams 10 (-5) 0 20);
               Animation "flipLeft"; Emergency; Land] linked = (Ok tt, s') ∧
        fully_linked s' ∧ counters_in_byte s'.
Proof.
  apply linked_counters_stay_in_byte.
  - repeat constructor; unfold int16; simpl; lia.
  - apply linked_is_fully_linked.
  - apply linked_is_fully_linked.
Defined.

(** ** A key without a characteristic *)

Lemma write_no_characteristic uuid buf s :
  characteristics s ≠ [] → find_characteristic uuid (characteristics s) = None →
  write uuid buf s = (Throw "TypeError", wrapped uuid s).
Proof.
  intros Hne Hc. unfold write. mstep.
  rewrite bool_decide_eq_false_2 by done.
  rewrite resetStep_eq. unfold getCharacteristic. mstep.
  rewrite wrapped_characteristics, bool_decide_eq_false_2 by done.
  by rewrite Hc.
Qed.

(** X5.  When the peripheral exposes characteristics but none for the
    emergency key, [writeEmergency] throws a TypeError: the emergency
    counter has been incremented (and reset if it reached 255), nothing is
    written, no warning is logged and the "called" line never appears. *)
Theorem emergency_without_characteristic (s : Adapter) (m : Z) :
  characteristics s ≠ [] →
  find_characteristic EMERGENCY_KEY (characteristics s) = None →
  steps s !! EMERGENCY_KEY = Some m →
  ∃ s', writeEmergency s = (Throw "TypeError", s') ∧
        steps s' !! EMERGENCY_KEY = Some (if 255 <=? m + 1 then 0 else m + 1) ∧
        written s' = written s ∧ logged s' = logged s ∧ emitted s' = emitted s.
Proof.
  intros Hne Hc Hm. eexists. split.
  - unfold writeEmergency, createBuffer.
    unfold mbind at 1 2 3. unfold M_bind. rewrite (preIncrement_eq _ _ _ Hm).
    unfold mret at 1. unfold M_ret.
    rewrite (write_no_characteristic EMERGENCY_KEY _
               (set_steps (<[EMERGENCY_KEY := m + 1]> (steps s)) s) Hne Hc).
    reflexivity.
  - unfold wrapped. cbn. rewrite lookup_insert_eq.
    destruct (255 <=? m + 1); cbn; by rewrite lookup_insert_eq.
Qed.

Lemma emergency_without_characteristic_witness :
  ∃ s', writeEmergency partly_linked = (Throw "TypeError", s') ∧
        steps s' !! EMERGENCY_KEY = Some (if 255 <=? 0 + 1 then 0 else 0 + 1) ∧
        written s' = written partly_linked ∧
        logged s' = logged partly_linked ∧
        emitted s' = emitted partly_linked.
Proof.
  apply (emergency_without_characteristic _ 0).
  - vm_compute. discriminate.
  - vm_compute. reflexivity.
  - vm_compute. reflexivity.
Defined.

(** ** Values the int16 writes refuse *)

Lemma writeInt16LE_refuses (buf : Buffer) (v : Z) (off : nat) :
  ¬ int16 v → writeInt16LE buf v off = None.
Proof.
  intros Hv. unfold writeInt16LE, int16 in *.
  destruct (Z.leb_spec (-32768) v), (Z.leb_spec v 32767); cbn; try done.
  exfalso. apply Hv. lia.
Qed.

#[local] Instance int16_dec (v : Z) : Decision (int16 v).
Proof. unfold int16. apply _. Defined.

Ltac w16_throw :=
  apply bind_throw; rewrite writeInt16LE_refuses by done; reflexivity.

(** X6.  Flight parameters are not clamped: when one of roll, pitch, yaw
    and altitude does not fit an int16, [writeFlightParams] throws; by then
    the parameters have been stored in the adapter and the flight-parameter
    counter has been incremented, but no frame is written and no
    flightParamChange event is emitted. *)
Theorem writeFlightParams_out_of_range (fp : FlightParams) (s : Adapter) (m : Z) :
  steps s !! FLIGHT_PARAMS_KEY = Some m → 0 ≤ m < 32767 → ¬ int16_params fp →
  ∃ s', writeFlightParams fp s = (Throw "RangeError", s') ∧
        flightParams s' = fp ∧
        steps s' !! FLIGHT_PARAMS_KEY = Some (m + 1) ∧
        written s' = written s ∧ emitted s' = emitted s.
Proof.
  intros Hs Hm Hfp. eexists. split.
  - unfold writeFlightParams.
    rewrite bind_update. w16.
    rewrite (bind_ok _ _ _ _ _
               (preIncrement_eq FLIGHT_PARAMS_KEY (set_flightParams fp s) m Hs)).
    do 6 w16.
    destruct (decide (int16 (roll fp))) as [[??]|]; [w16|w16_throw].
    destruct (decide (int16 (pitch fp))) as [[??]|]; [w16|w16_throw].
    destruct (decide (int16 (yaw fp))) as [[??]|]; [w16|w16_throw].
    destruct (decide (int16 (altitude fp))) as [[??]|]; [|w16_throw].
    exfalso. apply Hfp. by repeat split.
  - cbn. by rewrite lookup_insert_eq.
Qed.

Lemma writeFlightParams_out_of_range_witness :
  ∃ s', writeFlightParams (mkFlightParams 0 40000 0 0) linked = (Throw "RangeError", s') ∧
        flightParams s' = mkFlightParams 0 40000 0 0 ∧
        steps s' !! FLIGHT_PARAMS_KEY = Some (0 + 1) ∧
        written s' = written linked ∧ emitted s' = emitted linked.
Proof.
  apply writeFlightParams_out_of_range.
  - vm_compute. reflexivity.
  - lia.
  - unfold int16_params, int16. simpl. lia.
Defined.

(** ** Limit setters never reset the counter they increment *)

Lemma writeLimit_counts (cls method : Z) (event text : string) (v : Z)
    (s : Adapter) (m : Z) (c : string) :
  int16 cls → int16 method →
  steps s !! FLIGHT_PARAMS_KEY = Some m → 0 ≤ m →
  find_characteristic COMMAND_KEY (characteristics s) = Some c →
  characteristics (exec (writeLimit cls method event text v) s) = characteristics s ∧
  steps (exec (writeLimit cls method event text v) s) !! FLIGHT_PARAMS_KEY = Some (m + 1) ∧
  ((writeLimit cls method event text v s).1 = Ok tt ↔ m < 32767).
Proof.
  intros Hcl Hme Hs Hm Hc. destruct (decide (m < 32767)) as [Hlt|Hge].
  - unfold exec. rewrite (writeLimit_linked cls method event text v s m c) by (done || lia).
    cbn. rewrite wrapped_characteristics, wrapped_other by done. cbn.
    by rewrite lookup_insert_eq.
  - unfold exec. rewrite (writeLimit_throws cls method event text v s m) by (done || lia).
    cbn. rewrite lookup_insert_eq. repeat split; try done; lia.
Qed.

Lemma repeated_limit_counts (v : Z) (s : Adapter) (m : Z) (c : string) (n : nat) :
  steps s !! FLIGHT_PARAMS_KEY = Some m → 0 ≤ m →
  find_characteristic COMMAND_KEY (characteristics s) = Some c →
  characteristics (repeatedly n (writeMaxAltitude v) s) = characteristics s ∧
  steps (repeatedly n (writeMaxAltitude v) s) !! FLIGHT_PARAMS_KEY = Some (m + Z.of_nat n).
Proof.
  intros Hs Hm Hc. induction n as [|n [IHc IHs]].
  - cbn. by rewrite Z.add_0_r.
  - cbn [repeatedly]. set (s1 := repeatedly n (writeMaxAltitude v) s) in *.
    rewrite <- IHc in Hc.
    destruct (writeLimit_counts MD_CLASSES.PILOTING_SETTINGS MD_METHODS.MAX_ALTITUDE
                "maxAltitudeChange" "Setting max altitude to ${altitude}m" v
                s1 (m + Z.of_nat n) c) as (H1 & H2 & _); try done; try lia.
    unfold writeMaxAltitude. rewrite H1, H2. split; [done|]. f_equal. lia.
Qed.

(** X7.  On a linked adapter the limit setter counts without bound: after
    [n] calls of [writeMaxAltitude] the flight-parameter counter, which only
    a flight-parameter send resets, has grown by [n]; and the next call
    returns exactly when the counter is still below 32767, throwing a
    RangeError from then on. *)
Theorem limit_writes_count_until_they_throw
    (v : Z) (s : Adapter) (m : Z) (c : string) (n : nat) :
  steps s !! FLIGHT_PARAMS_KEY = Some m → 0 ≤ m →
  find_characteristic COMMAND_KEY (characteristics s) = Some c →
  steps (repeatedly n (writeMaxAltitude v) s) !! FLIGHT_PARAMS_KEY
    = Some (m + Z.of_nat n) ∧
  ((writeMaxAltitude v (repeatedly n (writeMaxAltitude v) s)).1 = Ok tt
   ↔ m + Z.of_nat n < 32767).
Proof.
  intros Hs Hm Hc.
  destruct (repeated_limit_counts v s m c n Hs Hm Hc) as [Hchars Hsteps].
  split; [done|]. rewrite <- Hchars in Hc.
  by destruct (writeLimit_counts MD_CLASSES.PILOTING_SETTINGS MD_METHODS.MAX_ALTITUDE
                 "maxAltitudeChange" "Setting max altitude to ${altitude}m" v
                 _ (m + Z.of_nat n) c ltac:(done) ltac:(done) Hsteps ltac:(lia) Hc)
    as (_ & _ & ?).
Qed.

Lemma limit_writes_count_until_they_throw_witness :
  steps (repeatedly 3 (writeMaxAltitude 2) linked) !! FLIGHT_PARAMS_KEY
    = Some (0 + Z.of_nat 3) ∧
  ((writeMaxAltitude 2 (repeatedly 3 (writeMaxAltitude 2) linked)).1 = Ok tt
   ↔ 0 + Z.of_nat 3 < 32767).
Proof.
  apply (limit_writes_count_until_they_throw 2 linked 0 "9a66fa0b0800919111e4012d1540cb8e").
  - vm_compute. reflexivity.
  - lia.
  - vm_compute. reflexivity.
Defined.

(** ** All the decoder can do *)

Lemma decoded_id s :
  decoded s (batteryLevel s) (flightStatus s) (alertStatus s) [] [] = s.
Proof. destruct s. unfold decoded. cbn. by rewrite !app_nil_r. Qed.

Lemma add_logged_decoded l s bl fs al evs lines :
  add_logged l (decoded s bl fs al evs lines) = decoded s bl fs al evs (lines ++ [l]).
Proof. unfold add_logged, decoded. cbn. by rewrite app_assoc. Qed.

Lemma add_emitted_decoded e s bl fs al evs lines :
  add_emitted e (decoded s bl fs al evs lines) = decoded s bl fs al (evs ++ [e]) lines.
Proof. unfold add_emitted, decoded. cbn. by rewrite app_assoc. Qed.

Lemma set_batteryLevel_decoded v s bl fs al evs lines :
  set_batteryLevel v (decoded s bl fs al evs lines) = decoded s v fs al evs lines.
Proof. reflexivity. Qed.

Lemma set_flightStatus_decoded v s bl fs al evs lines :
  set_flightStatus v (decoded s bl fs al evs lines) = decoded s bl v al evs lines.
Proof. reflexivity. Qed.

Lemma set_alertStatus_decoded v s bl fs al evs lines :
  set_alertStatus v (decoded s bl fs al evs lines) = decoded s bl fs v evs lines.
Proof. reflexivity. Qed.

Ltac fold_decoded s :=
  let s0 := fresh "s0" in
  let Hs := fresh in
  set (s0 := s) at 1;
  assert (s0 = decoded s (batteryLevel s) (flightStatus s) (alertStatus s) [] [])
    as Hs by (symmetry; apply decoded_id);
  clearbody s0; subst s0;
  repeat first
    [ rewrite add_logged_decoded | rewrite add_emitted_decoded
    | rewrite set_batteryLevel_decoded | rewrite set_flightStatus_decoded
    | rewrite set_alertStatus_decoded ].

Ltac split_reads :=
  repeat match goal with
    | |- context [readFloatLE ?b ?i] => destruct (readFloatLE b i) eqn:?; cbn
    | |- context [readUInt16LE ?b ?i] => destruct (readUInt16LE b i) eqn:?; cbn
    | |- context [@lookup nat Z _ _ ?i ?l] => destruct (l !! i) eqn:?; cbn
    end.

Ltac decode_leaf s :=
  unfold missing, Logger, emit, update, mret, M_ret, throw; cbn;
  fold_decoded s;
  do 6 eexists; split; [reflexivity|]; cbn;
  repeat split; try done; try lia;
  try (intros _; eexists; split; [reflexivity|];
       apply (bool_decide_unpack _); vm_compute; exact I).

#[local] Opaque readFloatLE readUInt16LE.

Lemma decodePacket_effect (data : Buffer) (s : Adapter) :
  ∃ r bl fs al evs lines,
    decodePacket data s = (r, decoded s bl fs al evs lines) ∧
    (length evs ≤ 1)%nat ∧
    (bl ≠ batteryLevel s → triple data = Some (0, 5, 1)) ∧
    (fs ≠ flightStatus s → triple data = Some (2, 3, 1)) ∧
    (al ≠ alertStatus s → triple data = Some (2, 3, 2)) ∧
    (evs ≠ [] → ∃ t, triple data = Some t ∧ t ∈ emitting) ∧
    (r ≠ Ok tt →
       evs = [] ∧ bl = batteryLevel s ∧ fs = flightStatus s ∧ al = alertStatus s).
Proof.
  destruct data as [|dataType [|step [|project [|msgClass [|commandKey rest]]]]];
    try (unfold decodePacket; mstep; cbn; decode_leaf s; fail).
  unfold decodePacket, limitChanged, readUInt8. mstep. cbn.
  destruct ((dataType =? 1) || (dataType =? 2) || (dataType =? 3) || (dataType =? 4));
    cbn; split_eqb; split_reads; decode_leaf s.
Qed.

#[local] Transparent readFloatLE readUInt16LE.

(** X8.  Whatever bytes arrive, the decoder leaves the outbound side of
    the adapter alone: the step counters, the list of writes, the cached
    flight parameters, the characteristics, the connection flag, the
    peripheral and the filter are what they were, returned or thrown. *)
Theorem decodePacket_keeps_outbound (data : Buffer) (s : Adapter) :
  let s' := exec (decodePacket data) s in
  steps s' = steps s ∧ written s' = written s ∧ flightParams s' = flightParams s ∧
  characteristics s' = characteristics s ∧ connected s' = connected s ∧
  peripheral s' = peripheral s ∧ droneFilter s' = droneFilter s.
Proof.
  destruct (decodePacket_effect data s) as (r & bl & fs & al & evs & lines & H & _).
  cbn zeta. unfold exec. rewrite H. by cbn.
Qed.

(** X9.  A frame makes the decoder emit one event at most, and only the
    five triples battery (0,5,1), position (2,18,0), speed (2,18,1), flying
    state (2,3,1) and alert state (2,3,2) emit one; earlier events and
    logger lines are never removed or reordered. *)
Theorem decodePacket_emits_at_most_one (data : Buffer) (s : Adapter) :
  ∃ evs lines,
    emitted (exec (decodePacket data) s) = emitted s ++ evs ∧
    logged (exec (decodePacket data) s) = logged s ++ lines ∧
    (length evs ≤ 1)%nat ∧
    (evs ≠ [] → ∃ t, triple data = Some t ∧ t ∈ emitting).
Proof.
  destruct (decodePacket_effect data s)
    as (r & bl & fs & al & evs & lines & H & Hlen & _ & _ & _ & Hev & _).
  exists evs, lines. unfold exec. rewrite H. by cbn.
Qed.

(** X10.  The three status fields change only through their own frame:
    if decoding changes [batteryLevel] the frame's triple is (0,5,1), if it
    changes [flightStatus] the triple is (2,3,1), if it changes
    [alertStatus] the triple is (2,3,2). *)
Theorem status_changes_only_by_its_frame (data : Buffer) (s : Adapter) :
  let s' := exec (decodePacket data) s in
  (batteryLevel s' ≠ batteryLevel s → triple data = Some (0, 5, 1)) ∧
  (flightStatus s' ≠ flightStatus s → triple data = Some (2, 3, 1)) ∧
  (alertStatus s' ≠ alertStatus s → triple data = Some (2, 3, 2)).
Proof.
  destruct (decodePacket_effect data s)
    as (r & bl & fs & al & evs & lines & H & _ & Hb & Hf & Ha & _).
  cbn zeta. unfold exec. rewrite H. by cbn.
Qed.

Lemma decoded_only_lines s lines :
  decoded s (batteryLevel s) (flightStatus s) (alertStatus s) [] lines
  = with_lines lines s.
Proof. unfold decoded, with_lines. by rewrite app_nil_r. Qed.

(** X11.  A frame on which the decoder throws (too short for its header
    or for the fields of its payload) has no effect but logger lines: no
    event is emitted and no field of the adapter changes. *)
Theorem decodePacket_throw_only_logs (data : Buffer) (s : Adapter) (e : string) :
  (decodePacket data s).1 = Throw e →
  ∃ lines, exec (decodePacket data) s = with_lines lines s.
Proof.
  destruct (decodePacket_effect data s)
    as (r & bl & fs & al & evs & lines & H & _ & _ & _ & _ & _ & Hthrow).
  unfold exec. rewrite H. cbn. intros ->.
  destruct Hthrow as (-> & -> & -> & ->); [done|].
  exists lines. apply decoded_only_lines.
Qed.

Lemma decodePacket_throw_only_logs_witness :
  ∃ lines, exec (decodePacket [2; 9; 2; 18; 0; 0; 1; 2; 3]) linked
           = with_lines lines linked.
Proof. by apply (decodePacket_throw_only_logs _ linked "RangeError"). Defined.

(** X12.  A frame of fewer than five bytes makes the decoder throw before
    it does anything: the adapter is exactly what it was, logger lines
    included. *)
Theorem decodePacket_short_frame (data : Buffer) (s : Adapter) :
  (length data < 5)%nat → decodePacket data s = (Throw "RangeError", s).
Proof.
  intros Hlen.
  destruct data as [|dataType [|step [|project [|msgClass [|commandKey rest]]]]];
    try done.
  cbn in Hlen. lia.
Qed.

Lemma decodePacket_short_frame_witness :
  decodePacket [2; 1; 0; 5] linked = (Throw "RangeError", linked).
Proof. apply decodePacket_short_frame. simpl. lia. Defined.

Lemma readFloatLE_cons (b : Z) (buf : Buffer) (off : nat) :
  readFloatLE (b :: buf) (S off) = readFloatLE buf off.
Proof. reflexivity. Qed.

Lemma readUInt16LE_cons (b : Z) (buf : Buffer) (off : nat) :
  readUInt16LE (b :: buf) (S off) = readUInt16LE buf off.
Proof. reflexivity. Qed.

#[local] Opaque readFloatLE readUInt16LE.

Lemma decodePacket_as_data (dataType step : Z) (body : Buffer) (s : Adapter) :
  (decodePacket (dataType :: step :: body) s).1 = (decodePacket (2 :: 0 :: body) s).1 ∧
  same_but_log (exec (decodePacket (dataType :: step :: body)) s)
               (exec (decodePacket (2 :: 0 :: body)) s).
Proof.
  destruct body as [|project [|msgClass [|commandKey rest]]];
    try (split; [reflexivity | by repeat split]).
  unfold exec, decodePacket, limitChanged, readUInt8. mstep. cbn.
  rewrite ?readFloatLE_cons, ?readUInt16LE_cons.
  destruct ((dataType =? 1) || (dataType =? 2) || (dataType =? 3) || (dataType =? 4));
    cbn; split_eqb; split_reads;
    (split; [reflexivity | repeat split; reflexivity]).
Qed.

#[local] Transparent readFloatLE readUInt16LE.

(** X13.  The data type and the step of an inbound frame decide nothing
    but logger lines: two frames that differ only in their first two bytes
    are decoded to the same result, the same status fields and the same
    events. *)
Theorem decodePacket_ignores_type_and_step
    (dataType step dataType' step' : Z) (body : Buffer) (s : Adapter) :
  (decodePacket (dataType :: step :: body) s).1
  = (decodePacket (dataType' :: step' :: body) s).1 ∧
  same_but_log (exec (decodePacket (dataType :: step :: body)) s)
               (exec (decodePacket (dataType' :: step' :: body)) s).
Proof.
  destruct (decodePacket_as_data dataType step body s) as [Hr Hs].
  destruct (decodePacket_as_data dataType' step' body s) as [Hr' Hs'].
  split; [congruence|].
  unfold same_but_log in *.
  destruct Hs as (?&?&?&?&?&?&?&?&?&?&?), Hs' as (?&?&?&?&?&?&?&?&?&?&?).
  repeat split; congruence.
Qed.

Lemma array_get_out_of_range (array : list string) (i : Z) :
  i < 0 ∨ Z.of_nat (length array) ≤ i → array_get array i = VUndefined.
Proof.
  intros Hi. unfold array_get. destruct (Z.ltb_spec i 0); [done|].
  rewrite lookup_ge_None_2; [done|lia].
Qed.

Lemma array_get_in_range (array : list string) (i : Z) :
  0 ≤ i < Z.of_nat (length array) →
  ∃ name, array !! Z.to_nat i = Some name ∧ array_get array i = VStr name.
Proof.
  intros Hi. unfold array_get. destruct (Z.ltb_spec i 0); [lia|].
  destruct (lookup_lt_is_Some_2 array (Z.to_nat i) ltac:(lia)) as [name Hn].
  exists name. by rewrite Hn.
Qed.

(** X14.  Decoding an AlertStateChanged frame (project 2, class 3,
    command 2) returns, stores the name found at the index of offset 6 in
    [alertStatus] and emits one alertStateChange event with it, leaving
    [batteryLevel] and [flightStatus] alone.  An index from 0 to 4 gives one
    of the five names; any other index gives [undefined]; in no case is the
    status the number 0 the constructor had put there. *)
Theorem alert_frame_by_index
    (s : Adapter) (dataType step x5 i : Z) (rest : Buffer) :
  ∃ s',
    decodePacket (dataType :: step :: 2 :: 3 :: 2 :: x5 :: i :: rest) s = (Ok tt, s') ∧
    alertStatus s' = array_get ALERT_STATE_CHANGED i ∧
    emitted s' = emitted s ++
      [mkEvent "alertStateChange" (PValue (array_get ALERT_STATE_CHANGED i))] ∧
    batteryLevel s' = batteryLevel s ∧ flightStatus s' = flightStatus s ∧
    (0 ≤ i < 5 → ∃ name, ALERT_STATE_CHANGED !! Z.to_nat i = Some name ∧
                         alertStatus s' = VStr name) ∧
    (i < 0 ∨ 5 ≤ i → alertStatus s' = VUndefined) ∧
    alertStatus s' ≠ VNum 0.
Proof.
  assert (array_get ALERT_STATE_CHANGED i ≠ VNum 0) as Hne.
  { unfold array_get. by repeat case_match. }
  unfold decodePacket. mstep. cbn.
  destruct ((dataType =? 1) || (dataType =? 2) || (dataType =? 3) || (dataType =? 4));
    cbn; (eexists; split; [reflexivity|]); cbn;
    (repeat split; try done;
       [ intros Hi; by apply array_get_in_range
       | intros Hi; by apply array_get_out_of_range ]).
Qed.


(** ** How long a frame a read needs *)

Lemma readUInt16LE_is_Some (buf : Buffer) (off : nat) :
  (off + 2 ≤ length buf)%nat → is_Some (readUInt16LE buf off).
Proof.
  intros H. unfold readUInt16LE, Buffer in *.
  destruct (lookup_lt_is_Some_2 buf off ltac:(lia)) as [lo ->].
  destruct (lookup_lt_is_Some_2 buf (S off) ltac:(lia)) as [hi ->].
  by eexists.
Qed.

Lemma readUInt16LE_None (buf : Buffer) (off : nat) :
  (length buf < off + 2)%nat → readUInt16LE buf off = None.
Proof.
  intros H. unfold readUInt16LE, Buffer in *.
  destruct (buf !! off) as [lo|]; [|done]. cbn.
  rewrite (lookup_ge_None_2 buf (S off)); [done|lia].
Qed.

Lemma readFloatLE_is_Some (buf : Buffer) (off : nat) :
  (off + 4 ≤ length buf)%nat → is_Some (readFloatLE buf off).
Proof.
  intros H. unfold readFloatLE, Buffer in *.
  destruct (lookup_lt_is_Some_2 buf off ltac:(lia)) as [b0 ->].
  destruct (lookup_lt_is_Some_2 buf (S off) ltac:(lia)) as [b1 ->].
  destruct (lookup_lt_is_Some_2 buf (S (S off)) ltac:(lia)) as [b2 ->].
  destruct (lookup_lt_is_Some_2 buf (S (S (S off))) ltac:(lia)) as [b3 ->].
  by eexists.
Qed.

(** X15.  A navigation frame (project 2, class 18, command 0 for the
    position, 1 for the speed) is decoded only when it has 20 bytes or more:
    then the decoder returns and emits exactly one event, named after the
    command; with fewer bytes it throws and emits nothing. *)
Theorem navigation_frame_needs_20_bytes
    (s : Adapter) (dataType step k : Z) (rest : Buffer) :
  k = 0 ∨ k = 1 →
  let frame := dataType :: step :: 2 :: 18 :: k :: rest in
  ((20 ≤ length frame)%nat →
     (decodePacket frame s).1 = Ok tt ∧
     ∃ arg, emitted (exec (decodePacket frame) s) = emitted s ++
              [mkEvent (if k =? 0 then "dronePositionChange" else "droneSpeedChange") arg]) ∧
  ((length frame < 20)%nat →
     (decodePacket frame s).1 = Throw "RangeError" ∧
     emitted (exec (decodePacket frame) s) = emitted s).
Proof.
  intros Hk. cbn zeta. split; intros Hlen.
  - destruct (readFloatLE_is_Some (dataType :: step :: 2 :: 18 :: k :: rest) 6
                ltac:(lia)) as [f6 H6].
    destruct (readFloatLE_is_Some (dataType :: step :: 2 :: 18 :: k :: rest) 10
                ltac:(lia)) as [f10 H10].
    destruct (readFloatLE_is_Some (dataType :: step :: 2 :: 18 :: k :: rest) 14
                ltac:(lia)) as [f14 H14].
    destruct (readUInt16LE_is_Some (dataType :: step :: 2 :: 18 :: k :: rest) 14
                ltac:(lia)) as [u14 U14].
    destruct (readUInt16LE_is_Some (dataType :: step :: 2 :: 18 :: k :: rest) 16
                ltac:(lia)) as [u16 U16].
    destruct (readUInt16LE_is_Some (dataType :: step :: 2 :: 18 :: k :: rest) 18
                ltac:(lia)) as [u18 U18].
    unfold exec, decodePacket, readUInt8. mstep.
    destruct Hk as [-> | ->]; cbn -[readFloatLE readUInt16LE];
      destruct ((dataType =? 1) || (dataType =? 2) || (dataType =? 3) || (dataType =? 4));
      cbn -[readFloatLE readUInt16LE];
      rewrite ?H6, ?H10, ?H14, ?U14, ?U16, ?U18; cbn;
      (split; [reflexivity|eexists; reflexivity]).
  - pose proof (readUInt16LE_None (dataType :: step :: 2 :: 18 :: k :: rest) 18
                  ltac:(lia)) as U18.
    unfold exec, decodePacket, readUInt8. mstep.
    destruct Hk as [-> | ->]; cbn -[readFloatLE readUInt16LE];
      destruct ((dataType =? 1) || (dataType =? 2) || (dataType =? 3) || (dataType =? 4));
      cbn -[readFloatLE readUInt16LE]; rewrite U18;
      repeat match goal with
        | |- context [readFloatLE ?b ?i] => destruct (readFloatLE b i); cbn -[readFloatLE readUInt16LE]
        | |- context [readUInt16LE ?b ?i] => destruct (readUInt16LE b i); cbn -[readFloatLE readUInt16LE]
        end; by split.
Qed.

Lemma navigation_frame_needs_20_bytes_witness :
  let frame := 2 :: 9 :: 2 :: 18 :: 0 :: [0; 1; 2; 3; 4; 5; 6; 7; 8; 9; 10; 11; 12; 13] in
  ((20 ≤ length frame)%nat →
     (decodePacket frame linked).1 = Ok tt ∧
     ∃ arg, emitted (exec (decodePacket frame) linked) = emitted linked ++
              [mkEvent (if 0 =? 0 then "dronePositionChange" else "droneSpeedChange") arg]) ∧
  ((length frame < 20)%nat →
     (decodePacket frame linked).1 = Throw "RangeError" ∧
     emitted (exec (decodePacket frame) linked) = emitted linked).
Proof. apply (navigation_frame_needs_20_bytes linked 2 9 0). by left. Defined.

(** ** Finding a characteristic *)

(** X16.  On an adapter that has characteristics, [getCharacteristic]
    with one of the keys the adapter uses changes nothing and returns the
    first characteristic, in the order the peripheral gave them, whose uuid
    contains the key; it returns nothing only when no uuid contains it. *)
Theorem getCharacteristic_first_match (uuid : string) (s : Adapter) :
  uuid ∈ FLIGHT_PARAMS_KEY :: COMMAND_KEY :: EMERGENCY_KEY :: CHARACTERISTIC_MAP →
  characteristics s ≠ [] →
  ∃ found, getCharacteristic uuid s = (Ok found, s) ∧
    match found with
    | Some c => ∃ before after,
        characteristics s = before ++ c :: after ∧ occurs_in uuid c ∧
        Forall (λ x, ¬ occurs_in uuid x) before
    | None => Forall (λ x, ¬ occurs_in uuid x) (characteristics s)
    end.
Proof.
  intros _ Hne. exists (find_characteristic uuid (characteristics s)). split.
  - unfold getCharacteristic. mstep. by rewrite bool_decide_eq_false_2.
  - pose proof (find_characteristic_spec uuid (characteristics s)) as H.
    by destruct (find_characteristic uuid (characteristics s)).
Qed.

Lemma getCharacteristic_first_match_witness :
  ∃ found, getCharacteristic COMMAND_KEY linked = (Ok found, linked) ∧
    match found with
    | Some c => ∃ before after,
        characteristics linked = before ++ c :: after ∧ occurs_in COMMAND_KEY c ∧
        Forall (λ x, ¬ occurs_in COMMAND_KEY x) before
    | None => Forall (λ x, ¬ occurs_in COMMAND_KEY x) (characteristics linked)
    end.
Proof.
  apply getCharacteristic_first_match.
  - apply (bool_decide_unpack _). vm_compute. exact I.
  - vm_compute. discriminate.
Defined.

(** ** The discovery callback in full *)

Lemma bind_this {B} (f : Adapter → M B) (s : Adapter) : (this ≫= f) s = f s s.
Proof. reflexivity. Qed.

Lemma on_characteristic_found (key : string) (s : Adapter) :
  is_Some (find_characteristic key (characteristics s)) →
  Discovery.on_characteristic key s = (Ok tt, s).
Proof.
  intros [c Hc]. pose proof (find_characteristic_nonempty _ _ _ Hc) as Hne.
  unfold Discovery.on_characteristic, getCharacteristic. mstep.
  rewrite bool_decide_eq_false_2 by done. by rewrite Hc.
Qed.

Lemma on_characteristic_missing (key : string) (s : Adapter) :
  find_characteristic key (characteristics s) = None →
  ∃ lines, Discovery.on_characteristic key s = (Throw "TypeError", with_lines lines s).
Proof.
  intros Hc. unfold Discovery.on_characteristic, getCharacteristic. mstep.
  case_bool_decide.
  - eexists [_]. cbn. reflexivity.
  - exists []. rewrite Hc. unfold with_lines. rewrite app_nil_r. by destruct s.
Qed.

Lemma forEach_found (keys : list string) (s : Adapter) :
  Forall (λ key, is_Some (find_characteristic key (characteristics s))) keys →
  Discovery.forEach keys Discovery.on_characteristic s = (Ok tt, s).
Proof.
  induction 1 as [|key keys Hkey _ IH]; [done|].
  cbn [Discovery.forEach]. by rewrite (bind_ok _ _ s tt s (on_characteristic_found _ _ Hkey)).
Qed.

Lemma forEach_missing (keys : list string) (key : string) (s : Adapter) :
  key ∈ keys → find_characteristic key (characteristics s) = None →
  ∃ lines, Discovery.forEach keys Discovery.on_characteristic s
           = (Throw "TypeError", with_lines lines s).
Proof.
  induction keys as [|key0 keys IH]; intros Hin Hc; [by apply elem_of_nil in Hin|].
  cbn [Discovery.forEach].
  destruct (find_characteristic key0 (characteristics s)) as [c0|] eqn:H0.
  - rewrite (bind_ok _ _ s tt s (on_characteristic_found _ _ ltac:(by eexists))).
    apply elem_of_cons in Hin as [->|Hin]; [congruence|]. by apply IH.
  - destruct (on_characteristic_missing key0 s H0) as [lines Hl].
    exists lines. by rewrite (bind_throw _ _ s _ _ Hl).
Qed.

(** X17.  When the characteristics handed over by the service discovery
    cover every key of [CHARACTERISTIC_MAP], the subscriptions and listener
    registrations of [setupPeripheral] all go through: the callback returns
    with the characteristics stored and the adapter connected, its counters,
    writes, events and status fields untouched. *)
Theorem setupPeripheral_with_every_characteristic
    (chars : list string) (s : Adapter) (p : Peripheral) :
  peripheral s = Some p →
  Forall (λ key, is_Some (find_characteristic key chars)) CHARACTERISTIC_MAP →
  Discovery.setupPeripheral chars s = setupPeripheral chars s ∧
  ∃ s', Discovery.setupPeripheral chars s = (Ok tt, s') ∧
        characteristics s' = chars ∧ connected s' = true ∧ peripheral s' = Some p ∧
        keeps_outbound s s' ∧ emitted s' = emitted s ∧
        batteryLevel s' = batteryLevel s ∧ flightStatus s' = flightStatus s.
Proof.
  intros Hp Hall.
  assert (setupPeripheral chars s
          = (Ok tt, add_logged
                      (mkLog info "Device connected ${this.peripheral.advertisement.localName}" [])
                      (set_link true chars (Some p) s))) as Hr.
  { unfold setupPeripheral. mstep. by rewrite Hp. }
  assert (Discovery.setupPeripheral chars s = setupPeripheral chars s) as Heq.
  { rewrite Hr. unfold Discovery.setupPeripheral.
    rewrite bind_this, Hp, bind_update. cbn beta. rewrite Hp.
    set (s1 := set_link (connected s) chars (Some p) s).
    rewrite (bind_ok _ _ s1 tt s1 (forEach_found _ s1 Hall)).
    assert (is_Some (find_characteristic RX_COMMAND_NO_ACK (characteristics s1))) as H1.
    { eapply (proj1 (Forall_forall _ _) Hall). apply (bool_decide_unpack _). vm_compute. exact I. }
    assert (is_Some (find_characteristic RX_COMMAND_WITH_ACK (characteristics s1))) as H2.
    { eapply (proj1 (Forall_forall _ _) Hall). apply (bool_decide_unpack _). vm_compute. exact I. }
    rewrite (bind_ok _ _ s1 tt s1 (on_characteristic_found _ _ H1)).
    rewrite (bind_ok _ _ s1 tt s1 (on_characteristic_found _ _ H2)).
    rewrite bind_update. cbn beta. reflexivity. }
  split; [done|]. rewrite Heq, Hr.
  eexists. split; [reflexivity|]. by cbn.
Qed.

Lemma setupPeripheral_with_every_characteristic_witness :
  let s := exec (onPeripheralDiscovery (λ _ _, false) (Some mambo)) (constructor "") in
  Discovery.setupPeripheral mambo_characteristics s = setupPeripheral mambo_characteristics s ∧
  ∃ s', Discovery.setupPeripheral mambo_characteristics s = (Ok tt, s') ∧
        characteristics s' = mambo_characteristics ∧ connected s' = true ∧
        peripheral s' = Some mambo ∧
        keeps_outbound s s' ∧ emitted s' = emitted s ∧
        batteryLevel s' = batteryLevel s ∧ flightStatus s' = flightStatus s.
Proof.
  apply setupPeripheral_with_every_characteristic.
  - reflexivity.
  - apply (bool_decide_unpack _). vm_compute. exact I.
Defined.

(** X18.  When one key of [CHARACTERISTIC_MAP] has no characteristic
    among those handed over, the callback of [setupPeripheral] throws a
    TypeError after it has stored the characteristics and before it sets
    the connection flag: the adapter keeps [connected] as it was while
    [write] now finds characteristics to write to. *)
Theorem setupPeripheral_missing_characteristic
    (chars : list string) (s : Adapter) (p : Peripheral) (key : string) :
  peripheral s = Some p →
  key ∈ CHARACTERISTIC_MAP → find_characteristic key chars = None →
  ∃ s', Discovery.setupPeripheral chars s = (Throw "TypeError", s') ∧
        characteristics s' = chars ∧ connected s' = connected s ∧
        peripheral s' = Some p ∧ keeps_outbound s s' ∧ emitted s' = emitted s.
Proof.
  intros Hp Hin Hc.
  unfold Discovery.setupPeripheral.
  rewrite bind_this, Hp, bind_update. cbn beta. rewrite Hp.
  set (s1 := set_link (connected s) chars (Some p) s).
  destruct (forEach_missing CHARACTERISTIC_MAP key s1 Hin Hc) as [lines Hl].
  rewrite (bind_throw _ _ s1 _ _ Hl).
  eexists. split; [reflexivity|]. by cbn.
Qed.

Lemma setupPeripheral_missing_characteristic_witness :
  let chars := ["9a66fa0a0800919111e4012d1540cb8e"; "9a66fa0b0800919111e4012d1540cb8e"] in
  let s := exec (onPeripheralDiscovery (λ _ _, false) (Some mambo)) (constructor "") in
  ∃ s', Discovery.setupPeripheral chars s = (Throw "TypeError", s') ∧
        characteristics s' = chars ∧ connected s' = connected s ∧
        peripheral s' = Some mambo ∧ keeps_outbound s s' ∧ emitted s' = emitted s.
Proof.
  apply (setupPeripheral_missing_characteristic _ _ mambo RX_COMMAND_NO_ACK).
  - reflexivity.
  - apply (bool_decide_unpack _). vm_compute. exact I.
  - vm_compute. reflexivity.
Defined.

(** The linked adapter of the examples is the one the callback written out
    in full reaches: its characteristics cover every key. *)
Lemma linked_through_discovery :
  (onPeripheralDiscovery (λ _ _, false) (Some mambo);;
   Discovery.setupPeripheral drone_characteristics) (constructor "")
  = (Ok tt, linked).
Proof. vm_compute. reflexivity. Qed.

(** ** What the filter accepts *)

Lemma indexOf_nonneg_occurs (s pat : string) :
  (0 <=? indexOf s pat) = true ↔ occurs_in pat s.
Proof.
  rewrite <- indexOf_occurs, Z.leb_le. unfold indexOf.
  destruct (indexOf_from_sound pat s 0 ltac:(lia)) as [H|[H _]]; lia.
Qed.

Lemma occurs_in_nonempty (pat s : string) : occurs_in pat s → pat ≠ "" → s ≠ "".
Proof.
  intros (pre & post & ->) Hpat E. destruct pre; [|discriminate].
  change ("" +:+ pat +:+ post) with (pat +:+ post) in E.
  by destruct pat.
Qed.

Lemma DRONE_PREFIXES_nonempty (prefix : string) : prefix ∈ DRONE_PREFIXES → prefix ≠ "".
Proof.
  intros Hin ->. unfold DRONE_PREFIXES in Hin.
  repeat (apply elem_of_cons in Hin as [Hin|Hin]; [discriminate Hin|]).
  by apply elem_of_nil in Hin.
Qed.

Lemma localName_match (name : option string) :
  truthy (js_and (value_of_name name)
            (VBool (existsb (λ prefix, 0 <=? indexOf (default "" name) prefix)
                      DRONE_PREFIXES))) = true
  ↔ ∃ n prefix, name = Some n ∧ prefix ∈ DRONE_PREFIXES ∧ occurs_in prefix n.
Proof.
  split.
  - destruct name as [n|]; [|done]. unfold js_and. cbn -[existsb indexOf].
    destruct (negb (String.eqb n "")) eqn:E; cbn -[existsb indexOf]; [|by rewrite E].
    intros (prefix & Hin & Hp)%existsb_exists.
    exists n, prefix. split; [done|]. split; [by apply list_elem_of_In|].
    by apply indexOf_nonneg_occurs.
  - intros (n & prefix & -> & Hin & Hocc). unfold js_and. cbn -[existsb indexOf].
    assert (String.eqb n "" = false) as ->.
    { apply String.eqb_neq. eapply occurs_in_nonempty; [done|].
      by apply DRONE_PREFIXES_nonempty. }
    cbn -[existsb indexOf]. apply existsb_exists. exists prefix. split; [by apply list_elem_of_In|].
    by apply indexOf_nonneg_occurs.
Qed.

Lemma manufacturer_match (md : option ManufacturerData) :
  truthy (js_and (value_of_manufacturer md)
            (VBool (match md with
                    | Some m => 0 <=? serials_indexOf m
                    | None => false
                    end))) = true
  ↔ ∃ serial, md = Some (MDString serial) ∧ serial ∈ MANUFACTURER_SERIALS.
Proof.
  split.
  - destruct md as [[bytes|serial]|]; [done| |done]. unfold js_and.
    cbn -[list_find MANUFACTURER_SERIALS].
    destruct (negb (String.eqb serial "")) eqn:E; cbn -[list_find MANUFACTURER_SERIALS];
      [|by rewrite E].
    destruct (list_find _ MANUFACTURER_SERIALS) as [[i x]|] eqn:Hf; [|done].
    intros _. apply list_find_Some in Hf as (Hi & -> & _).
    exists serial. split; [done|]. by eapply list_elem_of_lookup_2.
  - intros (serial & -> & Hin). unfold js_and. cbn -[list_find MANUFACTURER_SERIALS].
    assert (String.eqb serial "" = false) as ->.
    { apply String.eqb_neq. intros ->. unfold MANUFACTURER_SERIALS in Hin.
      repeat (apply elem_of_cons in Hin as [Hin|Hin]; [discriminate Hin|]).
      by apply elem_of_nil in Hin. }
    cbn -[list_find MANUFACTURER_SERIALS].
    destruct (list_find _ MANUFACTURER_SERIALS) as [[i x]|] eqn:Hf.
    + apply Z.leb_le. lia.
    + exfalso. eapply list_find_None in Hf.
      by eapply (proj1 (Forall_forall _ _) Hf serial).
Qed.

(** X19.  With the empty filter a peripheral is accepted exactly when
    its advertised name contains one of the vendor prefixes somewhere, or
    its manufacturer data is a string equal to one of the three serials. *)
Theorem validatePeripheral_empty_filter (RegExp_test : string → string → bool)
    (a : Adapter) (p : Peripheral) :
  droneFilter a = "" →
  truthy (validatePeripheral RegExp_test a (Some p)) = true ↔
    (∃ name prefix, localName p = Some name ∧ prefix ∈ DRONE_PREFIXES ∧
                    occurs_in prefix name) ∨
    (∃ serial, manufacturerData p = Some (MDString serial) ∧
               serial ∈ MANUFACTURER_SERIALS).
Proof.
  intros Hf. unfold validatePeripheral. rewrite Hf. cbn [String.eqb].
  rewrite truthy_js_or, orb_true_iff.
  by rewrite localName_match, manufacturer_match.
Qed.

Lemma validatePeripheral_empty_filter_witness :
  truthy (validatePeripheral (λ _ _, false) (constructor "") (Some mambo)) = true ↔
    (∃ name prefix, localName mambo = Some name ∧ prefix ∈ DRONE_PREFIXES ∧
                    occurs_in prefix name) ∨
    (∃ serial, manufacturerData mambo = Some (MDString serial) ∧
               serial ∈ MANUFACTURER_SERIALS).
Proof. apply validatePeripheral_empty_filter. reflexivity. Defined.

(** X20.  With a filter that is not empty the outcome rests on the filter
    as a regular expression, built on every call.  When it is a valid
    expression the vendor prefixes play no part: the peripheral is accepted
    exactly when the expression matches its advertised name (the text
    "undefined" when it advertises none), or its manufacturer data is a
    string equal to one of the three serials.  When it is not, the call
    throws a SyntaxError, whatever the peripheral advertises, a matching
    serial included. *)
Theorem validatePeripheral_with_filter
    (RegExp_new : string → option (string → bool)) (a : Adapter) (p : Peripheral) :
  droneFilter a ≠ "" →
  match RegExp_new (droneFilter a) with
  | Some re =>
      ∃ v, Compiled.validatePeripheral RegExp_new a (Some p) = Ok v ∧
           (truthy v = true ↔
              re (default "undefined" (localName p)) = true ∨
              (∃ serial, manufacturerData p = Some (MDString serial) ∧
                         serial ∈ MANUFACTURER_SERIALS))
  | None => Compiled.validatePeripheral RegExp_new a (Some p) = Throw "SyntaxError"
  end.
Proof.
  intros Hf. unfold Compiled.validatePeripheral.
  destruct (RegExp_new (droneFilter a)) as [re|]; [|done].
  eexists. split; [reflexivity|].
  unfold validatePeripheral. apply String.eqb_neq in Hf. rewrite Hf.
  rewrite truthy_js_or, orb_true_iff.
  by rewrite manufacturer_match.
Qed.

Lemma validatePeripheral_with_filter_witness :
  (∃ v, Compiled.validatePeripheral example_RegExp (constructor "^RS_")
          (Some (mkPeripheral (Some "RS_9001") None)) = Ok v ∧
        (truthy v = true ↔
           String.prefix "RS_" (default "undefined" (Some "RS_9001")) = true ∨
           (∃ serial, None = Some (MDString serial) ∧ serial ∈ MANUFACTURER_SERIALS))) ∧
  Compiled.validatePeripheral example_RegExp (constructor "(")
    (Some (mkPeripheral (Some "RS_9001") (Some (MDString "4300cf1900090100"))))
  = Throw "SyntaxError".
Proof.
  split.
  - apply (validatePeripheral_with_filter example_RegExp (constructor "^RS_")
             (mkPeripheral (Some "RS_9001") None)).
    vm_compute. discriminate.
  - apply (validatePeripheral_with_filter example_RegExp (constructor "(")
             (mkPeripheral (Some "RS_9001") (Some (MDString "4300cf1900090100")))).
    vm_compute. discriminate.
Defined.

(** ** A command frame, byte for byte *)

Lemma command_then {B} (uuid : string) (args : list Z) (rest : M B)
    (s : Adapter) (m : Z) (c : string) :
  steps s !! uuid = Some m → 0 ≤ m < 255 →
  find_characteristic uuid (characteristics s) = Some c →
  (buffer ← createBuffer uuid args; write uuid buffer;; rest) s
  = rest (add_written (mkWrite c (2 :: m + 1 :: 2 :: Buffer_from args))
            (wrapped uuid (set_steps (<[uuid := m + 1]> (steps s)) s))).
Proof.
  intros Hs Hm Hc. unfold createBuffer.
  unfold mbind at 1 2 3. unfold M_bind. rewrite (preIncrement_eq _ _ _ Hs).
  unfold mret at 1. unfold M_ret.
  rewrite (write_linked uuid _ (set_steps (<[uuid := m + 1]> (steps s)) s) c Hc).
  cbn. by rewrite !(land_255_small (m + 1)) by lia.
Qed.

(** ** The facade *)

Lemma flying_indices (i : Z) :
  bool_decide (array_get FLIGHT_STATUSES i = VStr "hovering") ||
  bool_decide (array_get FLIGHT_STATUSES i = VStr "flying") ||
  bool_decide (array_get FLIGHT_STATUSES i = VStr "rolling") ||
  bool_decide (array_get FLIGHT_STATUSES i = VStr "taking off")
  = bool_decide (i ∈ [1; 2; 3; 6]).
Proof.
  destruct (decide (0 ≤ i < 8)) as [Hi|Hi].
  - assert (i = 0 ∨ i = 1 ∨ i = 2 ∨ i = 3 ∨ i = 4 ∨ i = 5 ∨ i = 6 ∨ i = 7)
      as [->|[->|[->|[->|[->|[->|[->| ->]]]]]]] by lia; by vm_compute.
  - rewrite (array_get_out_of_range FLIGHT_STATUSES i);
      [|change (Z.of_nat (length FLIGHT_STATUSES)) with 8; lia].
    rewrite (bool_decide_eq_false_2 (i ∈ [1; 2; 3; 6])); [reflexivity|].
    intros H. repeat (apply elem_of_cons in H as [->|H]; [lia|]).
    by apply elem_of_nil in H.
Qed.

Lemma isFlying_status (fp fp' : FlightParams) (n n' : Adapter) :
  flightStatus n' = flightStatus n →
  Drone.isFlying (drone_on fp' n') = Drone.isFlying (drone_on fp n).
Proof. unfold Drone.isFlying, drone_on. cbn. by intros ->. Qed.

(** X21.  After the adapter has decoded a FlyingStateChanged frame, the
    facade's [isFlying] answers from the index at offset 6 alone: true for
    1 (taking off), 2 (hovering), 3 (flying) and 6 (rolling), false for
    every other index, those outside the table included. *)
Theorem isFlying_after_status_frame
    (fp : FlightParams) (n : Adapter) (dataType step x5 i : Z) (rest : Buffer) :
  let frame := dataType :: step :: 2 :: 3 :: 1 :: x5 :: i :: rest in
  Drone.isFlying (Drone.on_network (onRXCommandWithACK frame) (drone_on fp n)).2
  = bool_decide (i ∈ [1; 2; 3; 6]).
Proof.
  cbn zeta. rewrite <- flying_indices.
  unfold Drone.on_network, drone_on, onRXCommandWithACK, decodePacket. mstep. cbn.
  by destruct ((dataType =? 1) || (dataType =? 2) || (dataType =? 3) || (dataType =? 4)).
Qed.

(** X22.  On a linked adapter [takeoffOrLand] sends exactly one frame on
    the command characteristic: the land frame (class 0, method 3) when
    [isFlying] holds, the takeoff frame (class 0, method 1) otherwise; the
    cached flight parameters and the flight status are not touched, so the
    toggle answers the same way until a status frame arrives. *)
Theorem takeoffOrLand_sends_by_status
    (fp : FlightParams) (n : Adapter) (m : Z) (c : string) :
  steps n !! COMMAND_KEY = Some m → 0 ≤ m < 255 →
  find_characteristic COMMAND_KEY (characteristics n) = Some c →
  ∃ n', Drone.takeoffOrLand (drone_on fp n) = (Ok tt, drone_on fp n') ∧
        written n' = written n ++
          [mkWrite c [2; m + 1; 2; 0; if Drone.isFlying (drone_on fp n) then 3 else 1; 0]] ∧
        Drone.isFlying (drone_on fp n') = Drone.isFlying (drone_on fp n).
Proof.
  intros Hs Hm Hc.
  assert (∀ args text, ∃ n',
            (buffer ← createBuffer COMMAND_KEY args; write COMMAND_KEY buffer;;
             Logger info text []) n = (Ok tt, n') ∧
            written n' = written n ++ [mkWrite c (2 :: m + 1 :: 2 :: Buffer_from args)] ∧
            Drone.isFlying (drone_on fp n') = Drone.isFlying (drone_on fp n)) as Hsend.
  { intros args text. rewrite (command_then _ _ _ n m c Hs Hm Hc).
    eexists. split; [reflexivity|]. split.
    - cbn. by rewrite wrapped_written.
    - apply isFlying_status. unfold wrapped. cbn. by repeat case_match. }
  unfold Drone.takeoffOrLand.
  destruct (Hsend [MD_CLASSES.PILOTING; MD_METHODS.LAND; 0] "Land command called")
    as (n1 & Hn1 & Hw1 & Hf1).
  destruct (Hsend [MD_CLASSES.PILOTING; MD_METHODS.TAKEOFF; 0] "Takeoff command called")
    as (n2 & Hn2 & Hw2 & Hf2).
  destruct (Drone.isFlying (drone_on fp n));
    unfold Drone.land, Drone.takeOff, Drone.on_network, drone_on; cbn [Drone.network];
    unfold writeLand, writeTakeoff; rewrite ?Hn1, ?Hn2; eauto.
Qed.

Lemma takeoffOrLand_sends_by_status_witness :
  ∃ n', Drone.takeoffOrLand (drone_on (mkFlightParams 0 0 0 0) linked)
        = (Ok tt, drone_on (mkFlightParams 0 0 0 0) n') ∧
        written n' = written linked ++
          [mkWrite "9a66fa0b0800919111e4012d1540cb8e"
             [2; 0 + 1; 2; 0;
              if Drone.isFlying (drone_on (mkFlightParams 0 0 0 0) linked) then 3 else 1; 0]] ∧
        Drone.isFlying (drone_on (mkFlightParams 0 0 0 0) n')
        = Drone.isFlying (drone_on (mkFlightParams 0 0 0 0) linked).
Proof.
  apply takeoffOrLand_sends_by_status.
  - vm_compute. reflexivity.
  - lia.
  - vm_compute. reflexivity.
Defined.

(** X23.  Before [connect] the drone has no adapter: every method that
    forwards to it ([takeOff], [land], [trim], [takePicture], [emergency],
    [animate], [takeoffOrLand], [getBatteryLevel]) throws a TypeError and
    leaves the drone as it was, while [isFlying] answers false and a tick
    of the event loop returns without doing anything. *)
Theorem facade_before_connect (fp : FlightParams) (animation : string) :
  let d := Drone.mk fp None in
  Forall (λ method : Drone.t → result unit * Drone.t, method d = (Throw "TypeError", d))
    [Drone.takeOff; Drone.land; Drone.trim; Drone.takePicture; Drone.emergency;
     Drone.animate animation; Drone.takeoffOrLand] ∧
  Drone.getBatteryLevel d = Throw "TypeError" ∧
  Drone.isFlying d = false ∧
  Drone.eventLoop d = (Ok tt, d) ∧
  Drone.network (Drone.connect d) = Some (constructor "").
Proof. cbn zeta. split; [|done]. by repeat constructor. Qed.

(** X24.  Partial updates of the flight parameters compose as
    [Object.assign] does: two calls of [setFlightParams] amount to one call
    with the second argument laid over the first, a key absent from both
    keeps the value the drone had, and the adapter is never touched. *)
Theorem setFlightParams_compose (fp1 fp2 : Drone.Partial) (d : Drone.t) :
  Drone.setFlightParams fp2 (Drone.setFlightParams fp1 d)
  = Drone.setFlightParams (Object_assign fp1 fp2) d ∧
  Drone.setFlightParams (Drone.mkPartial None None None None) d = d ∧
  Drone.network (Drone.setFlightParams fp1 d) = Drone.network d.
Proof.
  destruct d as [[r p y a] n], fp1 as [[?|] [?|] [?|] [?|]], fp2 as [[?|] [?|] [?|] [?|]];
    by repeat split.
Qed.

(** ** Disconnecting *)

(** X25.  [onDisconnect] unlinks the adapter and emits one disconnected
    event, but keeps the step counters, the cached flight parameters and
    the three status fields; whatever the pilot calls afterwards writes no
    frame. *)
Theorem onDisconnect_then_calls (cs : list Command) (s : Adapter) :
  let s' := exec onDisconnect s in
  characteristics s' = [] ∧ connected s' = false ∧ peripheral s' = None ∧
  emitted s' = emitted s ++ [mkEvent "disconnected" PNone] ∧
  keeps_outbound s s' ∧
  batteryLevel s' = batteryLevel s ∧ flightStatus s' = flightStatus s ∧
  alertStatus s' = alertStatus s ∧
  written (exec (calls cs) s') = written s.
Proof.
  cbn zeta.
  assert (characteristics (exec onDisconnect s) = [] ∧
          written (exec onDisconnect s) = written s) as [Hc Hw].
  { unfold exec, onDisconnect. mstep. by destruct (connected s). }
  repeat split; try (unfold exec, onDisconnect; mstep; by destruct (connected s)).
  destruct (calls_stay_unlinked cs _ Hc) as [_ ->]. exact Hw.
Qed.

(** ** Callbacks *)

#[local] Instance quiet_preorder : PreOrder quiet.
Proof.
  split.
  - by intros s.
  - intros s1 s2 s3 [(? & ? & ?) ?] [(? & ? & ?) ?].
    repeat split; congruence.
Qed.

Lemma quiet_Logger lvl text args : ensures (Logger lvl text args) quiet (λ _, True).
Proof. by e_update. Qed.

Lemma quiet_getCharacteristic uuid : ensures (getCharacteristic uuid) quiet (λ _, True).
Proof.
  unfold getCharacteristic. apply (ensures_this quiet). intros s.
  case_bool_decide; [|by apply (ensures_ret quiet)].
  refine ((_ : ensures _ quiet (λ _, True)) s).
  e_seq; [apply quiet_Logger|]. intros _ _. by e_ret.
Qed.

Lemma quiet_on_characteristic key :
  ensures (Discovery.on_characteristic key) quiet (λ _, True).
Proof.
  unfold Discovery.on_characteristic.
  e_seq; [apply quiet_getCharacteristic|]. intros [c|] _.
  - by e_ret.
  - apply (ensures_throw quiet).
Qed.

Lemma quiet_forEach keys :
  ensures (Discovery.forEach keys Discovery.on_characteristic) quiet (λ _, True).
Proof.
  induction keys as [|key keys IH]; cbn [Discovery.forEach].
  - by e_ret.
  - e_seq; [apply quiet_on_characteristic|]. by intros _ _.
Qed.

Lemma quiet_setupPeripheral chars :
  ensures (Discovery.setupPeripheral chars) quiet (λ _, True).
Proof.
  unfold Discovery.setupPeripheral. apply (ensures_this quiet). intros s.
  destruct (peripheral s); [|by apply (ensures_ret quiet)].
  refine ((_ : ensures _ quiet (λ _, True)) s).
  e_seq; [by e_update|]. intros _ _.
  e_seq; [apply quiet_forEach|]. intros _ _.
  e_seq; [apply quiet_on_characteristic|]. intros _ _.
  e_seq; [apply quiet_on_characteristic|]. intros _ _.
  e_seq; [by e_update|]. intros _ _.
  apply quiet_Logger.
Qed.

Lemma handle_keeps (RegExp_test : string → string → bool) (cb : Callback) (s : Adapter) :
  keeps_outbound s (exec (handle RegExp_test cb) s) ∧
  (flightStatus (exec (handle RegExp_test cb) s) ≠ flightStatus s →
   ∃ data, (cb = RxWithAck data ∨ cb = RxNoAck data) ∧ triple data = Some (2, 3, 1)).
Proof.
  destruct cb as [state|p|chars| |reply|data|data]; cbn [handle].
  - unfold exec, onNobleStateChange. mstep.
    by repeat case_match.
  - unfold exec, onPeripheralDiscovery. mstep.
    by destruct (negb (truthy (validatePeripheral RegExp_test s p))).
  - by destruct (quiet_setupPeripheral chars s) as [[? ?] _].
  - unfold exec, onDisconnect. mstep. by destruct (connected s).
  - unfold exec, updateRssi. mstep. by destruct (peripheral s), reply.
  - unfold onRXCommandWithACK.
    destruct (decodePacket_effect data s)
      as (r & bl & fs & al & evs & lines & H & _ & _ & Hf & _).
    unfold exec. rewrite H. cbn. split; [done|]. intros Hne. exists data. eauto.
  - unfold onRXCommandNoACK.
    destruct (decodePacket_effect data s)
      as (r & bl & fs & al & evs & lines & H & _ & _ & Hf & _).
    unfold exec. rewrite H. cbn. split; [done|]. intros Hne. exists data. eauto.
Qed.

(** X26.  Nothing the BLE stack calls back into the adapter (state
    change, discovery, characteristics, disconnect, signal strength, the
    two receive channels) writes a frame, moves a step counter or changes
    the cached flight parameters. *)
Theorem callbacks_keep_outbound
    (RegExp_test : string → string → bool) (cb : Callback) (s : Adapter) :
  keeps_outbound s (exec (handle RegExp_test cb) s).
Proof. apply handle_keeps. Qed.

(** X27.  The answer of [isFlying] changes only when a receive channel
    delivers a FlyingStateChanged frame (project 2, class 3, command 1):
    no other callback, a disconnect included, and no other frame makes a
    flying drone appear landed or a landed one flying. *)
Theorem isFlying_changes_only_by_status_frame
    (RegExp_test : string → string → bool) (cb : Callback)
    (fp : FlightParams) (n : Adapter) :
  Drone.isFlying (Drone.on_network (handle RegExp_test cb) (drone_on fp n)).2
    ≠ Drone.isFlying (drone_on fp n) →
  ∃ data, (cb = RxWithAck data ∨ cb = RxNoAck data) ∧ triple data = Some (2, 3, 1).
Proof.
  intros Hne. apply (handle_keeps RegExp_test cb n). intros Heq. apply Hne.
  unfold Drone.on_network, exec in *. cbn [Drone.network drone_on] in *.
  destruct (handle RegExp_test cb n) as [r n']. cbn [snd] in *.
  by apply (isFlying_status fp fp n n').
Qed.

Lemma isFlying_changes_only_by_status_frame_witness :
  ∃ data, (RxWithAck [4; 1; 2; 3; 1; 0; 2] = RxWithAck data ∨
           RxWithAck [4; 1; 2; 3; 1; 0; 2] = RxNoAck data) ∧
          triple data = Some (2, 3, 1).
Proof.
  apply (isFlying_changes_only_by_status_frame (λ _ _, false) _
           (mkFlightParams 0 0 0 0) linked).
  vm_compute. discriminate.
Defined.

(** ** The createBuffer variant *)

Lemma command_unlinked {B} (uuid : string) (args : list Z) (rest : M B)
    (s : Adapter) (m : Z) :
  steps s !! uuid = Some m → characteristics s = [] →
  (buffer ← createBuffer uuid args; write uuid buffer;; rest) s
  = rest (add_logged
            (mkLog warn "You must have bluetooth enabled and be connected to a drone before executing a command." [])
            (set_steps (<[uuid := m + 1]> (steps s)) s)).
Proof.
  intros Hs Hc. unfold createBuffer.
  unfold mbind at 1 2 3. unfold M_bind. rewrite (preIncrement_eq _ _ _ Hs).
  unfold mret at 1. unfold M_ret.
  by rewrite (write_unlinked uuid _ (set_steps (<[uuid := m + 1]> (steps s)) s) Hc).
Qed.

(** X28.  In the variant that builds them with [createBuffer], the four
    limit setters count on the command channel.  On an adapter without
    characteristics, the only kind this variant reaches since its discovery
    callback stores none, each of them returns, writes nothing, leaves the
    adapter without characteristics, moves the command counter one up,
    whatever it was, and no other counter, and emits its change event with
    the value as it was given although nothing was sent. *)
Theorem Variant_limit_counts_on_command
    (setter : Z → M unit) (event : string) (s : Adapter) (m v : Z) :
  (setter, event) ∈
    [ (Variant.writeMaxAltitude, "maxAltitudeChange");
      (Variant.writeMaxTilt, "maxTiltChange");
      (Variant.writeMaxVerticalSpeed, "maxVerticalSpeedChange");
      (Variant.writeMaxRotationSpeed, "maxRotationSpeedChange") ] →
  characteristics s = [] →
  steps s !! COMMAND_KEY = Some m →
  ∃ s', setter v s = (Ok tt, s') ∧
        written s' = written s ∧
        characteristics s' = [] ∧
        steps s' !! COMMAND_KEY = Some (m + 1) ∧
        (∀ k, k ≠ COMMAND_KEY → steps s' !! k = steps s !! k) ∧
        emitted s' = emitted s ++ [mkEvent event (PValue (VNum v))].
Proof.
  intros Hin Hc Hs.
  repeat (apply elem_of_cons in Hin as [Hin|Hin]; [injection Hin as -> ->|]);
    [..|by apply elem_of_nil in Hin].
  all: unfold Variant.writeMaxAltitude, Variant.writeMaxTilt,
         Variant.writeMaxVerticalSpeed, Variant.writeMaxRotationSpeed, Variant.writeLimit;
       rewrite (command_unlinked _ _ _ s m Hs Hc);
       (eexists; split; [reflexivity|]); cbn;
       rewrite lookup_insert_eq;
       repeat split; try done;
       intros k Hk; by rewrite lookup_insert_ne.
Qed.

Lemma Variant_limit_counts_on_command_witness :
  ∃ s', Variant.writeMaxAltitude 300 (constructor "") = (Ok tt, s') ∧
        written s' = written (constructor "") ∧
        characteristics s' = [] ∧
        steps s' !! COMMAND_KEY = Some (0 + 1) ∧
        (∀ k, k ≠ COMMAND_KEY → steps s' !! k = steps (constructor "") !! k) ∧
        emitted s' = emitted (constructor "") ++
                     [mkEvent "maxAltitudeChange" (PValue (VNum 300))].
Proof.
  apply (Variant_limit_counts_on_command Variant.writeMaxAltitude).
  - apply list_elem_of_here.
  - reflexivity.
  - vm_compute. reflexivity.
Defined.

Lemma on_characteristic_unlinked (key : string) (s : Adapter) :
  characteristics s = [] →
  Discovery.on_characteristic key s
  = (Throw "TypeError",
     add_logged (mkLog warn "BTLE Device must be connected before calling this method" []) s).
Proof.
  intros Hc. unfold Discovery.on_characteristic, getCharacteristic. mstep.
  by rewrite bool_decide_eq_true_2.
Qed.

(** X29.  In that variant the discovery callback of [setupPeripheral]
    never links the adapter: it does not store the characteristics it
    receives, so on an adapter without characteristics the first
    subscription finds none and the callback throws a TypeError, whatever
    characteristics the peripheral has; the adapter is left without
    characteristics, [connected] as it was, and with one warning more in
    the log as the only change. *)
Theorem Variant_setupPeripheral_never_links
    (chars : list string) (s : Adapter) (p : Peripheral) :
  characteristics s = [] → peripheral s = Some p →
  Variant.setupPeripheral chars s
  = (Throw "TypeError",
     with_lines [mkLog warn "BTLE Device must be connected before calling this method" []] s).
Proof.
  intros Hc Hp. unfold Variant.setupPeripheral.
  rewrite bind_this, Hp. unfold CHARACTERISTIC_MAP. cbn [Discovery.forEach].
  rewrite (bind_throw _ _ s _ _
             (bind_throw _ _ s _ _ (on_characteristic_unlinked RX_COMMAND_NO_ACK s Hc))).
  reflexivity.
Qed.

Lemma Variant_setupPeripheral_never_links_witness :
  let s := exec (onPeripheralDiscovery (λ _ _, false) (Some mambo)) (constructor "") in
  Variant.setupPeripheral mambo_characteristics s
  = (Throw "TypeError",
     with_lines [mkLog warn "BTLE Device must be connected before calling this method" []] s).
Proof.
  apply (Variant_setupPeripheral_never_links _ _ mambo); reflexivity.
Defined.
